(** * Market price forecasting engine (naariudyami-backend)

    A shallow embedding of
      src/services/ai-enhanced/price-predictor/government-scraper.ts
      src/services/ai-enhanced/price-predictor/forecasting-model.ts
    and of their callers, [predictPrice] of
    src/controllers/productController.ts and [predictMarketPrice] of the
    hub controller (src/unnamed/part_001); the properties of the
    forecasting core that the specification states about them, and further
    properties of the cache, the parser, the two paths of a forecast and
    the controllers.

    JavaScript numbers are IEEE-754 binary64 values, embedded as Rocq's
    primitive floats; exceptions and the scraper's cache are threaded
    through a small state-and-exception monad; everything the program
    obtains from outside (clock, configuration, network, Math.random,
    Math.sin, parseFloat, Date parsing) is a field of an environment. *)

From Stdlib Require Import ZArith List Floats Lia Bool.
From stdpp Require Import base option list gmap strings pretty.
Import ListNotations.

#[local] Set Warnings "-inexact-float,-register-all".
#[local] Open Scope Z_scope.

(* ===================================================================== *)
(** * JavaScript numbers                                                  *)
(* ===================================================================== *)

Module Js.

Definition number := float.

(** An integer as a Number (correctly rounded; exact below 2^53). *)
Definition of_Z (z : Z) : number :=
  SF2Prim (binary_normalize prec emax z 0 false).

Definition of_nat (n : nat) : number := of_Z (Z.of_nat n).

(** [Math.round]: the nearest integer, ties towards +Infinity; NaN, the
    infinities and the zeros are returned unchanged and a negative argument
    that rounds to zero gives -0. *)
Definition Math_round (x : number) : number :=
  match Prim2SF x with
  | S754_finite s m e =>
      if 0 <=? e then x
      else
        let k := - e in
        let sm := if s then Z.neg m else Z.pos m in
        let r := (2 * sm + 2 ^ k) / 2 ^ (k + 1) in
        if r =? 0 then (if s then neg_zero else zero) else of_Z r
  | _ => x
  end.

(** [Math.max(0, x)]. *)
Definition Math_max0 (x : number) : number :=
  if is_nan x then nan else if (0 <? x)%float then x else zero.

Definition Math_sqrt (x : number) : number := PrimFloat.sqrt x.

(** [Math.pow(x, 2)], the correctly rounded square. *)
Definition Math_pow2 (x : number) : number := (x * x)%float.

Definition Math_PI : number := 3.141592653589793%float.

(** [Array.prototype.reduce((a, b) => a + b, 0)]. *)
Definition sum (l : list number) : number :=
  fold_left PrimFloat.add l zero.

(** Truthiness of a Number: 0, -0 and NaN are falsy. *)
Definition truthy_number (x : number) : bool :=
  negb (is_nan x || is_zero x).

(** [x || d] on Numbers. *)
Definition number_or (x d : number) : number :=
  if truthy_number x then x else d.

(** ** Values decoded from JSON *)

Inductive JsValue : Type :=
  | JUndefined
  | JNull
  | JBool (b : bool)
  | JNum (x : number)
  | JStr (s : string)
  | JArr (items : list JsValue)
  | JObj (props : list (string * JsValue)).

Definition truthy (v : JsValue) : bool :=
  match v with
  | JUndefined | JNull => false
  | JBool b => b
  | JNum x => truthy_number x
  | JStr s => negb (String.eqb s "")
  | JArr _ | JObj _ => true
  end.

(** [v || d]. *)
Definition or_else (v d : JsValue) : JsValue :=
  if truthy v then v else d.

(** ** Exceptions *)

Inductive JsError : Type :=
  | TypeError
  | RangeError
  | SyntaxError
  | Error (message : string).

Inductive Completion (A : Type) : Type :=
  | Normal (a : A)
  | Throw (e : JsError).
Arguments Normal {A} a.
Arguments Throw {A} e.

(** Own property of a JSON object; [JSON.parse] keeps the last duplicate. *)
Fixpoint own_property (props : list (string * JsValue)) (k : string)
  : option JsValue :=
  match props with
  | [] => None
  | (k', v) :: rest =>
      match own_property rest k with
      | Some w => Some w
      | None => if String.eqb k' k then Some v else None
      end
  end.

(** [v.k] for the property names the scraper reads ([records], [Commodity],
    [Min_Price], ...): none of them is a built-in property of a primitive, an
    array or [Object.prototype], so only an own property of an object answers;
    reading a property of [null] or [undefined] throws. *)
Definition get (v : JsValue) (k : string) : Completion JsValue :=
  match v with
  | JUndefined | JNull => Throw TypeError
  | JObj props => Normal (default JUndefined (own_property props k))
  | _ => Normal JUndefined
  end.

(** ** Strings *)

Definition lower_ascii (c : Ascii.ascii) : Ascii.ascii :=
  let n := Ascii.nat_of_ascii c in
  if ((65 <=? n) && (n <=? 90))%nat then Ascii.ascii_of_nat (n + 32) else c.

(** [String.prototype.toLowerCase]; strings are byte strings, and only the
    ASCII letters are mapped. *)
Fixpoint toLowerCase (s : string) : string :=
  match s with
  | EmptyString => EmptyString
  | String c rest => String (lower_ascii c) (toLowerCase rest)
  end.

(** Names that every object literal inherits from [Object.prototype]. *)
Definition object_prototype_names : list string :=
  [ "constructor"; "__proto__"; "hasOwnProperty"; "isPrototypeOf";
    "propertyIsEnumerable"; "toLocaleString"; "toString"; "valueOf";
    "__defineGetter__"; "__defineSetter__"; "__lookupGetter__";
    "__lookupSetter__" ]%string.

Fixpoint assoc (tbl : list (string * number)) (k : string) : option number :=
  match tbl with
  | [] => None
  | (k', v) :: rest => if String.eqb k' k then Some v else assoc rest k
  end.

(** [tbl[k] || d] for an object literal [tbl] of Numbers (keys distinct),
    read as a Number. An inherited member is a truthy object, which the
    arithmetic that follows converts to NaN. *)
Definition table_or (tbl : list (string * number)) (k : string) (d : number)
  : number :=
  match assoc tbl k with
  | Some x => number_or x d
  | None =>
      if bool_decide (k ∈ object_prototype_names) then nan else d
  end.

(** ** Dates *)

(** A [Date] holds a time value: milliseconds since the epoch, or NaN
    ([None]) once a computation leaves the range of +-10^8 days. *)
Definition msPerDay : Z := 86400000.
Definition maxTime : Z := 8640000000000000.

Definition TimeClip (t : Z) : option Z :=
  if (- maxTime <=? t) && (t <=? maxTime) then Some t else None.

(** [d.setDate(d.getDate() + i)] on a date with time value [t]; the host's
    time zone has a fixed offset, so the local calendar day moves by whole
    days of 86400000 ms. *)
Definition addDays (t : Z) (i : Z) : option Z :=
  TimeClip (t + i * msPerDay).

(** Calendar date of a day number (days since 1970-01-01). *)
Definition civil (day : Z) : Z * Z * Z :=
  let z := day + 719468 in
  let era := z / 146097 in
  let doe := z - era * 146097 in
  let yoe := (doe - doe / 1460 + doe / 36524 - doe / 146096) / 365 in
  let doy := doe - (365 * yoe + yoe / 4 - yoe / 100) in
  let mp := (5 * doy + 2) / 153 in
  let d := doy - (153 * mp + 2) / 5 + 1 in
  let m := if mp <? 10 then mp + 3 else mp - 9 in
  let y := yoe + era * 400 + (if m <=? 2 then 1 else 0) in
  (y, m, d).

Fixpoint zeros (n : nat) : string :=
  match n with
  | O => EmptyString
  | S n' => ("0" ++ zeros n')%string
  end.

Definition pad (width : nat) (z : Z) : string :=
  let s := pretty (Z.abs z) in
  (zeros (width - String.length s) ++ s)%string.

Definition year_string (y : Z) : string :=
  if (0 <=? y) && (y <=? 9999) then pad 4 y
  else if y <? 0 then ("-" ++ pad 6 y)%string else ("+" ++ pad 6 y)%string.

(** The [YYYY-MM-DD] text of a day number. *)
Definition calendar_date (day : Z) : string :=
  let '(y, m, d) := civil day in
  (year_string y ++ "-" ++ pad 2 m ++ "-" ++ pad 2 d)%string.

(** The UTC day a time value falls on. *)
Definition utc_day (t : Z) : Z := t / msPerDay.

Definition date_string (t : Z) : string := calendar_date (utc_day t).

Definition time_string (t : Z) : string :=
  let ms := t mod msPerDay in
  let hh := pad 2 (ms / 3600000) in
  let mm := pad 2 (ms / 60000 mod 60) in
  let ss := pad 2 (ms / 1000 mod 60) in
  let sss := pad 3 (ms mod 1000) in
  (hh ++ ":" ++ mm ++ ":" ++ ss ++ "." ++ sss ++ "Z")%string.

(** [d.toISOString()]: throws a RangeError on an invalid date. *)
Definition toISOString (d : option Z) : Completion string :=
  match d with
  | Some t => Normal (date_string t ++ "T" ++ time_string t)%string
  | None => Throw RangeError
  end.

(** [d.toISOString().split('T')[0]]. *)
Definition isoDate (d : option Z) : Completion string :=
  match d with
  | Some t => Normal (date_string t)
  | None => Throw RangeError
  end.

(** [d.getMonth()] (0 = January) in a host zone [tz] ms ahead of UTC. *)
Definition getMonth (tz t : Z) : Z :=
  let '(_, m, _) := civil ((t + tz) / msPerDay) in m - 1.

End Js.

Import Js.

(* ===================================================================== *)
(** * The environment, the store and the monad                            *)
(* ===================================================================== *)

(** The body of an HTTP response as [response.json()] sees it. *)
Inductive Body : Type :=
  | InvalidJSON
  | Json (data : JsValue).

(** What [await fetch(url)] does: reject, or resolve to a response. *)
Inductive FetchOutcome : Type :=
  | NetworkError
  | Response (ok : bool) (body : Body).

(** Everything a call obtains from outside the program. A call is short, so
    the clock reads the same instant [now] throughout it. *)
Record Env : Type := {
  (* Date.now(), new Date() *)
  now : Z;
  (* local time - UTC, in ms *)
  tz : Z;
  (* process.env.AGMARKNET_ENABLED === 'true' *)
  agmarknet_enabled : bool;
  (* process.env.DATA_GOV_IN_API_KEY || '' *)
  agmarknet_apiKey : string;
  (* await fetch(url) *)
  fetch : string -> FetchOutcome;
  (* the n-th draw of the process *)
  Math_random : nat -> number;
  (* Math.sin off its exact cases *)
  Math_sin_approx : number -> number;
  parseFloat : JsValue -> number;
  (* new Date(v).getTime(); None = NaN *)
  Date_getTime : JsValue -> option Z
}.

Module GovernmentPriceScraper.

Record PriceData : Type := {
  commodity : JsValue;
  category : string;
  minPrice : number;
  maxPrice : number;
  modalPrice : number;
  date : JsValue;
  market : JsValue;
  source : string
}.

Inductive Trend : Type := up | down | stable.

Record PriceHistory : Type := {
  dates : list JsValue;
  prices : list number;
  trend : Trend;
  changePercent : number
}.

Record CacheEntry : Type := {
  data : list PriceData;
  timestamp : Z
}.

End GovernmentPriceScraper.

(** The state that outlives a call: the scraper's cache and the number of
    [Math.random] draws made so far. *)
Record Store : Type := {
  cache : gmap string GovernmentPriceScraper.CacheEntry;
  draws : nat
}.

Definition M (A : Type) : Type := Store -> Completion A * Store.

Definition ret {A} (a : A) : M A := fun s => (Normal a, s).

Definition throw {A} (e : JsError) : M A := fun s => (Throw e, s).

Definition bind {A B} (m : M A) (k : A -> M B) : M B :=
  fun s =>
    match m s with
    | (Normal a, s') => k a s'
    | (Throw e, s') => (Throw e, s')
    end.

(** [try { m } catch (error) { h }]. *)
Definition try_catch {A} (m : M A) (h : JsError -> M A) : M A :=
  fun s =>
    match m s with
    | (Normal a, s') => (Normal a, s')
    | (Throw e, s') => h e s'
    end.

Definition lift {A} (c : Completion A) : M A := fun s => (c, s).

Notation "x <- m ;; k" := (bind m (fun x => k))
  (at level 20, m at level 99, k at level 200, only parsing).
Notation "' p <- m ;; k" := (bind m (fun x => let 'p := x in k))
  (at level 20, p pattern, m at level 99, k at level 200, only parsing).

(** The body of a [for] loop run over the values of its counter, collecting
    what each round pushes; a round that throws ends the loop. *)
Fixpoint for_each {A B} (body : A -> M B) (l : list A) : M (list B) :=
  match l with
  | [] => ret []
  | i :: rest =>
      y <- body i ;;
      ys <- for_each body rest ;;
      ret (y :: ys)
  end.

Definition cbind {A B} (c : Completion A) (k : A -> Completion B)
  : Completion B :=
  match c with
  | Normal a => k a
  | Throw e => Throw e
  end.

(** [items.map(f)] with a callback that may throw. *)
Fixpoint cmap {A B} (f : A -> Completion B) (l : list A)
  : Completion (list B) :=
  match l with
  | [] => Normal []
  | x :: rest =>
      cbind (f x) (fun y => cbind (cmap f rest) (fun ys => Normal (y :: ys)))
  end.

(** [i = 1, 2, ..., n] ([for (let i = 1; i <= n; i++)]). *)
Definition upto (n : Z) : list Z :=
  map (fun k => 1 + Z.of_nat k) (seq 0 (Z.to_nat n)).

(** [i = 0, 1, ..., n - 1] ([for (let i = 0; i < n; i++)]). *)
Definition below (n : Z) : list Z :=
  map Z.of_nat (seq 0 (Z.to_nat n)).

(** [i = n, n - 1, ..., 0] ([for (let i = n; i >= 0; i--)]). *)
Definition downto0 (n : Z) : list Z :=
  map (fun k => n - Z.of_nat k) (seq 0 (Z.to_nat (n + 1))).

(** [l.slice(start)] for an integer [start]. *)
Definition slice_from {A} (start : Z) (l : list A) : list A :=
  let len := Z.of_nat (length l) in
  let k := if start <? 0 then Z.max (len + start) 0 else Z.min start len in
  drop (Z.to_nat k) l.

(** [l.slice(0, n)]. *)
Definition slice_to {A} (n : nat) (l : list A) : list A := take n l.

(** [Array.prototype.sort(compare)], which sorts in place and is stable:
    [before a b] says that [compare(a, b)] is negative. Every stable sort
    returns this list when [compare] is a consistent ordering; ECMAScript
    leaves the order to the engine when it is not. *)
Section Sort.
Context {A : Type} (before : A -> A -> bool).

Fixpoint insert_sorted (x : A) (l : list A) : list A :=
  match l with
  | [] => [x]
  | y :: rest =>
      if before y x then y :: insert_sorted x rest else x :: y :: rest
  end.

Fixpoint sort (l : list A) : list A :=
  match l with
  | [] => []
  | x :: rest => insert_sorted x (sort rest)
  end.

(** No element is placed before one that comes [before] it. *)
Fixpoint ordered (l : list A) : Prop :=
  match l with
  | [] => True
  | x :: rest =>
      match rest with
      | [] => True
      | y :: _ => before y x = false
      end /\ ordered rest
  end.
End Sort.

(* ===================================================================== *)
(** * government-scraper.ts                                               *)
(* ===================================================================== *)

Module Scraper.
Import GovernmentPriceScraper.

Section WithEnv.
Variable env : Env.

(** [Math.random()]: the next draw. *)
Definition random : M number :=
  fun s => (Normal (Math_random env (draws s)),
            {| cache := cache s; draws := S (draws s) |}).

(** [Math.sin(x)]: NaN for NaN and the infinities, [x] for +-0. *)
Definition Math_sin (x : number) : number :=
  if is_nan x || is_infinity x then nan
  else if is_zero x then x
  else Math_sin_approx env x.

(** [new Date()] moved by [i] days. *)
Definition today_plus (i : Z) : option Z :=
  match TimeClip (now env) with
  | Some t => addDays t i
  | None => None
  end.

Definition cacheExpiry : Z := 3600000. (* 1 hour *)

Definition getFromCache (key : string) : M (option (list PriceData)) :=
  fun s =>
    match cache s !! key with
    | Some cached =>
        if now env - timestamp cached <? cacheExpiry
        then (Normal (Some (data cached)), s)
        else (Normal None, s)
    | None => (Normal None, s)
    end.

Definition saveToCache (key : string) (d : list PriceData) : M unit :=
  fun s =>
    (Normal tt,
     {| cache := <[key := {| data := d; timestamp := now env |}]> (cache s);
        draws := draws s |}).

(** ** parseAGMARKNETResponse *)

Definition parse_record (category : string) (record : JsValue)
  : Completion PriceData :=
  cbind (get record "Commodity") (fun c =>
  cbind (get record "Min_Price") (fun lo =>
  cbind (get record "Max_Price") (fun hi =>
  cbind (get record "Modal_Price") (fun modal =>
  cbind (get record "Price_Date") (fun d =>
  cbind (if truthy d then Normal d
         else cbind (toISOString (TimeClip (now env)))
                    (fun iso => Normal (JStr iso))) (fun d' =>
  cbind (get record "Market_Name") (fun m =>
  Normal {| commodity := or_else c (JStr "Unknown");
            category := category;
            minPrice := number_or (parseFloat env lo) 0%float;
            maxPrice := number_or (parseFloat env hi) 0%float;
            modalPrice := number_or (parseFloat env modal) 0%float;
            date := d';
            market := or_else m (JStr "Various Markets");
            source := "AGMARKNET" |}))))))).

Definition parseAGMARKNETResponse (payload : JsValue) (category : string)
  : list PriceData :=
  let attempt :=
    cbind (get payload "records") (fun r =>
      match or_else r (JArr []) with
      | JArr records => cmap (parse_record category) records
      | _ => Throw TypeError      (* records.map is not a function *)
      end) in
  match attempt with
  | Normal l => l
  | Throw _ => []
  end.

(** ** getFallbackPrices *)

Definition fallback_basePrices : list (string * number) :=
  [ ("textiles", 2000); ("spices", 150); ("handicrafts", 500);
    ("food products", 100); ("pottery", 300); ("jewelry", 1500);
    ("home decor", 800) ]%string%float.

Definition getFallbackPrices (category : string) : M (list PriceData) :=
  let basePrice :=
    table_or fallback_basePrices (toLowerCase category) 500%float in
  (* Generate 30 days of mock data with realistic variation *)
  for_each (fun i : Z =>
    let d := today_plus (- i) in
    r <- random ;;
    let variation := ((r - 0.5) * 0.2)%float in
    let seasonality := (Math_sin (of_Z i / 30 * Math_PI) * 0.1)%float in
    let trend := (of_Z i * 0.002)%float in
    let modal :=
      Math_round (basePrice * (1 + variation + seasonality + trend))%float in
    iso <- lift (isoDate d) ;;
    ret {| commodity := JStr category;
           category := category;
           minPrice := Math_round (modal * 0.9)%float;
           maxPrice := Math_round (modal * 1.1)%float;
           modalPrice := modal;
           date := JStr iso;
           market := JStr "Multiple Markets";
           source := "Simulated Data" |})
    (below 30).

(** ** fetchAGMARKNETPrices *)

Definition commodityMap : list (string * string) :=
  [ ("textiles", "cotton"); ("spices", "turmeric"); ("handicrafts", "bamboo");
    ("food products", "rice"); ("pottery", "clay") ]%string.

Fixpoint assoc_string (tbl : list (string * string)) (k : string)
  : option string :=
  match tbl with
  | [] => None
  | (k', v) :: rest => if String.eqb k' k then Some v else assoc_string rest k
  end.

(** [commodityMap[key] || 'general'] as the URL template prints it; an
    inherited member prints as an object or a native function. *)
Definition commodity_of (key : string) : string :=
  match assoc_string commodityMap key with
  | Some c => c
  | None =>
      if bool_decide (key ∈ object_prototype_names) then
        if String.eqb key "__proto__" then "[object Object]"
        else if String.eqb key "constructor"
             then "function Object() { [native code] }"
             else ("function " ++ key ++ "() { [native code] }")%string
      else "general"
  end.

Definition baseUrl : string := "https://api.data.gov.in/resource".

Definition request_url (apiKey commodity : string) : string :=
  (baseUrl ++ "/agmarknet-prices" ++ "?api-key=" ++ apiKey
     ++ "&format=json&filters[Commodity]=" ++ commodity ++ "&limit=50")%string.

(** [await fetch(url)] followed by the [ok] test and [await response.json()]. *)
Definition fetch_json (url : string) : M JsValue :=
  match fetch env url with
  | NetworkError => throw TypeError
  | Response false _ => throw (Error "Failed to fetch from AGMARKNET")
  | Response true InvalidJSON => throw SyntaxError
  | Response true (Json payload) => ret payload
  end.

(** The array that is returned comes with the cache key under which the
    very same array object is stored, if it is: the caller sorts it in
    place. *)
Definition fetchAGMARKNETPrices (category : string)
  : M (list PriceData * option string) :=
  let cacheKey := ("agmarknet:" ++ category)%string in
  cached <- getFromCache cacheKey ;;
  match cached with
  | Some d => ret (d, Some cacheKey)
  | None =>
      try_catch
        (if negb (agmarknet_enabled env) then
           l <- getFallbackPrices category ;; ret (l, None)
         else
           let apiKey := agmarknet_apiKey env in
           if String.eqb apiKey "" then
             l <- getFallbackPrices category ;; ret (l, None)
           else
             let commodity := commodity_of (toLowerCase category) in
             payload <- fetch_json (request_url apiKey commodity) ;;
             let prices := parseAGMARKNETResponse payload category in
             _ <- saveToCache cacheKey prices ;;
             ret (prices, Some cacheKey))
        (fun _ => l <- getFallbackPrices category ;; ret (l, None))
  end.

(** ** generateMockHistory *)

Definition mock_basePrices : list (string * number) :=
  [ ("textiles", 2000); ("spices", 150); ("handicrafts", 500);
    ("food products", 100); ("pottery", 300) ]%string%float.

(** [compare(a, b) < 0] for the comparator of [fetchPriceHistory]; a date
    that does not parse makes the difference NaN, which [sort] reads as 0. *)
Definition date_before (a b : PriceData) : bool :=
  match Date_getTime env (date a), Date_getTime env (date b) with
  | Some ta, Some tb => ta - tb <? 0
  | _, _ => false
  end.

(** Lines 101-113 of [fetchPriceHistory], written once more at lines
    214-222 of [generateMockHistory]. *)
Definition recentAvg (priceValues : list number) : number :=
  (sum (slice_from (-7) priceValues) / 7)%float.

Definition oldAvg (priceValues : list number) : number :=
  (sum (slice_to 7 priceValues) / 7)%float.

Definition changePercent_of (priceValues : list number) : number :=
  ((recentAvg priceValues - oldAvg priceValues) / oldAvg priceValues
   * 100)%float.

Definition trend_of (changePercent : number) : Trend :=
  if (5 <? changePercent)%float then up
  else if (changePercent <? -5)%float then down
  else stable.

(** [Math.round(x * 100) / 100]. *)
Definition round2 (x : number) : number :=
  (Math_round (x * 100) / 100)%float.

Definition generateMockHistory (category : string) (days : Z)
  : M PriceHistory :=
  let basePrice := table_or mock_basePrices (toLowerCase category) 500%float in
  points <- for_each (fun i : Z =>
    iso <- lift (isoDate (today_plus (- i))) ;;
    r <- random ;;
    let variation := ((r - 0.5) * 0.15)%float in
    let seasonality := (Math_sin (of_Z i / 30 * Math_PI) * 0.08)%float in
    let trend := (of_Z i * 0.001)%float in
    ret (JStr iso,
         Math_round (basePrice * (1 + variation + seasonality + trend))%float))
    (downto0 days) ;;
  let dates := map fst points in
  let prices := map snd points in
  let changePercent := changePercent_of prices in
  ret {| dates := dates;
         prices := prices;
         trend := trend_of changePercent;
         changePercent := round2 changePercent |}.

(** ** fetchPriceHistory *)

(** [prices.sort(...)]: the array is sorted in place, so a cached array is
    sorted inside the cache as well. *)
Definition sort_in_place (prices : list PriceData) (alias : option string)
  : M (list PriceData) :=
  fun s =>
    let sorted := sort date_before prices in
    match alias with
    | Some key =>
        (Normal sorted,
         {| cache := alter (fun entry => {| data := sorted;
                                             timestamp := timestamp entry |})
                           key (cache s);
            draws := draws s |})
    | None => (Normal sorted, s)
    end.

Definition fetchPriceHistory (category : string) (days : Z)
  : M PriceHistory :=
  try_catch
    ('(prices, alias) <- fetchAGMARKNETPrices category ;;
     if (length prices =? 0)%nat then generateMockHistory category days
     else
       (* Sort by date and extract time series *)
       sorted <- sort_in_place prices alias ;;
       let sortedPrices := slice_from (- days) sorted in
       let dates := map date sortedPrices in
       let priceValues := map modalPrice sortedPrices in
       (* Calculate trend *)
       let changePercent := changePercent_of priceValues in
       ret {| dates := dates;
              prices := priceValues;
              trend := trend_of changePercent;
              changePercent := round2 changePercent |})
    (fun _ => generateMockHistory category days).

End WithEnv.
End Scraper.

(* ===================================================================== *)
(** * forecasting-model.ts                                                *)
(* ===================================================================== *)

Module ForecastingModel.
Import GovernmentPriceScraper.

Inductive Confidence : Type := low | medium | high.

Record Prediction : Type := {
  date : string;
  predictedPrice : number;
  confidence : Confidence;
  lowerBound : number;
  upperBound : number
}.

(** The strings of [insights]; a template literal is kept as its template
    with the values it interpolates. *)
Inductive Insight : Type :=
  | TrendingUpward (changePercent : number)
      (* `Prices are trending upward (+${changePercent.toFixed(1)}%). ...` *)
  | TrendingDownward (changePercent : number)
      (* `Prices are trending downward (${changePercent.toFixed(1)}%). ...` *)
  | PricesStable
      (* 'Prices are stable. Good time to maintain consistent pricing.' *)
  | ForecastIncrease
      (* `Next week's forecast shows potential 5-7% price increase. ...` *)
  | ForecastDecrease
      (* `Next week's forecast shows potential price decrease. ...` *)
  | FestivalSeason (category : string)
      (* `Festival season ahead! Demand for ${category} typically ...` *)
  | DaysOfData (n : nat)
      (* `Based on ${history.dates.length} days of market data ...` *)
  | Literal (text : string).

Record ForecastResult : Type := {
  predictions : list Prediction;
  currentPrice : number;
  trend : Trend;
  seasonality : string;
  insights : list Insight
}.

Record LinearTrend : Type := { slope : number; intercept : number }.

(** [prices[prices.length - 1]]; reading past the end gives [undefined],
    a NaN in arithmetic. *)
Definition last_price (prices : list number) : number := List.last prices nan.

(** ** calculateTrend *)

Record Sums : Type := {
  sumX : number;
  sumY : number;
  sumXY : number;
  sumXX : number
}.

Definition calculateTrend (prices : list number) : LinearTrend :=
  let n := of_nat (length prices) in
  let step (acc : Sums) (ip : nat * number) : Sums :=
    let i := of_nat (fst ip) in
    let p := snd ip in
    {| sumX := (sumX acc + i)%float;
       sumY := (sumY acc + p)%float;
       sumXY := (sumXY acc + i * p)%float;
       sumXX := (sumXX acc + i * i)%float |} in
  let s := fold_left step (imap pair prices)
             {| sumX := 0; sumY := 0; sumXY := 0; sumXX := 0 |}%float in
  let slope :=
    ((n * sumXY s - sumX s * sumY s) / (n * sumXX s - sumX s * sumX s))%float in
  let intercept := ((sumY s - slope * sumX s) / n)%float in
  {| slope := slope; intercept := intercept |}.

(** ** calculateSeasonality *)

Definition cycleLength : nat := 7. (* Weekly pattern *)

Definition calculateSeasonality (prices : list number) : list number :=
  let overallMean := (sum prices / of_nat (length prices))%float in
  let step (acc : list number * list nat) (ip : nat * number) :=
    let dayOfCycle := (fst ip mod cycleLength)%nat in
    (alter (fun x => x + snd ip)%float dayOfCycle (fst acc),
     alter S dayOfCycle (snd acc)) in
  let '(seasonalFactors, counts) :=
    fold_left step (imap pair prices)
      (replicate cycleLength 0%float, replicate cycleLength 0%nat) in
  imap (fun i total =>
          let count := nth i counts 0%nat in
          let avg := if (0 <? count)%nat then (total / of_nat count)%float
                     else overallMean in
          (avg / overallMean)%float)
       seasonalFactors.

(** ** calculateVolatility *)

Definition calculateVolatility (prices : list number) : number :=
  let mean := (sum prices / of_nat (length prices))%float in
  let variance :=
    (fold_left (fun acc price => acc + Math_pow2 (price - mean))%float
               prices 0%float
     / of_nat (length prices))%float in
  Math_sqrt variance.

(** ** detectSeasonality *)

Definition detectSeasonality (prices : list number) : string :=
  if (length prices <? 30)%nat then
    "Insufficient data for seasonality detection"
  else
    let volatility := calculateVolatility prices in
    let mean := (sum prices / of_nat (length prices))%float in
    let cv := (volatility / mean)%float in
    if (cv <? 0.1)%float then "Low seasonality - stable prices"
    else if (cv <? 0.2)%float then "Moderate seasonality - some variation"
    else "High seasonality - significant variation".

Section WithEnv.
Variable env : Env.

(** ** generateForecasts *)

Definition confidence_of (i : Z) : Confidence :=
  if 30 <? i then low else if 7 <? i then medium else high.

(** What round [i] of the loop of [generateForecasts] pushes, given the
    text [iso] of its date. The trend, the seasonal factors and the
    volatility depend on the prices alone; the source computes them once,
    before the loop. *)
Definition forecast_point (prices : list number) (i : Z) (iso : string)
  : Prediction :=
  let n := length prices in
  let trend := calculateTrend prices in
  let seasonalComponent := calculateSeasonality prices in
  let volatility := calculateVolatility prices in
  (* Trend component *)
  let trendValue :=
    (slope trend * (of_nat n + of_Z i) + intercept trend)%float in
  (* Seasonal component (weekly pattern); n + i is positive in the loop *)
  let seasonalIndex :=
    Z.to_nat (Z.rem (Z.of_nat n + i) (Z.of_nat (length seasonalComponent))) in
  let seasonalValue := nth seasonalIndex seasonalComponent nan in
  let predicted := Math_round (trendValue * seasonalValue)%float in
  (* Confidence intervals *)
  let confidenceWidth := (volatility * Math_sqrt (of_Z i))%float in
  let lower := Math_max0 (Math_round (predicted - confidenceWidth)%float) in
  let upper := Math_round (predicted + confidenceWidth)%float in
  {| date := iso;
     predictedPrice := predicted;
     confidence := confidence_of i;
     lowerBound := lower;
     upperBound := upper |}.

Definition generateForecasts (history : PriceHistory) (horizonDays : Z)
  : M (list Prediction) :=
  let prices := GovernmentPriceScraper.prices history in
  for_each (fun i : Z =>
    let d := Scraper.today_plus env i in
    iso <- lift (isoDate d) ;;
    ret (forecast_point prices i iso))
    (upto horizonDays).

(** ** generateInsights *)

Definition festivalMonths : list Z := [9; 10]. (* October, November *)

(** [predictions.slice(0, 7).reduce((sum, p) => sum + p.predictedPrice, 0)
    / 7]. *)
Definition avgForecast (preds : list Prediction) : number :=
  (fold_left (fun acc p => acc + predictedPrice p)%float
             (slice_to 7 preds) 0%float / 7)%float.

Definition forecastChange (history : PriceHistory) (preds : list Prediction)
  : number :=
  let current := last_price (prices history) in
  ((avgForecast preds - current) / current * 100)%float.

Definition generateInsights (history : PriceHistory)
  (preds : list Prediction) (category : string) : list Insight :=
  let trendInsight :=
    match GovernmentPriceScraper.trend history with
    | up => TrendingUpward (changePercent history)
    | down => TrendingDownward (changePercent history)
    | stable => PricesStable
    end in
  (* Forecast insight *)
  let change := forecastChange history preds in
  let forecastInsight :=
    if (5 <? change)%float then [ForecastIncrease]
    else if (change <? -5)%float then [ForecastDecrease]
    else [] in
  (* Seasonal insight *)
  let month := getMonth (tz env) (now env) in
  let seasonalInsight :=
    if bool_decide (month ∈ festivalMonths) then [FestivalSeason category]
    else [] in
  [trendInsight] ++ forecastInsight ++ seasonalInsight
    ++ [DaysOfData (length (dates history))].

(** ** fallbackForecast *)

Definition basePrices : list (string * number) :=
  [ ("textiles", 2000); ("spices", 150); ("handicrafts", 500);
    ("food products", 100); ("pottery", 300) ]%string%float.

Definition fallbackForecast (category : string) (horizonDays : Z)
  : M ForecastResult :=
  let current := table_or basePrices (toLowerCase category) 500%float in
  preds <- for_each (fun i : Z =>
    let d := Scraper.today_plus env i in
    (* Gentle upward trend with some noise *)
    let trendFactor := (1 + of_Z i * 0.001)%float in
    r <- Scraper.random env ;;
    let noise := ((r - 0.5) * 0.05)%float in
    let predicted := Math_round (current * trendFactor * (1 + noise))%float in
    iso <- lift (isoDate d) ;;
    ret {| date := iso;
           predictedPrice := predicted;
           confidence := if i <=? 7 then medium else low;
           lowerBound := Math_round (predicted * 0.9)%float;
           upperBound := Math_round (predicted * 1.1)%float |})
    (upto horizonDays) ;;
  ret {| predictions := preds;
         currentPrice := current;
         trend := stable;
         seasonality := "Moderate";
         insights :=
           [ Literal "Using simulated data for forecasting.";
             Literal "Connect real data sources for more accurate predictions.";
             Literal "Consider current market conditions in your area." ] |}.

(** ** forecastPrices *)

Definition forecastPrices (category : string) (horizonDays : Z)
  : M ForecastResult :=
  try_catch
    ((* Fetch historical data *)
     history <- Scraper.fetchPriceHistory env category 90 ;;
     if (length (prices history) <? 7)%nat then
       throw (Error "Insufficient historical data")
     else
       (* Perform forecasting *)
       preds <- generateForecasts history horizonDays ;;
       let current := last_price (prices history) in
       (* Analyze seasonality *)
       let seasonal := detectSeasonality (prices history) in
       (* Generate insights *)
       let notes := generateInsights history preds category in
       ret {| predictions := preds;
              currentPrice := current;
              trend := GovernmentPriceScraper.trend history;
              seasonality := seasonal;
              insights := notes |})
    (fun _ => fallbackForecast category horizonDays).

End WithEnv.
End ForecastingModel.

(* ===================================================================== *)
(** * Hosts for the examples                                              *)
(* ===================================================================== *)

Module Host.
Import GovernmentPriceScraper.

(** A sine by its Taylor series, good to a few units in the last place on
    the arguments the generators use ([0 <= x < 10]). *)
Fixpoint sin_series (terms : nat) (x term acc : number) (j : Z) : number :=
  match terms with
  | O => acc
  | S k =>
      let term' := (- term * x * x / (of_Z (2 * j) * of_Z (2 * j + 1)))%float in
      sin_series k x term' (acc + term')%float (j + 1)
  end.

Definition sine (x : number) : number := sin_series 30 x x x 1.

(** A stream of draws in [0, 1). *)
Definition draw (n : nat) : number :=
  (of_Z ((Z.of_nat n * 7919 + 104729) mod 1000) / 1000)%float.

Definition digit (c : Ascii.ascii) : option Z :=
  let n := Z.of_nat (Ascii.nat_of_ascii c) in
  if (48 <=? n) && (n <=? 57) then Some (n - 48) else None.

Fixpoint digits (s : string) (acc : Z) : option Z :=
  match s with
  | EmptyString => Some acc
  | String c rest =>
      match digit c with
      | Some d => digits rest (10 * acc + d)
      | None => None
      end
  end.

(** Day number of a calendar date. *)
Definition days_from_civil (y m d : Z) : Z :=
  let y' := if m <=? 2 then y - 1 else y in
  let era := y' / 400 in
  let yoe := y' - era * 400 in
  let doy := (153 * (if 2 <? m then m - 3 else m + 9) + 2) / 5 + d - 1 in
  let doe := yoe * 365 + yoe / 4 - yoe / 100 + doy in
  era * 146097 + doe - 719468.

(** [new Date(v).getTime()] for a date-only text [YYYY-MM-DD], which is
    read as midnight UTC, and for a Number; nothing else occurs below. *)
Definition read_date (v : JsValue) : option Z :=
  match v with
  | JStr s =>
      if (String.length s =? 10)%nat then
        match digits (String.substring 0 4 s) 0,
              digits (String.substring 5 2 s) 0,
              digits (String.substring 8 2 s) 0 with
        | Some y, Some m, Some d =>
            if (1 <=? m) && (m <=? 12) && (1 <=? d) && (d <=? 31)
            then Some (days_from_civil y m d * msPerDay) else None
        | _, _, _ => None
        end
      else None
  | _ => None
  end.

(** [parseFloat] on the values the examples hand to it: a JSON number reads
    as itself, a missing field ([undefined]) and [null] as NaN. *)
Definition read_number (v : JsValue) : number :=
  match v with
  | JNum x => x
  | _ => nan
  end.

(** Monday 2 November 2026, 12:00:00.123 UTC, on a host in UTC+05:30. *)
Definition noon : Z := 1793620800123.

Definition host (enabled : bool) (apiKey : string)
  (net : string -> FetchOutcome) (clock : Z) : Env :=
  {| now := clock;
     tz := 19800000;
     agmarknet_enabled := enabled;
     agmarknet_apiKey := apiKey;
     fetch := net;
     Math_random := draw;
     Math_sin_approx := sine;
     parseFloat := read_number;
     Date_getTime := read_date |}.

(** The deployment as configured out of the box: AGMARKNET not enabled. *)
Definition offline (clock : Z) : Env :=
  host false "" (fun _ => NetworkError) clock.

(** A deployment whose upstream answers every request with [payload]. *)
Definition serving (payload : JsValue) (clock : Z) : Env :=
  host true "KEY" (fun _ => Response true (Json payload)) clock.

Definition fresh : Store := {| cache := ∅; draws := 0 |}.

(** One upstream record. *)
Definition record (day : string) (modal : number) : JsValue :=
  JObj [ ("Commodity", JStr "Turmeric"); ("Min_Price", JNum modal);
         ("Max_Price", JNum modal); ("Modal_Price", JNum modal);
         ("Price_Date", JStr day); ("Market_Name", JStr "Erode") ]%string.

(** A record that reports no prices. *)
Definition unpriced (day : string) : JsValue :=
  JObj [ ("Commodity", JStr "Turmeric"); ("Price_Date", JStr day);
         ("Market_Name", JStr "Erode") ]%string.

Definition week : list string :=
  [ "2026-10-27"; "2026-10-28"; "2026-10-29"; "2026-10-30"; "2026-10-31";
    "2026-11-01"; "2026-11-02" ]%string.

Definition records (l : list JsValue) : JsValue :=
  JObj [("records"%string, JArr l)].

(** Seven daily observations with the given modal prices. *)
Definition observed (modal : list number) : JsValue :=
  records (zip_with record week modal).

(** A week of records without prices. *)
Definition unreported : JsValue := records (map unpriced week).

(** A week of records without prices, then one priced at 70. *)
Definition stalled : JsValue :=
  records (map unpriced week ++ [record "2026-11-03" 70%float]).
End Host.

(* ===================================================================== *)
(** * Vocabulary of the properties                                        *)
(* ===================================================================== *)

Import GovernmentPriceScraper.
Import ForecastingModel.

(** The date [i] days from now is one a [Date] can hold. *)
Definition representable (env : Env) (i : Z) : Prop :=
  - maxTime <= now env + i * msPerDay <= maxTime.

(** Decides [representable] on a concrete clock. *)
Ltac in_range := unfold representable; vm_compute; split; discriminate.

(** [trend] and [changePercent] of a history are the summary of its
    [prices], and [dates] runs parallel to [prices]. *)
Definition summarised (h : PriceHistory) : Prop :=
  length (dates h) = length (prices h)
  /\ GovernmentPriceScraper.trend h
     = Scraper.trend_of (Scraper.changePercent_of (prices h))
  /\ changePercent h = Scraper.round2 (Scraper.changePercent_of (prices h)).

(** The bounds of the prediction at offset [i]: the predicted price plus
    and minus volatility times the square root of [i], rounded, the lower
    one clamped at 0. *)
Definition bounds_at (volatility : number) (i : Z) (p : Prediction) : Prop :=
  let confidenceWidth := (volatility * Math_sqrt (of_Z i))%float in
  upperBound p = Math_round (predictedPrice p + confidenceWidth)%float
  /\ lowerBound p
     = Math_max0 (Math_round (predictedPrice p - confidenceWidth)%float).

(** The specification's mean of a window: the sum of the values in it
    divided by how many they are. *)
Definition mean_of_window (w : list number) : number :=
  (sum w / of_nat (length w))%float.

(** The relative change, in percent, that [generateInsights] compares with
    +-5: from the [predicted] prices of a forecast and the current price. *)
Definition relative_change (predicted : list number) (current : number)
  : number :=
  ((sum (take 7 predicted) / 7 - current) / current * 100)%float.

(** A forecast of [h] predictions, each equal to the current price [p]. *)
Definition flat_forecast (h p : Z) : list number :=
  replicate (Z.to_nat h) (of_Z p).

(** Every flat forecast of 1 to 6 predictions at a price from 1 to [top]
    shows a change below -5 percent. *)
Definition short_flat_forecasts_fall (top : Z) : bool :=
  forallb (fun h =>
    forallb (fun p =>
      let change := relative_change (flat_forecast h p) (of_Z p) in
      negb (5 <? change)%float && (change <? -5)%float)
      (upto top))
    (upto 6).

(** [Math.sqrt] grows from each offset up to [top] to every later one. *)
Definition sqrt_grows (top : Z) : bool :=
  forallb (fun i =>
    forallb (fun k =>
      (Math_sqrt (of_Z i) <? Math_sqrt (of_Z (i + k)))%float)
      (upto (top - i)))
    (upto top).

Definition cache_key (category : string) : string :=
  ("agmarknet:" ++ category)%string.

Section Vocabulary.
Variable env : Env.

(** The calendar date [i] days after today's (UTC) date. *)
Definition day_after_today (i : Z) : string :=
  calendar_date (utc_day (now env) + i).

(** A list of predictions made for the days [1 .. h] from today. *)
Definition dated (h : Z) (ps : list Prediction) : Prop :=
  length ps = Z.to_nat h /\ map date ps = map day_after_today (upto h).

(** A horizon that reaches past the last day a [Date] can hold. *)
Definition overlong (h : Z) : Prop :=
  exists i, 1 <= i <= h /\ maxTime < now env + i * msPerDay.

(** The observations the history is built from: the last [days] of the
    sorted array. *)
Definition window (days : Z) (observations : list PriceData) : list PriceData :=
  slice_from (- days) (sort (Scraper.date_before env) observations).

(** The history [fetchPriceHistory] builds from [observations]. *)
Definition history_of (days : Z) (observations : list PriceData)
  : PriceHistory :=
  let priceValues := map modalPrice (window days observations) in
  {| dates := map GovernmentPriceScraper.date (window days observations);
     prices := priceValues;
     GovernmentPriceScraper.trend :=
       Scraper.trend_of (Scraper.changePercent_of priceValues);
     changePercent := Scraper.round2 (Scraper.changePercent_of priceValues) |}.

(** The store once the array cached under [key] has been sorted in place. *)
Definition sorted_in_place (key : string) (s : Store) : Store :=
  {| cache :=
       alter (fun entry =>
                {| data := sort (Scraper.date_before env) (data entry);
                   timestamp := timestamp entry |}) key (cache s);
     draws := draws s |}.

(** The URL [fetchAGMARKNETPrices] requests for a category. *)
Definition request (category : string) : string :=
  Scraper.request_url (agmarknet_apiKey env)
    (Scraper.commodity_of (toLowerCase category)).

(** The cache holds nothing younger than an hour for the category. *)
Definition cold (category : string) (s : Store) : Prop :=
  Scraper.getFromCache env (cache_key category) s = (Normal None, s).

(** The ways of the upstream to fail: provider disabled, no API key,
    network error, non-ok response, a body that is not JSON. *)
Inductive unavailable (category : string) : Prop :=
  | provider_disabled : agmarknet_enabled env = false -> unavailable category
  | missing_api_key : agmarknet_apiKey env = ""%string -> unavailable category
  | network_error :
      fetch env (request category) = NetworkError -> unavailable category
  | response_not_ok body :
      fetch env (request category) = Response false body ->
      unavailable category
  | malformed_body :
      fetch env (request category) = Response true InvalidJSON ->
      unavailable category.

(** The upstream answers with a JSON [payload]. *)
Definition answers (category : string) (payload : JsValue) : Prop :=
  agmarknet_enabled env = true
  /\ agmarknet_apiKey env <> ""%string
  /\ fetch env (request category) = Response true (Json payload).

(** What the fallback path of [fetchAGMARKNETPrices] returns. *)
Definition synthetic_prices (category : string)
  : M (list PriceData * option string) :=
  l <- Scraper.getFallbackPrices env category ;; ret (l, None).

(** The store once [d] is cached for the category. *)
Definition cached (category : string) (d : list PriceData) (s : Store)
  : Store :=
  {| cache := <[cache_key category :=
                  {| data := d; timestamp := now env |}]> (cache s);
     draws := draws s |}.
End Vocabulary.

(* ===================================================================== *)
(** * Vocabulary of the further properties                                *)
(* ===================================================================== *)

(** Every run of the computation relates the store it starts from to the
    store it leaves by [R], whether it completes or throws. *)
Definition within (R : Store -> Store -> Prop) {A} (m : M A) : Prop :=
  forall s, R s (snd (m s)).

(** The cache is as it was. *)
Definition same_cache (s s' : Store) : Prop := cache s' = cache s.

(** The cache is as it was under every key but [key]. *)
Definition same_elsewhere (key : string) (s s' : Store) : Prop :=
  forall k, k <> key -> cache s' !! k = cache s !! k.

(** Stores and observations for the examples. *)
Module Sample.

(** One observation of cotton, dated 1 November 2026. *)
Definition cotton : PriceData :=
  {| commodity := JStr "Cotton";
     category := "textiles";
     minPrice := 1900;
     maxPrice := 2100;
     modalPrice := 2000;
     GovernmentPriceScraper.date := JStr "2026-11-01";
     market := JStr "Guntur";
     source := "AGMARKNET" |}%float.

(** A store whose cache holds that observation for textiles, fetched a
    minute before noon. *)
Definition stocked : Store :=
  {| cache := {[ "agmarknet:textiles"%string :=
                   {| data := [cotton]; timestamp := Host.noon - 60000 |} ]};
     draws := 0 |}.

End Sample.

(** Every element of the list is [before] all those that precede it: the
    list runs from the newest to the oldest. *)
Fixpoint newest_first {A} (before : A -> A -> bool) (l : list A) : Prop :=
  match l with
  | [] => True
  | x :: rest => Forall (fun y => before y x = true) rest
                 /\ newest_first before rest
  end.

(** [new Date(text).getTime()] reads the date texts of the days [lo .. hi],
    counted from today, as the midnights (UTC) of those days. *)
Definition reads_dates (env : Env) (lo hi : Z) : Prop :=
  forall i, lo <= i <= hi ->
    Date_getTime env (JStr (day_after_today env i))
    = Some ((utc_day (now env) + i) * msPerDay).

(** Decides [reads_dates] for the [n] days from [lo] on. *)
Definition reads_dates_from (env : Env) (lo : Z) (n : nat) : bool :=
  forallb (fun k =>
    let i := lo + Z.of_nat k in
    match Date_getTime env (JStr (day_after_today env i)) with
    | Some t => t =? (utc_day (now env) + i) * msPerDay
    | None => false
    end) (seq 0 n).

(** The forecast that the primary path of [forecastPrices] derives from a
    history: a prediction for each of the days [1 .. h] from today, the
    latest price, the trend of the history, the seasonality label and the
    insights. *)
Definition forecast_of (env : Env) (history : PriceHistory)
  (category : string) (h : Z) : ForecastResult :=
  let preds :=
    map (fun i => forecast_point (prices history) i (day_after_today env i))
        (upto h) in
  {| predictions := preds;
     currentPrice := last_price (prices history);
     ForecastingModel.trend := GovernmentPriceScraper.trend history;
     seasonality := detectSeasonality (prices history);
     insights := generateInsights env history preds category |}.

(** The labels [detectSeasonality] gives a series it can judge. *)
Definition seasonality_labels : list string :=
  [ "Low seasonality - stable prices";
    "Moderate seasonality - some variation";
    "High seasonality - significant variation" ]%string.

(** Every observation carries a date that [new Date] can read. *)
Definition all_dated (env : Env) (l : list PriceData) : Prop :=
  Forall (fun p => Date_getTime env (GovernmentPriceScraper.date p) <> None)
         l.

(** The time value of an observation's date (0 when it has none). *)
Definition time_of (env : Env) (p : PriceData) : Z :=
  default 0 (Date_getTime env (GovernmentPriceScraper.date p)).

(** No time value is followed by an earlier one. *)
Fixpoint non_decreasing (ts : list Z) : Prop :=
  match ts with
  | [] => True
  | t :: rest => Forall (fun u => t <= u) rest /\ non_decreasing rest
  end.

(** Decides [all_dated] on a concrete answer, record by record. *)
Ltac dated_records :=
  unfold all_dated;
  match goal with
  | |- Forall ?P ?l => let l' := eval vm_compute in l in change (Forall P l')
  end;
  repeat (constructor; [vm_compute; discriminate|]); constructor.

(** A week of observations sent newest first. *)
Definition backwards : JsValue :=
  Host.records
    (rev (zip_with Host.record Host.week
            [100; 90; 80; 70; 60; 50; 40]%float)).

(** The prices at the positions [d], [d + 7], [d + 14], ... of a series:
    those of one day of the weekly cycle, in the order of the series. *)
Definition day_prices (prices : list number) (d : nat) : list number :=
  map snd (List.filter (fun ip => (fst ip mod 7 =? d)%nat) (imap pair prices)).

(** The mean of the prices of one day of the cycle, or the mean of all
    prices when the day has none, relative to the mean of all prices. *)
Definition seasonal_factor (prices : list number) (d : nat) : number :=
  let overallMean := (sum prices / of_nat (length prices))%float in
  let of_day := day_prices prices d in
  let avg := if (0 <? length of_day)%nat
             then (sum of_day / of_nat (length of_day))%float
             else overallMean in
  (avg / overallMean)%float.

(** How sure a confidence level is. *)
Definition rank (c : Confidence) : nat :=
  match c with
  | low => 0
  | medium => 1
  | high => 2
  end.

(** The three insights of a fallback forecast. *)
Definition simulated_insights : list Insight :=
  [ Literal "Using simulated data for forecasting.";
    Literal "Connect real data sources for more accurate predictions.";
    Literal "Consider current market conditions in your area." ].

(* ===================================================================== *)
(** * productController.ts: predictPrice                                  *)
(* ===================================================================== *)

Module ProductController.

(** A product document, as far as [predictPrice] reads it ([IProduct]). *)
Record Product : Type := {
  category : string;
  price : number
}.

(** What [predictPrice] obtains from outside the forecasting core: the
    products collection of the database and the module loader. *)
Record Db : Type := {
  (* await Product.findById(id): rejects, or resolves to null or a document *)
  findById : string -> Completion (option Product);
  (* product.predictedPrice = x; await product.save() *)
  save : Product -> number -> Completion unit;
  (* await import('../services/ai-enhanced/price-predictor/
     forecasting-model.js') *)
  import_forecastingModel : Completion unit
}.

Record EnhancedPrediction : Type := {
  predictedPrice : number;
  forecast : list Prediction;
  trend : Trend;
  insights : list Insight;
  currentMarketPrice : number;
  confidence : Confidence
}.

(** The [data] of a response: [{currentPrice, ...enhancedPrediction,
    percentageChange}] or [{currentPrice, predictedPrice, trend,
    percentageChange}]. *)
Inductive Data : Type :=
  | EnhancedData (currentPrice : number) (enhanced : EnhancedPrediction)
      (percentageChange : number)
  | BasicData (currentPrice predictedPrice : number) (trend : Trend)
      (percentageChange : number).

(** [{success: true, data}] or [{success: false, message}]. *)
Inductive Body : Type :=
  | Success (data : Data)
  | Failure (message : string).

(** [res.status(status).json(body)]. *)
Record Response : Type := {
  status : Z;
  body : Body
}.

(** The state that a request finds and leaves: the store of the forecasting
    core, and the predicted prices saved to the database, the latest
    first. *)
Record World : Type := {
  store : Store;
  saved : list (Product * number)
}.

(** [forecast.predictions.slice(0, 7).reduce((sum, p) => sum +
    p.predictedPrice, 0) / 7]. *)
Definition avgPrediction (result : ForecastResult) : number :=
  (fold_left (fun sum p => sum + ForecastingModel.predictedPrice p)%float
             (slice_to 7 (predictions result)) 0%float / 7)%float.

Definition enhance (result : ForecastResult) : EnhancedPrediction :=
  {| predictedPrice := Math_round (avgPrediction result);
     forecast := slice_to 7 (predictions result);
     trend := ForecastingModel.trend result;
     insights := ForecastingModel.insights result;
     currentMarketPrice := currentPrice result;
     (* forecast.predictions[0]?.confidence || 'medium' *)
     confidence := match predictions result with
                   | p :: _ => ForecastingModel.confidence p
                   | [] => medium
                   end |}.

(** [product.predictedPrice = x; await product.save()]. *)
Definition save_prediction (db : Db) (product : Product) (x : number)
  (w : World) : Completion unit * World :=
  match save db product x with
  | Normal _ =>
      (Normal tt, {| store := store w; saved := (product, x) :: saved w |})
  | Throw e => (Throw e, w)
  end.

Section WithEnv.
Variable env : Env.
Variable db : Db.

(** The inner [try] block and its [catch], which only logs: the value of
    [enhancedPrediction] after it, [null] when the block threw before the
    assignment. *)
Definition enhancedPrediction (product : Product) (w : World)
  : option EnhancedPrediction * World :=
  match import_forecastingModel db with
  | Throw _ => (None, w)
  | Normal _ =>
      match forecastPrices env (category product) 7 (store w) with
      | (Throw _, s') => (None, {| store := s'; saved := saved w |})
      | (Normal result, s') =>
          (* Get 7-day average prediction *)
          let enhanced := enhance result in
          (* Update product with new prediction *)
          (Some enhanced,
           snd (save_prediction db product (predictedPrice enhanced)
                  {| store := s'; saved := saved w |}))
      end
  end.

Definition failure (code : Z) (message : string) : Response :=
  {| status := code; body := Failure message |}.

Definition success (data : Data) : Response :=
  {| status := 200; body := Success data |}.

(** [AppError] (middleware/errorHandler.js) is a class of this repository
    that keeps the message and the status code it is constructed with; the
    errors of the database are no instances of it. *)
Definition predictPrice (id : string) (w : World) : Response * World :=
  match findById db id with
  | Throw _ => (failure 500 "Error predicting price", w)
  | Normal None => (failure 404 "Product not found", w)
  | Normal (Some product) =>
      (* Try to use enhanced price prediction if available *)
      match enhancedPrediction product w with
      | (None, w1) =>
          (* Fallback prediction if enhanced fails *)
          let basePrice := price product in
          match Scraper.random env (store w1) with
          | (Throw _, s2) =>
              (failure 500 "Error predicting price",
               {| store := s2; saved := saved w1 |})
          | (Normal r, s2) =>
              let marketTrend := (r * 0.4 - 0.1)%float in (* -10% to +30% *)
              let predicted :=
                Math_round (basePrice * (1 + marketTrend + 0.15))%float in
              (* Update product with new prediction *)
              match save_prediction db product predicted
                      {| store := s2; saved := saved w1 |} with
              | (Throw _, w3) => (failure 500 "Error predicting price", w3)
              | (Normal _, w3) =>
                  (success
                     (BasicData (price product) predicted
                        (if (0 <? marketTrend)%float then up else down)
                        (Math_round (marketTrend * 100)%float)),
                   w3)
              end
          end
      | (Some enhanced, w1) =>
          (success
             (EnhancedData (price product) enhanced
                (Math_round
                   ((predictedPrice enhanced - price product)
                    / price product * 100)%float)),
           w1)
      end
  end.

End WithEnv.
End ProductController.

(** A catalogue for the examples. *)
Module Shop.

Definition shawl : ProductController.Product :=
  {| ProductController.category := "textiles";
     ProductController.price := 1200 |}%float.

(** A sample given away. *)
Definition sample : ProductController.Product :=
  {| ProductController.category := "spices";
     ProductController.price := 0 |}%float.

(** A database that holds the shawl under the id 'p1' and the sample under
    'p2', rejects an id that is no ObjectId, and accepts a save or not. *)
Definition catalogue (saving : bool) : ProductController.Db :=
  {| ProductController.findById := fun id =>
       if String.eqb id "p1" then Normal (Some shawl)
       else if String.eqb id "p2" then Normal (Some sample)
       else if String.eqb id "" then Throw (Error "CastError")
       else Normal None;
     ProductController.save := fun _ _ =>
       if saving then Normal tt else Throw (Error "ValidationError");
     ProductController.import_forecastingModel := Normal tt |}.

Definition opening : ProductController.World :=
  {| ProductController.store := Host.fresh; ProductController.saved := [] |}.

End Shop.

(* ===================================================================== *)
(** * The hub controller: predictMarketPrice                              *)
(* ===================================================================== *)

Module HubController.

(** What [predictMarketPrice] obtains from outside the forecasting core. *)
Record Db : Type := {
  (* await Product.find({category: {$regex: category, $options: 'i'}}):
     rejects, or resolves to documents, of which p.price is read *)
  find : string -> Completion (list number);
  (* await import('../services/ai-enhanced/price-predictor/
     forecasting-model.js') *)
  import_forecastingModel : Completion unit
}.

Record EnhancedForecast : Type := {
  category : string;
  predictedPrice : number;
  currentAverage : number;
  trend : Trend;
  confidence : Confidence;
  forecast30Days : list Prediction;
  insights : list Insight;
  seasonality : string
}.

(** The [data] of a response: the enhanced forecast, the prediction from
    the defaults of the category (with [confidence: 'low'] and a message),
    or the prediction from the products of the database (with
    [trend: 'up']). *)
Inductive Data : Type :=
  | Enhanced (forecast : EnhancedForecast)
  | CategoryDefault (category : string) (predictedPrice : number)
  | FromProducts (category : string) (predictedPrice currentAverage : number)
      (min max : number) (productsAnalyzed : nat) (confidence : Confidence)
      (percentageIncrease : number).

Inductive Body : Type :=
  | Success (data : Data)
  | Failure (message : string).

Record Response : Type := {
  status : Z;
  body : Body
}.

Definition failure (code : Z) (message : string) : Response :=
  {| status := code; body := Failure message |}.

Definition success (data : Data) : Response :=
  {| status := 200; body := Success data |}.

(** [Math.max(a, b)] and [Math.min(a, b)]: NaN if either is, and +0 is
    larger than -0. *)
Definition max2 (a b : number) : number :=
  if is_nan a || is_nan b then nan
  else if (a <? b)%float then b
  else if (b <? a)%float then a
  else if get_sign a then b else a.

Definition min2 (a b : number) : number :=
  if is_nan a || is_nan b then nan
  else if (a <? b)%float then a
  else if (b <? a)%float then b
  else if get_sign a then a else b.

(** [Math.max(...prices)] and [Math.min(...prices)], for as many prices as
    a call takes arguments. *)
Definition Math_max (prices : list number) : number :=
  fold_left max2 prices neg_infinity.

Definition Math_min (prices : list number) : number :=
  fold_left min2 prices infinity.

Definition basePrices : list (string * number) :=
  [ ("textiles", 2000); ("spices", 150); ("handicrafts", 500);
    ("food products", 100); ("pottery", 300); ("jewelry", 1500);
    ("home decor", 800) ]%string%float.

Definition enhancedForecast (category : string) (result : ForecastResult)
  : EnhancedForecast :=
  {| category := category;
     (* forecast.predictions[0]?.predictedPrice || forecast.currentPrice *)
     predictedPrice :=
       match predictions result with
       | p :: _ => number_or (ForecastingModel.predictedPrice p)
                             (currentPrice result)
       | [] => currentPrice result
       end;
     currentAverage := currentPrice result;
     trend := ForecastingModel.trend result;
     (* forecast.predictions[0]?.confidence || 'medium' *)
     confidence :=
       match predictions result with
       | p :: _ => ForecastingModel.confidence p
       | [] => medium
       end;
     forecast30Days := predictions result;
     insights := ForecastingModel.insights result;
     seasonality := ForecastingModel.seasonality result |}.

Section WithEnv.
Variable env : Env.
Variable db : Db.

(** Lines 197-251: the prediction from the products of the database. For
    a category named as a member of [Object.prototype] the sum
    [basePrice + variance] is a string, which [Math.round] reads as NaN,
    the value that [table_or] hands on. *)
Definition basicPrediction (category : string) (s : Store)
  : Response * Store :=
  match find db category with
  | Throw _ => (failure 500 "Error predicting market price", s)
  | Normal prices =>
      let r := Math_random env (draws s) in
      let s' := {| cache := cache s; draws := S (draws s) |} in
      if (length prices =? 0)%nat then
        let basePrice :=
          table_or basePrices (toLowerCase category) 500%float in
        let variance := (r * 200 - 100)%float in
        let predicted := Math_round (basePrice + variance)%float in
        (success (CategoryDefault category predicted), s')
      else
        let avgPrice := (sum prices / of_nat (length prices))%float in
        let maxPrice := Math_max prices in
        let minPrice := Math_min prices in
        let marketTrend := (r * 0.15 + 0.05)%float in
        let predicted := Math_round (avgPrice * (1 + marketTrend))%float in
        (success
           (FromProducts category predicted (Math_round avgPrice)
              minPrice maxPrice (length prices)
              (if (10 <? length prices)%nat then high
               else if (5 <? length prices)%nat then medium else low)
              (Math_round (marketTrend * 100)%float)),
         s')
  end.

(** The request is modelled by its body, [req.body]. A category that is
    truthy but no string (a number, [true], an array, an object) reaches
    [category.toLowerCase()] in the forecasting core, which is typed for
    strings; such a request is outside this model ([None]). [AppError] is
    taken as for [predictPrice]. *)
Definition predictMarketPrice (body : JsValue) (s : Store)
  : option (Response * Store) :=
  match get body "category" with
  | Throw _ => Some (failure 500 "Error predicting market price", s)
  | Normal category =>
      if negb (truthy category) then
        Some (failure 400 "Category is required", s)
      else
        match category with
        | JStr category =>
            (* Try enhanced forecasting first *)
            match import_forecastingModel db with
            | Throw _ => Some (basicPrediction category s)
            | Normal _ =>
                match forecastPrices env category 30 s with
                | (Normal result, s') =>
                    Some (success (Enhanced (enhancedForecast category
                                               result)), s')
                | (Throw _, s') => Some (basicPrediction category s')
                end
            end
        | _ => None
        end
  end.

End WithEnv.
End HubController.

(** A database and requests for the examples of [predictMarketPrice]. *)
Module Market.

(** Two products match every category. *)
Definition stalls : HubController.Db :=
  {| HubController.find := fun _ => Normal [120; 80]%float;
     HubController.import_forecastingModel := Normal tt |}.

(** The database is down. *)
Definition closed : HubController.Db :=
  {| HubController.find := fun _ => Throw (Error "MongoNetworkError");
     HubController.import_forecastingModel := Normal tt |}.

(** [{"category": "spices"}]. *)
Definition asking_for_spices : JsValue :=
  JObj [("category"%string, JStr "spices")].

(** [{"category": ""}]. *)
Definition asking_for_nothing : JsValue :=
  JObj [("category"%string, JStr "")].

End Market.

(* ===================================================================== *)
(** * Loops, dates and the monad                                          *)
(* ===================================================================== *)

Section Loops.
Context {A B : Type}.

(** What a loop has pushed when it completes relates, round by round, to
    the values of its counter. *)
Lemma for_each_Forall2 (body : A -> M B) (P : A -> B -> Prop) :
  (forall i s y s', body i s = (Normal y, s') -> P i y) ->
  forall l s ys s',
    for_each body l s = (Normal ys, s') -> Forall2 P l ys.
Proof.
  intros HP l. induction l as [|i l IH]; intros s ys s' H; cbn in H.
  - inversion H; subst. constructor.
  - unfold bind in H. destruct (body i s) as [[y|e] s1] eqn:Hb; [|discriminate].
    destruct (for_each body l s1) as [[r|e] s2] eqn:Hr; [|discriminate].
    inversion H; subst. constructor; eauto.
Qed.

Lemma for_each_length (body : A -> M B) l s ys s' :
  for_each body l s = (Normal ys, s') -> length ys = length l.
Proof.
  intros H.
  apply (for_each_Forall2 body (fun _ _ => True)) in H; [|trivial].
  symmetry. eapply Forall2_length; eauto.
Qed.

(** A loop none of whose rounds throws completes. *)
Lemma for_each_total (body : A -> M B) l :
  (forall i, In i l -> forall s, exists y s', body i s = (Normal y, s')) ->
  forall s, exists ys s', for_each body l s = (Normal ys, s').
Proof.
  induction l as [|i l IH]; intros Hb s; cbn.
  - eexists _, _. reflexivity.
  - destruct (Hb i (or_introl eq_refl) s) as (y & s1 & Hy).
    destruct (IH (fun j Hj => Hb j (or_intror Hj)) s1) as (ys & s2 & Hys).
    unfold bind. rewrite Hy, Hys. eexists _, _. reflexivity.
Qed.

(** A loop whose first round throws throws. *)
Lemma for_each_first_throws (body : A -> M B) i l s e s' :
  body i s = (Throw e, s') -> for_each body (i :: l) s = (Throw e, s').
Proof. intros H. cbn. unfold bind. rewrite H. reflexivity. Qed.
End Loops.

Lemma Forall2_map_eq {A B C} (f : B -> C) (g : A -> C) l ys :
  Forall2 (fun i y => f y = g i) l ys -> map f ys = map g l.
Proof. induction 1; cbn; congruence. Qed.

Lemma upto_length n : length (upto n) = Z.to_nat n.
Proof. unfold upto. rewrite length_map, length_seq. reflexivity. Qed.

Lemma in_upto n i : In i (upto n) -> 1 <= i <= n.
Proof.
  unfold upto. rewrite in_map_iff. intros (k & <- & Hk).
  apply in_seq in Hk. lia.
Qed.

Lemma upto_nonpositive n : n <= 0 -> upto n = [].
Proof.
  intros H. unfold upto. replace (Z.to_nat n) with O by lia. reflexivity.
Qed.

Lemma downto0_length n : length (downto0 n) = Z.to_nat (n + 1).
Proof. unfold downto0. rewrite length_map, length_seq. reflexivity. Qed.

Lemma in_downto0 n i : In i (downto0 n) -> 0 <= i <= n.
Proof.
  unfold downto0. rewrite in_map_iff. intros (k & <- & Hk).
  apply in_seq in Hk. lia.
Qed.

Lemma downto0_head n :
  0 <= n -> exists rest, downto0 n = n :: rest.
Proof.
  intros H. unfold downto0.
  replace (Z.to_nat (n + 1)) with (S (Z.to_nat n)) by lia.
  cbn [seq map]. eexists. f_equal. lia.
Qed.

Lemma in_below n i : In i (below n) -> 0 <= i < n.
Proof.
  unfold below. rewrite in_map_iff. intros (k & <- & Hk).
  apply in_seq in Hk. lia.
Qed.

Section Dates.
Variable env : Env.

Lemma today_plus_Some i :
  - maxTime <= now env <= maxTime ->
  - maxTime <= now env + i * msPerDay <= maxTime ->
  Scraper.today_plus env i = Some (now env + i * msPerDay).
Proof.
  intros H1 H2. unfold Scraper.today_plus, addDays, TimeClip.
  destruct (Z.leb_spec (- maxTime) (now env)); [|lia].
  destruct (Z.leb_spec (now env) maxTime); [|lia]. cbn.
  destruct (Z.leb_spec (- maxTime) (now env + i * msPerDay)); [|lia].
  destruct (Z.leb_spec (now env + i * msPerDay) maxTime); [|lia].
  reflexivity.
Qed.

Lemma today_plus_inv i t :
  Scraper.today_plus env i = Some t -> t = now env + i * msPerDay.
Proof.
  unfold Scraper.today_plus, addDays, TimeClip.
  destruct (_ && _); [|discriminate].
  destruct (_ && _); [|discriminate]. congruence.
Qed.

Lemma today_plus_None i :
  maxTime < now env + i * msPerDay ->
  Scraper.today_plus env i = None.
Proof.
  intros H. unfold Scraper.today_plus, addDays, TimeClip.
  destruct (_ && _); [|reflexivity].
  destruct (Z.leb_spec (now env + i * msPerDay) maxTime); [lia|].
  rewrite andb_false_r. reflexivity.
Qed.

Lemma today_minus_None i :
  now env - i * msPerDay < - maxTime ->
  Scraper.today_plus env (- i) = None.
Proof.
  intros H. unfold Scraper.today_plus, addDays, TimeClip.
  destruct (_ && _); [|reflexivity].
  destruct (Z.leb_spec (- maxTime) (now env + - i * msPerDay)); [lia|].
  reflexivity.
Qed.

(** The date text of [new Date()] moved by [i] days is the calendar date
    [i] days after today's. *)
Lemma isoDate_today_plus i iso :
  isoDate (Scraper.today_plus env i) = Normal iso ->
  iso = calendar_date (utc_day (now env) + i).
Proof.
  destruct (Scraper.today_plus env i) as [t|] eqn:Ht; [|discriminate].
  apply today_plus_inv in Ht. subst t. unfold isoDate. intros [= <-].
  unfold date_string, utc_day.
  rewrite Z.div_add by (unfold msPerDay; lia). reflexivity.
Qed.
End Dates.

(* ===================================================================== *)
(** * The forecast loops                                                  *)
(* ===================================================================== *)

Lemma representable_between env a b i :
  representable env a -> representable env b -> a <= i <= b ->
  representable env i.
Proof. unfold representable, msPerDay. nia. Qed.

Lemma representable_today env :
  representable env 0 -> - maxTime <= now env <= maxTime.
Proof. unfold representable. lia. Qed.

Section ForecastLoops.
Variable env : Env.

Lemma generateForecasts_inv history h s ps s' :
  generateForecasts env history h s = (Normal ps, s') ->
  Forall2 (fun i p =>
             p = forecast_point (prices history) i (day_after_today env i))
          (upto h) ps.
Proof.
  unfold generateForecasts. apply for_each_Forall2.
  intros i s0 y s0'. unfold bind, lift, ret.
  destruct (isoDate (Scraper.today_plus env i)) as [iso|e] eqn:Hd;
    [|discriminate].
  apply isoDate_today_plus in Hd. subst iso.
  intros [= <- <-]. unfold day_after_today. reflexivity.
Qed.

Lemma generateForecasts_total history h s :
  representable env 0 -> representable env h ->
  exists ps s', generateForecasts env history h s = (Normal ps, s').
Proof.
  intros H0 Hh. unfold generateForecasts. apply for_each_total.
  intros i Hi s0. apply in_upto in Hi.
  unfold bind, lift, ret.
  rewrite today_plus_Some.
  - eexists _, _. reflexivity.
  - apply representable_today, H0.
  - apply (representable_between env 0 h); auto; lia.
Qed.

Lemma generateForecasts_nonpositive history h s :
  h <= 0 -> generateForecasts env history h s = (Normal [], s).
Proof.
  intros H. unfold generateForecasts. rewrite upto_nonpositive by exact H.
  reflexivity.
Qed.

Lemma fallbackForecast_inv category h s r s' :
  fallbackForecast env category h s = (Normal r, s') ->
  Forall2 (fun i p => date p = day_after_today env i) (upto h) (predictions r).
Proof.
  unfold fallbackForecast. unfold bind at 1.
  match goal with
  | |- context [for_each ?b (upto h) s] =>
      destruct (for_each b (upto h) s) as [[ps|e] s1] eqn:Hloop;
        [|discriminate]
  end.
  unfold ret. intros [= <- <-]. cbn [predictions].
  revert Hloop. apply for_each_Forall2.
  intros i s0 y s0'. unfold bind, lift, ret, Scraper.random.
  destruct (isoDate (Scraper.today_plus env i)) as [iso|e] eqn:Hd;
    [|discriminate].
  apply isoDate_today_plus in Hd. subst iso.
  intros [= <- <-]. cbn [date]. unfold day_after_today. reflexivity.
Qed.

Lemma fallbackForecast_total category h s :
  representable env 0 -> representable env h ->
  exists r s', fallbackForecast env category h s = (Normal r, s').
Proof.
  intros H0 Hh. unfold fallbackForecast. unfold bind at 1.
  match goal with
  | |- context [for_each ?b (upto h) s] =>
      destruct (for_each_total b (upto h)) with (s := s) as (ps & s1 & Hps)
  end.
  - intros i Hi s0. apply in_upto in Hi.
    unfold bind, lift, ret, Scraper.random.
    rewrite today_plus_Some.
    + eexists _, _. reflexivity.
    + apply representable_today, H0.
    + apply (representable_between env 0 h); auto; lia.
  - rewrite Hps. eexists _, _. reflexivity.
Qed.

Lemma fallbackForecast_nonpositive category h s :
  h <= 0 ->
  exists r, fallbackForecast env category h s = (Normal r, s)
            /\ predictions r = [].
Proof.
  intros H. unfold fallbackForecast. rewrite upto_nonpositive by exact H.
  eexists. split; reflexivity.
Qed.

(** A forecast that [forecastPrices] returns comes from the primary path
    or from the fallback. *)
Lemma forecastPrices_inv category h s r s' :
  forecastPrices env category h s = (Normal r, s') ->
  (exists history s1,
      Scraper.fetchPriceHistory env category 90 s = (Normal history, s1)
      /\ (7 <= length (prices history))%nat
      /\ generateForecasts env history h s1 = (Normal (predictions r), s')
      /\ currentPrice r = last_price (prices history)
      /\ insights r = generateInsights env history (predictions r) category)
  \/ (exists s1, fallbackForecast env category h s1 = (Normal r, s')).
Proof.
  unfold forecastPrices, try_catch. unfold bind at 1.
  destruct (Scraper.fetchPriceHistory env category 90 s)
    as [[history|e] s1] eqn:Hh.
  - destruct (Nat.ltb_spec (length (prices history)) 7) as [Hlt|Hge].
    + unfold throw. intros H. right. eauto.
    + unfold bind.
      destruct (generateForecasts env history h s1) as [[ps|e] s2] eqn:Hg.
      * unfold ret. intros [= <- <-]. left. exists history, s1.
        cbn. repeat split; auto.
      * intros H. right. eauto.
  - intros H. right. eauto.
Qed.

Lemma forecastPrices_total category h s :
  representable env 0 -> representable env h ->
  exists r s', forecastPrices env category h s = (Normal r, s').
Proof.
  intros H0 Hh. unfold forecastPrices, try_catch.
  match goal with
  | |- context [match ?m s with _ => _ end] =>
      destruct (m s) as [[r|e] s1]
  end.
  - eexists _, _. reflexivity.
  - apply fallbackForecast_total; assumption.
Qed.
End ForecastLoops.

Section ForecastShape.
Variable env : Env.

Lemma generateForecasts_dated history h s ps s' :
  generateForecasts env history h s = (Normal ps, s') -> dated env h ps.
Proof.
  intros H. apply generateForecasts_inv in H. split.
  - rewrite <- (Forall2_length _ _ _ H). apply upto_length.
  - apply Forall2_map_eq. eapply Forall2_impl; [exact H|].
    intros i p ->. reflexivity.
Qed.

Lemma fallbackForecast_dated category h s r s' :
  fallbackForecast env category h s = (Normal r, s') ->
  dated env h (predictions r).
Proof.
  intros H. apply fallbackForecast_inv in H. split.
  - rewrite <- (Forall2_length _ _ _ H). apply upto_length.
  - apply Forall2_map_eq. exact H.
Qed.

Lemma forecastPrices_dated category h s r s' :
  forecastPrices env category h s = (Normal r, s') ->
  dated env h (predictions r).
Proof.
  intros H. apply forecastPrices_inv in H
    as [(history & s1 & _ & _ & Hg & _)|(s1 & Hf)].
  - eapply generateForecasts_dated; eauto.
  - eapply fallbackForecast_dated; eauto.
Qed.
End ForecastShape.

(* ===================================================================== *)
(** * The price history                                                   *)
(* ===================================================================== *)

Section History.
Variable env : Env.

Lemma generateMockHistory_inv category days s h s' :
  Scraper.generateMockHistory env category days s = (Normal h, s') ->
  summarised h
  /\ length (prices h) = Z.to_nat (days + 1)
  /\ dates h = map (fun i => JStr (day_after_today env (- i))) (downto0 days).
Proof.
  unfold Scraper.generateMockHistory. unfold bind at 1.
  match goal with
  | |- context [for_each ?b (downto0 days) s] =>
      destruct (for_each b (downto0 days) s) as [[pts|e] s1] eqn:Hloop;
        [|discriminate]
  end.
  unfold ret. intros [= <- <-]. unfold summarised.
  cbn [dates prices GovernmentPriceScraper.trend changePercent].
  pose proof (for_each_length _ _ _ _ _ Hloop) as Hlen.
  rewrite downto0_length in Hlen.
  rewrite !length_map. repeat split; try assumption.
  apply Forall2_map_eq. revert Hloop. apply for_each_Forall2.
  intros i s0 y s0'. unfold bind, lift, ret, Scraper.random.
  destruct (isoDate (Scraper.today_plus env (- i))) as [iso|e] eqn:Hd;
    [|discriminate].
  apply isoDate_today_plus in Hd. subst iso.
  intros [= <- <-]. cbn [fst]. unfold day_after_today. reflexivity.
Qed.

Lemma generateMockHistory_total category days s :
  (0 <= days -> representable env 0 /\ representable env (- days)) ->
  exists h s', Scraper.generateMockHistory env category days s = (Normal h, s').
Proof.
  intros Hr. unfold Scraper.generateMockHistory. unfold bind at 1.
  match goal with
  | |- context [for_each ?b (downto0 days) s] =>
      destruct (for_each_total b (downto0 days)) with (s := s)
        as (pts & s1 & Hpts)
  end.
  - intros i Hi s0. apply in_downto0 in Hi.
    destruct Hr as [H0 Hd]; [lia|].
    unfold bind, lift, ret, Scraper.random.
    rewrite today_plus_Some.
    + eexists _, _. reflexivity.
    + apply representable_today, H0.
    + apply (representable_between env (- days) 0); auto; lia.
  - rewrite Hpts. eexists _, _. reflexivity.
Qed.

(** Past the range of [Date] the first round of the loop throws. *)
Lemma generateMockHistory_throws category days s :
  0 <= days -> now env - days * msPerDay < - maxTime ->
  Scraper.generateMockHistory env category days s = (Throw RangeError, s).
Proof.
  intros H0 Hlow. unfold Scraper.generateMockHistory. unfold bind at 1.
  destruct (downto0_head days H0) as (rest & ->).
  erewrite for_each_first_throws; [reflexivity|].
  unfold bind, lift. rewrite today_minus_None by exact Hlow. reflexivity.
Qed.

Lemma fetchPriceHistory_inv category days s h s' :
  Scraper.fetchPriceHistory env category days s = (Normal h, s') ->
  (exists s1, Scraper.generateMockHistory env category days s1 = (Normal h, s'))
  \/ (exists observations alias s1,
        Scraper.fetchAGMARKNETPrices env category s
          = (Normal (observations, alias), s1)
        /\ observations <> []
        /\ dates h
           = map GovernmentPriceScraper.date (window env days observations)
        /\ prices h = map modalPrice (window env days observations)
        /\ summarised h).
Proof.
  unfold Scraper.fetchPriceHistory, try_catch. unfold bind at 1.
  destruct (Scraper.fetchAGMARKNETPrices env category s)
    as [[[observations alias]|e] s1] eqn:Hf.
  - destruct observations as [|o l].
    + cbn [length Nat.eqb].
      destruct (Scraper.generateMockHistory env category days s1)
        as [[m|e] s2] eqn:Hm.
      * intros [= <- <-]. left. eauto.
      * intros H. left. eauto.
    + cbn [length Nat.eqb]. unfold bind, Scraper.sort_in_place, ret.
      destruct alias; intros [= <- <-]; right;
        exists (o :: l); eexists _, _;
        (split; [reflexivity|]); (split; [discriminate|]);
        unfold summarised;
        cbn [dates prices GovernmentPriceScraper.trend changePercent];
        rewrite !length_map; repeat split; reflexivity.
  - intros H. left. eauto.
Qed.

Lemma fetchPriceHistory_summarised category days s h s' :
  Scraper.fetchPriceHistory env category days s = (Normal h, s') ->
  summarised h.
Proof.
  intros H. apply fetchPriceHistory_inv in H
    as [(s1 & H)|(o & a & s1 & _ & _ & _ & _ & H)].
  - apply generateMockHistory_inv in H. tauto.
  - exact H.
Qed.

Lemma fetchPriceHistory_total category days s :
  (0 <= days -> representable env 0 /\ representable env (- days)) ->
  exists h s', Scraper.fetchPriceHistory env category days s = (Normal h, s').
Proof.
  intros Hr. unfold Scraper.fetchPriceHistory, try_catch.
  match goal with
  | |- context [match ?m s with _ => _ end] =>
      destruct (m s) as [[r|e] s1]
  end.
  - eexists _, _. reflexivity.
  - apply generateMockHistory_total. exact Hr.
Qed.

(** With no observation at all the history is the mock history. *)
Lemma fetchPriceHistory_mock category days s alias s1 h s2 :
  Scraper.fetchAGMARKNETPrices env category s = (Normal ([], alias), s1) ->
  Scraper.generateMockHistory env category days s1 = (Normal h, s2) ->
  Scraper.fetchPriceHistory env category days s = (Normal h, s2).
Proof.
  intros Hf Hm. unfold Scraper.fetchPriceHistory, try_catch.
  unfold bind at 1. rewrite Hf. cbn [length Nat.eqb]. rewrite Hm.
  reflexivity.
Qed.
End History.

(* ===================================================================== *)
(** * Dates out of range                                                  *)
(* ===================================================================== *)

Lemma in_upto_intro n i : 1 <= i <= n -> In i (upto n).
Proof.
  intros H. unfold upto. apply in_map_iff.
  exists (Z.to_nat (i - 1)). split; [lia|]. apply in_seq. lia.
Qed.

(** A loop whose rounds throw nothing but [e], and one of whose rounds
    throws it whatever the state, throws [e]. *)
Lemma for_each_throws {A B} (body : A -> M B) (e : JsError) l i :
  (forall j s, (exists y s', body j s = (Normal y, s'))
               \/ (exists s', body j s = (Throw e, s'))) ->
  (forall s, exists s', body i s = (Throw e, s')) ->
  In i l ->
  forall s, exists s', for_each body l s = (Throw e, s').
Proof.
  intros Hbody Hi. induction l as [|j l IH]; intros Hin s; [destruct Hin|].
  cbn [for_each]. unfold bind at 1.
  destruct (Hbody j s) as [(y & s1 & Hy)|(s1 & He)].
  - rewrite Hy. destruct Hin as [->|Hin].
    + destruct (Hi s) as (s2 & H2). congruence.
    + unfold bind. destruct (IH Hin s1) as (s2 & ->). eauto.
  - rewrite He. eauto.
Qed.

Section OutOfRange.
Variable env : Env.

Lemma isoDate_cases d :
  (exists iso, isoDate d = Normal iso) \/ isoDate d = Throw RangeError.
Proof. destruct d; cbn; eauto. Qed.

Lemma generateForecasts_throws history h s :
  overlong env h ->
  exists s', generateForecasts env history h s = (Throw RangeError, s').
Proof.
  intros (i & Hi & Hout). apply in_upto_intro in Hi.
  unfold generateForecasts. apply for_each_throws with (i := i); auto.
  - intros j s0. unfold bind, lift, ret.
    destruct (isoDate_cases (Scraper.today_plus env j)) as [(iso & ->)| ->];
      eauto.
  - intros s0. unfold bind, lift.
    rewrite today_plus_None by exact Hout. cbn. eauto.
Qed.

Lemma fallbackForecast_throws category h s :
  overlong env h ->
  exists s', fallbackForecast env category h s = (Throw RangeError, s').
Proof.
  intros (i & Hi & Hout). apply in_upto_intro in Hi.
  unfold fallbackForecast. unfold bind at 1.
  match goal with
  | |- context [for_each ?b (upto h) s] =>
      destruct (for_each_throws b RangeError (upto h) i) with (s := s)
        as (s' & ->); eauto
  end.
  - intros j s0. unfold bind, lift, ret, Scraper.random.
    destruct (isoDate_cases (Scraper.today_plus env j)) as [(iso & ->)| ->];
      eauto.
  - intros s0. unfold bind, lift, Scraper.random.
    rewrite today_plus_None by exact Hout. cbn. eauto.
Qed.

Lemma forecastPrices_throws category h s :
  overlong env h ->
  exists s', forecastPrices env category h s = (Throw RangeError, s').
Proof.
  intros Hout. unfold forecastPrices, try_catch. unfold bind at 1.
  destruct (Scraper.fetchPriceHistory env category 90 s)
    as [[history|e] s1].
  - destruct (length (prices history) <? 7)%nat.
    + unfold throw. apply fallbackForecast_throws, Hout.
    + unfold bind.
      destruct (generateForecasts_throws history h s1 Hout) as (s2 & ->).
      apply fallbackForecast_throws, Hout.
  - apply fallbackForecast_throws, Hout.
Qed.
End OutOfRange.

(* ===================================================================== *)
(** * The upstream source                                                 *)
(* ===================================================================== *)

Section Upstream.
Variable env : Env.

Lemma getFallbackPrices_total category s :
  representable env 0 -> representable env (- 29) ->
  exists l s', Scraper.getFallbackPrices env category s = (Normal l, s')
               /\ length l = 30%nat.
Proof.
  intros H0 H29. unfold Scraper.getFallbackPrices.
  match goal with
  | |- context [for_each ?b (below 30) s] =>
      destruct (for_each_total b (below 30)) with (s := s) as (l & s' & Hl)
  end.
  - intros i Hi s0. apply in_below in Hi.
    unfold bind, lift, ret, Scraper.random.
    rewrite today_plus_Some.
    + eexists _, _. reflexivity.
    + apply representable_today, H0.
    + apply (representable_between env (- 29) 0); auto; lia.
  - exists l, s'. split; [exact Hl|].
    apply for_each_length in Hl. rewrite Hl. reflexivity.
Qed.

Lemma synthetic_prices_total category s :
  representable env 0 -> representable env (- 29) ->
  exists l s', synthetic_prices env category s = (Normal (l, None), s')
               /\ length l = 30%nat.
Proof.
  intros H0 H29.
  destruct (getFallbackPrices_total category s H0 H29) as (l & s' & Hl & Hn).
  exists l, s'. unfold synthetic_prices, bind. rewrite Hl. auto.
Qed.

(** Any failure of the upstream selects the synthetic prices. *)
Lemma unavailable_fallback category s :
  representable env 0 -> representable env (- 29) ->
  cold env category s -> unavailable env category ->
  Scraper.fetchAGMARKNETPrices env category s = synthetic_prices env category s.
Proof.
  intros H0 H29 Hcold Hfail. unfold Scraper.fetchAGMARKNETPrices.
  fold (cache_key category). unfold bind at 1. rewrite Hcold.
  fold (synthetic_prices env category).
  destruct (synthetic_prices_total category s H0 H29) as (l & s' & Hl & _).
  unfold try_catch.
  destruct (agmarknet_enabled env) eqn:Hen; cbn [negb];
    [|rewrite Hl; reflexivity].
  destruct (String.eqb_spec (agmarknet_apiKey env) "") as [Hkey|Hkey];
    [rewrite Hl; reflexivity|].
  fold (request env category). unfold bind at 1. unfold Scraper.fetch_json.
  destruct Hfail as [H|H|H|body H|H]; try congruence;
    rewrite H; reflexivity.
Qed.

(** A JSON answer is parsed, stored in the cache and returned. *)
Lemma answers_parsed category payload s :
  cold env category s -> answers env category payload ->
  Scraper.fetchAGMARKNETPrices env category s
  = (Normal (Scraper.parseAGMARKNETResponse env payload category,
             Some (cache_key category)),
     cached env category
       (Scraper.parseAGMARKNETResponse env payload category) s).
Proof.
  intros Hcold (Hen & Hkey & Hfetch). unfold Scraper.fetchAGMARKNETPrices.
  fold (cache_key category). unfold bind at 1. rewrite Hcold.
  unfold try_catch. rewrite Hen. cbn [negb].
  destruct (String.eqb_spec (agmarknet_apiKey env) "") as [Hk|_];
    [contradiction|].
  fold (request env category). unfold bind at 1. unfold Scraper.fetch_json.
  rewrite Hfetch. reflexivity.
Qed.

(** Payloads that yield no observation. *)
Lemma parse_null category :
  Scraper.parseAGMARKNETResponse env JNull category = [].
Proof. reflexivity. Qed.

Lemma parse_without_records category props :
  own_property props "records" = None ->
  Scraper.parseAGMARKNETResponse env (JObj props) category = [].
Proof.
  intros H. unfold Scraper.parseAGMARKNETResponse. cbn. rewrite H.
  reflexivity.
Qed.

Lemma parse_empty_records category :
  Scraper.parseAGMARKNETResponse env (JObj [("records"%string, JArr [])])
    category = [].
Proof. reflexivity. Qed.

Lemma parse_records_not_array category v :
  (forall l, v <> JArr l) ->
  Scraper.parseAGMARKNETResponse env (JObj [("records"%string, v)])
    category = [].
Proof.
  intros H. unfold Scraper.parseAGMARKNETResponse. cbn.
  unfold or_else. destruct (truthy v); [|reflexivity].
  destruct v; try reflexivity. exfalso. eapply H. reflexivity.
Qed.

Lemma parse_null_record category l :
  Scraper.parseAGMARKNETResponse env
    (JObj [("records"%string, JArr (JNull :: l))]) category = [].
Proof. reflexivity. Qed.

(** A payload with no observation selects the synthetic history. *)
Lemma empty_answer_mock category payload days s h s' :
  cold env category s -> answers env category payload ->
  Scraper.parseAGMARKNETResponse env payload category = [] ->
  Scraper.generateMockHistory env category days (cached env category [] s)
    = (Normal h, s') ->
  Scraper.fetchPriceHistory env category days s = (Normal h, s').
Proof.
  intros Hcold Hans Hparse Hmock.
  eapply fetchPriceHistory_mock; [|exact Hmock].
  rewrite (answers_parsed category payload s Hcold Hans), Hparse.
  reflexivity.
Qed.
End Upstream.

(* ===================================================================== *)
(** * Sorting and slicing                                                 *)
(* ===================================================================== *)

Section SortFacts.
Context {A : Type} (before : A -> A -> bool).

Lemma insert_sorted_length x l :
  length (insert_sorted before x l) = S (length l).
Proof.
  induction l as [|y l IH]; cbn; [reflexivity|].
  destruct (before y x); cbn; congruence.
Qed.

Lemma sort_length l : length (sort before l) = length l.
Proof.
  induction l as [|x l IH]; cbn; [reflexivity|].
  rewrite insert_sorted_length. congruence.
Qed.

Hypothesis before_asym : forall x y, before x y = true -> before y x = false.

Lemma insert_sorted_ordered x l :
  ordered before l -> ordered before (insert_sorted before x l).
Proof.
  induction l as [|y l IH]; intros Hl; cbn; [auto|].
  destruct (before y x) eqn:Hyx.
  - destruct Hl as [Hhead Htail]. specialize (IH Htail).
    cbn [ordered]. split; [|exact IH].
    destruct l as [|z l]; cbn.
    + apply before_asym, Hyx.
    + destruct (before z x) eqn:Hzx; [exact Hhead|].
      apply before_asym, Hyx.
  - cbn [ordered]. split; [exact Hyx|exact Hl].
Qed.

Lemma sort_ordered l : ordered before (sort before l).
Proof.
  induction l as [|x l IH]; cbn; [exact I|].
  apply insert_sorted_ordered, IH.
Qed.

Lemma ordered_sort_id l : ordered before l -> sort before l = l.
Proof.
  induction l as [|x l IH]; intros Hl; cbn; [reflexivity|].
  destruct Hl as [Hhead Htail]. rewrite (IH Htail).
  destruct l as [|y l]; cbn; [reflexivity|]. rewrite Hhead. reflexivity.
Qed.

(** Sorting an array that is already sorted changes nothing. *)
Lemma sort_idempotent l : sort before (sort before l) = sort before l.
Proof. apply ordered_sort_id, sort_ordered. Qed.
End SortFacts.

Lemma date_before_asym env x y :
  Scraper.date_before env x y = true -> Scraper.date_before env y x = false.
Proof.
  unfold Scraper.date_before.
  destruct (Date_getTime env (GovernmentPriceScraper.date x)),
           (Date_getTime env (GovernmentPriceScraper.date y));
    try discriminate; try reflexivity.
  intros H. apply Z.ltb_lt in H. apply Z.ltb_ge. lia.
Qed.

Lemma slice_last_length {A} (n : Z) (l : list A) :
  1 <= n -> length (slice_from (- n) l) = Nat.min (length l) (Z.to_nat n).
Proof.
  intros H. unfold slice_from.
  destruct (Z.ltb_spec (- n) 0) as [_|Hn]; [|lia].
  rewrite length_drop. lia.
Qed.

(** With observations at hand the history is built from the last [days]
    of them, sorted by date. *)
Lemma observed_history env category days s observations alias s1 :
  Scraper.fetchAGMARKNETPrices env category s
    = (Normal (observations, alias), s1) ->
  observations <> [] ->
  exists h s',
    Scraper.fetchPriceHistory env category days s = (Normal h, s')
    /\ dates h = map GovernmentPriceScraper.date (window env days observations)
    /\ prices h = map modalPrice (window env days observations).
Proof.
  intros Hf Hne. unfold Scraper.fetchPriceHistory, try_catch.
  unfold bind at 1. rewrite Hf.
  destruct observations as [|o l]; [contradiction|].
  cbn [length Nat.eqb]. unfold bind, Scraper.sort_in_place, ret.
  destruct alias; eexists _, _; repeat split; reflexivity.
Qed.

Lemma window_length env days observations :
  1 <= days ->
  length (window env days observations)
  = Nat.min (length observations) (Z.to_nat days).
Proof.
  intros H. unfold window. rewrite slice_last_length by exact H.
  rewrite sort_length. reflexivity.
Qed.

(* ===================================================================== *)
(** * Division by a zero average                                          *)
(* ===================================================================== *)

Lemma is_zero_spec (o : number) :
  is_zero o = true -> exists sign, Prim2SF o = S754_zero sign.
Proof.
  unfold is_zero. rewrite FloatAxioms.eqb_spec.
  change (Prim2SF zero) with (S754_zero false).
  destruct (Prim2SF o) as [sign| | |sign m e]; cbn; try discriminate; eauto.
  - destruct s; discriminate.
  - destruct sign; discriminate.
Qed.

Lemma SF2Prim_nan (x : number) : Prim2SF x = S754_nan -> x = nan.
Proof. intros H. rewrite <- (SF2Prim_Prim2SF x), H. reflexivity. Qed.

Lemma SF2Prim_infinity (x : number) sign :
  Prim2SF x = S754_infinity sign ->
  x = if sign then neg_infinity else infinity.
Proof.
  intros H. rewrite <- (SF2Prim_Prim2SF x), H. destruct sign; reflexivity.
Qed.

(** A quotient by a zero is NaN or an infinity, never a finite number. *)
Lemma div_by_zero (x o : number) :
  is_zero o = true ->
  (x / o)%float = nan \/ (x / o)%float = infinity
  \/ (x / o)%float = neg_infinity.
Proof.
  intros Ho. destruct (is_zero_spec o Ho) as (so & Hso).
  pose proof (div_spec x o) as Hd. rewrite Hso in Hd.
  destruct (Prim2SF x) as [sx|sx| |sx m e]; cbn in Hd.
  - left. apply SF2Prim_nan, Hd.
  - apply SF2Prim_infinity in Hd. destruct (xorb sx so); auto.
  - left. apply SF2Prim_nan, Hd.
  - apply SF2Prim_infinity in Hd. destruct (xorb sx so); auto.
Qed.

(** With an earliest-window average of zero the change is NaN, +Infinity
    or -Infinity, and the trend stable, up or down accordingly. *)
Lemma zero_average_summary (priceValues : list number) :
  is_zero (Scraper.oldAvg priceValues) = true ->
  let change := Scraper.changePercent_of priceValues in
  (Scraper.round2 change = nan /\ Scraper.trend_of change = stable)
  \/ (Scraper.round2 change = infinity /\ Scraper.trend_of change = up)
  \/ (Scraper.round2 change = neg_infinity /\ Scraper.trend_of change = down).
Proof.
  intros Ho. unfold Scraper.changePercent_of.
  destruct (div_by_zero
              (Scraper.recentAvg priceValues - Scraper.oldAvg priceValues)%float
              (Scraper.oldAvg priceValues) Ho) as [H|[H|H]];
    cbv zeta; rewrite H.
  - left. split; reflexivity.
  - right. left. split; reflexivity.
  - right. right. split; reflexivity.
Qed.

(* ===================================================================== *)
(** * The two averages                                                    *)
(* ===================================================================== *)

Lemma slice_last_all {A} (l : list A) :
  (length l <= 7)%nat -> slice_from (-7) l = l.
Proof.
  intros H. unfold slice_from. cbn [Z.ltb Z.compare].
  replace (Z.to_nat (Z.max (Z.of_nat (length l) + -7) 0)) with O by lia.
  reflexivity.
Qed.

Lemma slice_first_all {A} (l : list A) :
  (length l <= 7)%nat -> slice_to 7 l = l.
Proof. intros H. unfold slice_to. apply take_ge. exact H. Qed.

(** On a series of seven values or more both windows hold seven values,
    and dividing their sums by 7 gives their means. *)
Lemma averages_of_full_windows (priceValues : list number) :
  (7 <= length priceValues)%nat ->
  Scraper.recentAvg priceValues = mean_of_window (slice_from (-7) priceValues)
  /\ Scraper.oldAvg priceValues = mean_of_window (slice_to 7 priceValues).
Proof.
  intros H. unfold Scraper.recentAvg, Scraper.oldAvg, mean_of_window.
  change (-7) with (Z.opp 7).
  rewrite slice_last_length by lia. unfold slice_to. rewrite length_take.
  replace (Nat.min (length priceValues) (Z.to_nat 7)) with 7%nat by lia.
  replace (Nat.min 7 (length priceValues)) with 7%nat by lia.
  split; reflexivity.
Qed.

(** On a shorter series both windows are the whole series, and its sum is
    divided by 7 all the same. *)
Lemma averages_of_short_series (priceValues : list number) :
  (length priceValues < 7)%nat ->
  Scraper.recentAvg priceValues = (sum priceValues / 7)%float
  /\ Scraper.oldAvg priceValues = (sum priceValues / 7)%float.
Proof.
  intros H. unfold Scraper.recentAvg, Scraper.oldAvg.
  rewrite slice_last_all, slice_first_all by lia. split; reflexivity.
Qed.

(* ===================================================================== *)
(** * A warm cache                                                        *)
(* ===================================================================== *)

Lemma date_before_ext env1 env2 :
  Date_getTime env2 = Date_getTime env1 ->
  Scraper.date_before env2 = Scraper.date_before env1.
Proof. intros H. unfold Scraper.date_before. rewrite H. reflexivity. Qed.

(** A call that finds the category in the cache is answered from it. *)
Lemma cache_hit env category s entry :
  cache s !! cache_key category = Some entry ->
  now env - timestamp entry < Scraper.cacheExpiry ->
  Scraper.fetchAGMARKNETPrices env category s
  = (Normal (data entry, Some (cache_key category)), s).
Proof.
  intros Hlook Hfresh. unfold Scraper.fetchAGMARKNETPrices.
  fold (cache_key category). unfold bind, Scraper.getFromCache.
  rewrite Hlook.
  destruct (Z.ltb_spec (now env - timestamp entry) Scraper.cacheExpiry);
    [reflexivity|lia].
Qed.

(** The history built from an array that is in the cache, and the store it
    leaves behind. *)
Lemma fetchPriceHistory_cached env category days s observations s1 entry :
  Scraper.fetchAGMARKNETPrices env category s
    = (Normal (observations, Some (cache_key category)), s1) ->
  cache s1 !! cache_key category = Some entry ->
  data entry = observations ->
  observations <> [] ->
  Scraper.fetchPriceHistory env category days s
  = (Normal (history_of env days observations),
     sorted_in_place env (cache_key category) s1).
Proof.
  intros Hf Hlook Hdata Hne. unfold Scraper.fetchPriceHistory, try_catch.
  unfold bind at 1. rewrite Hf.
  destruct observations as [|o l]; [contradiction|].
  cbn [length Nat.eqb]. unfold bind, Scraper.sort_in_place, ret.
  unfold history_of, sorted_in_place, window. f_equal. f_equal.
  apply map_eq. intros k.
  destruct (decide (k = cache_key category)) as [->|Hk].
  - rewrite !lookup_alter_eq, Hlook. cbn. rewrite Hdata. reflexivity.
  - rewrite !lookup_alter_ne by congruence. reflexivity.
Qed.

(** Two calls within the hour, the first of which fetched observations:
    the second returns the history of the first. *)
Lemma warm_cache_repeats env1 env2 category days s payload :
  cold env1 category s -> answers env1 category payload ->
  Scraper.parseAGMARKNETResponse env1 payload category <> [] ->
  now env2 - now env1 < Scraper.cacheExpiry ->
  Date_getTime env2 = Date_getTime env1 ->
  exists history s1 s2,
    Scraper.fetchPriceHistory env1 category days s = (Normal history, s1)
    /\ Scraper.fetchPriceHistory env2 category days s1 = (Normal history, s2).
Proof.
  intros Hcold Hans Hne Hfresh Hdate.
  set (observations := Scraper.parseAGMARKNETResponse env1 payload category)
    in *.
  set (sorted := sort (Scraper.date_before env1) observations).
  pose proof (answers_parsed env1 category payload s Hcold Hans) as Hfirst.
  fold observations in Hfirst.
  assert (H1 : Scraper.fetchPriceHistory env1 category days s
               = (Normal (history_of env1 days observations),
                  sorted_in_place env1 (cache_key category)
                    (cached env1 category observations s))).
  { apply (fetchPriceHistory_cached env1 category days s observations _
             {| data := observations; timestamp := now env1 |});
      [exact Hfirst | | reflexivity | exact Hne].
    unfold cached. cbn [cache]. apply lookup_insert_eq. }
  set (s1 := sorted_in_place env1 (cache_key category)
               (cached env1 category observations s)) in *.
  assert (Hlook : cache s1 !! cache_key category
                  = Some {| data := sorted; timestamp := now env1 |}).
  { unfold s1, sorted_in_place, cached. cbn [cache].
    rewrite lookup_alter_eq, lookup_insert_eq. reflexivity. }
  assert (Hsorted : sorted <> []).
  { intros Hnil. apply Hne. apply length_zero_iff_nil.
    rewrite <- (sort_length (Scraper.date_before env1)).
    fold sorted. rewrite Hnil. reflexivity. }
  pose proof (cache_hit env2 category s1 _ Hlook Hfresh) as Hsecond.
  cbn [data] in Hsecond.
  pose proof (fetchPriceHistory_cached env2 category days s1 sorted s1 _
                Hsecond Hlook eq_refl Hsorted) as H2.
  exists (history_of env1 days observations), s1,
    (sorted_in_place env2 (cache_key category) s1).
  split; [exact H1|]. rewrite H2. f_equal. f_equal.
  unfold history_of, window. rewrite (date_before_ext env1 env2 Hdate).
  unfold sorted. rewrite sort_idempotent by apply date_before_asym.
  reflexivity.
Qed.

(* ===================================================================== *)
(** * The near-term change                                                *)
(* ===================================================================== *)

Lemma fold_left_add_map {A} (f : A -> number) (l : list A) (a : number) :
  fold_left (fun acc p => acc + f p)%float l a
  = fold_left PrimFloat.add (map f l) a.
Proof. revert a. induction l as [|x l IH]; intros a; cbn; auto. Qed.

(** The average of the forecast is the sum of its first 7 predicted prices,
    or of all of them when they are fewer, divided by 7. *)
Lemma avgForecast_sum (preds : list Prediction) :
  avgForecast preds
  = (sum (map predictedPrice (take (Nat.min 7 (length preds)) preds))
     / 7)%float.
Proof.
  unfold avgForecast, slice_to, sum. rewrite fold_left_add_map.
  f_equal. f_equal. f_equal.
  destruct (Nat.le_ge_cases 7 (length preds)) as [H|H].
  - rewrite Nat.min_l by exact H. reflexivity.
  - rewrite Nat.min_r by exact H. rewrite !take_ge by lia. reflexivity.
Qed.

Lemma forecastChange_relative history (preds : list Prediction) :
  forecastChange history preds
  = relative_change (map predictedPrice preds) (last_price (prices history)).
Proof.
  unfold forecastChange, relative_change, avgForecast, slice_to, sum.
  rewrite fold_left_add_map, firstn_map. reflexivity.
Qed.

(** The price-decrease insight is emitted exactly when the change is not
    above 5 and is below -5. *)
Lemma decrease_insight_iff env history preds category :
  In ForecastDecrease (generateInsights env history preds category)
  <-> (5 <? forecastChange history preds)%float = false
      /\ (forecastChange history preds <? -5)%float = true.
Proof.
  unfold generateInsights. cbv zeta.
  set (change := forecastChange history preds).
  split.
  - intros H. apply in_app_or in H as [H|H].
    { exfalso. destruct (GovernmentPriceScraper.trend history);
        destruct H as [H|[]]; discriminate. }
    apply in_app_or in H as [H|H].
    + destruct (5 <? change)%float; destruct (change <? -5)%float;
        cbn in H; try tauto; destruct H as [H|[]]; discriminate.
    + exfalso. apply in_app_or in H as [H|H].
      * destruct (bool_decide _); [destruct H as [H|[]]; discriminate|].
        destruct H.
      * destruct H as [H|[]]; discriminate.
  - intros [Hup Hdown]. apply in_or_app. right. apply in_or_app. left.
    rewrite Hup, Hdown. left. reflexivity.
Qed.

Lemma short_flat_forecasts_fall_spec top :
  short_flat_forecasts_fall top = true ->
  forall h p, 1 <= h <= 6 -> 1 <= p <= top ->
    (5 <? relative_change (flat_forecast h p) (of_Z p))%float = false
    /\ (relative_change (flat_forecast h p) (of_Z p) <? -5)%float = true.
Proof.
  unfold short_flat_forecasts_fall. intros H h p Hh Hp.
  rewrite forallb_forall in H. specialize (H h (in_upto_intro 6 h Hh)).
  rewrite forallb_forall in H. specialize (H p (in_upto_intro top p Hp)).
  cbv zeta in H. apply andb_true_iff in H as [Hup Hdown].
  apply negb_true_iff in Hup. auto.
Qed.

(* ===================================================================== *)
(** * The confidence interval                                             *)
(* ===================================================================== *)

Lemma sqrt_grows_spec top :
  sqrt_grows top = true ->
  forall i j, 1 <= i -> i < j -> j <= top ->
    (Math_sqrt (of_Z i) <? Math_sqrt (of_Z j))%float = true.
Proof.
  unfold sqrt_grows. intros H i j Hi Hij Hj.
  rewrite forallb_forall in H.
  specialize (H i (in_upto_intro top i ltac:(lia))).
  rewrite forallb_forall in H.
  specialize (H (j - i) (in_upto_intro (top - i) (j - i) ltac:(lia))).
  replace (i + (j - i)) with j in H by lia. exact H.
Qed.

Lemma generateForecasts_bounds env history h s ps s' :
  generateForecasts env history h s = (Normal ps, s') ->
  Forall2 (bounds_at (calculateVolatility (prices history))) (upto h) ps.
Proof.
  intros H. apply generateForecasts_inv in H.
  eapply Forall2_impl; [exact H|].
  intros i p ->. unfold bounds_at, forecast_point.
  cbn [upperBound lowerBound predictedPrice]. split; reflexivity.
Qed.

(* ===================================================================== *)
(** * A series shorter than a week                                        *)
(* ===================================================================== *)

(** A finite number other than zero. *)
Lemma finite_nonzero_spec (a : number) :
  is_finite a = true -> is_zero a = false ->
  exists sign m e, Prim2SF a = S754_finite sign m e.
Proof.
  intros Hfin Hnz. pose proof (SF2Prim_Prim2SF a) as Ha.
  destruct (Prim2SF a) as [sign|sign| |sign m e] eqn:Hsf.
  - exfalso. rewrite <- Ha in Hnz. destruct sign; discriminate.
  - exfalso. rewrite <- Ha in Hfin. destruct sign; discriminate.
  - exfalso. rewrite <- Ha in Hfin. discriminate.
  - eauto.
Qed.

(** The difference of a finite number and itself is +0. *)
Lemma sub_diag_finite (a : number) sign m e :
  Prim2SF a = S754_finite sign m e -> (a - a)%float = zero.
Proof.
  intros Ha. rewrite <- (SF2Prim_Prim2SF (a - a)), sub_spec, Ha.
  unfold SF64sub, SFsub. rewrite Z.min_id. unfold shl_align.
  rewrite !Z.sub_diag. reflexivity.
Qed.

(** Compared with itself, a finite average other than zero shows no change:
    the change is a zero and the trend stable. *)
Lemma no_change_against_itself (a : number) :
  is_finite a = true -> is_zero a = false ->
  let change := ((a - a) / a * 100)%float in
  is_zero (Scraper.round2 change) = true /\ Scraper.trend_of change = stable.
Proof.
  intros Hfin Hnz.
  destruct (finite_nonzero_spec a Hfin Hnz) as (sign & m & e & Ha).
  cbv zeta. rewrite (sub_diag_finite a sign m e Ha).
  assert (Hq : (zero / a)%float = if sign then neg_zero else zero).
  { rewrite <- (SF2Prim_Prim2SF (zero / a)), div_spec, Ha.
    change (Prim2SF zero) with (S754_zero false).
    destruct sign; reflexivity. }
  rewrite Hq. destruct sign; split; reflexivity.
Qed.

Lemma short_series_is_stable (priceValues : list number) :
  (length priceValues < 7)%nat ->
  is_finite (sum priceValues / 7)%float = true ->
  is_zero (sum priceValues / 7)%float = false ->
  is_zero (Scraper.round2 (Scraper.changePercent_of priceValues)) = true
  /\ Scraper.trend_of (Scraper.changePercent_of priceValues) = stable.
Proof.
  intros Hlen Hfin Hnz. unfold Scraper.changePercent_of.
  destruct (averages_of_short_series priceValues Hlen) as [-> ->].
  apply no_change_against_itself; assumption.
Qed.

(* ===================================================================== *)
(** * The errors that reach the caller                                    *)
(* ===================================================================== *)

(** A loop that throws does so in one of its rounds. *)
Lemma for_each_throw_origin {A B} (body : A -> M B) l s e s' :
  for_each body l s = (Throw e, s') ->
  exists i s0, In i l /\ body i s0 = (Throw e, s').
Proof.
  revert s. induction l as [|i l IH]; intros s H; cbn in H.
  - discriminate.
  - unfold bind in H. destruct (body i s) as [[y|e0] s1] eqn:Hb.
    + destruct (for_each body l s1) as [[ys|e1] s2] eqn:Hr; [discriminate|].
      injection H as <- <-.
      destruct (IH s1 Hr) as (j & s0 & Hj & Hbody).
      exists j, s0. split; [right; exact Hj|exact Hbody].
    + injection H as <- <-. exists i, s. split; [left; reflexivity|exact Hb].
Qed.

Section Errors.
Variable env : Env.

Lemma fallbackForecast_error category h s e s' :
  fallbackForecast env category h s = (Throw e, s') ->
  e = RangeError /\ 1 <= h.
Proof.
  unfold fallbackForecast. unfold bind at 1.
  match goal with
  | |- context [for_each ?b (upto h) s] =>
      destruct (for_each b (upto h) s) as [[ps|e0] s1] eqn:Hloop;
        [discriminate|]
  end.
  intros [= <- <-].
  apply for_each_throw_origin in Hloop as (i & s0 & Hi & Hbody).
  apply in_upto in Hi. split; [|lia].
  revert Hbody. unfold bind, lift, ret, Scraper.random.
  destruct (isoDate_cases (Scraper.today_plus env i)) as [(iso & ->)| ->];
    [discriminate|]. congruence.
Qed.

(** The one error [forecastPrices] lets through is the RangeError of a date
    out of range, and only for a positive horizon. *)
Lemma forecastPrices_error category h s e s' :
  forecastPrices env category h s = (Throw e, s') ->
  e = RangeError /\ 1 <= h
  /\ ~ (representable env 0 /\ representable env h).
Proof.
  intros H. split; [|split].
  - revert H. unfold forecastPrices, try_catch.
    match goal with
    | |- context [match ?m s with _ => _ end] =>
        destruct (m s) as [[r|e0] s1]
    end; [discriminate|].
    intros H. apply fallbackForecast_error in H. apply H.
  - revert H. unfold forecastPrices, try_catch.
    match goal with
    | |- context [match ?m s with _ => _ end] =>
        destruct (m s) as [[r|e0] s1]
    end; [discriminate|].
    intros H. apply fallbackForecast_error in H. apply H.
  - intros [H0 Hh].
    destruct (forecastPrices_total env category h s H0 Hh) as (r & s2 & Hr).
    congruence.
Qed.

Lemma generateMockHistory_error category days s e s' :
  Scraper.generateMockHistory env category days s = (Throw e, s') ->
  e = RangeError /\ 0 <= days.
Proof.
  unfold Scraper.generateMockHistory. unfold bind at 1.
  match goal with
  | |- context [for_each ?b (downto0 days) s] =>
      destruct (for_each b (downto0 days) s) as [[ps|e0] s1] eqn:Hloop;
        [discriminate|]
  end.
  intros [= <- <-].
  apply for_each_throw_origin in Hloop as (i & s0 & Hi & Hbody).
  apply in_downto0 in Hi. split; [|lia].
  revert Hbody. unfold bind, lift, ret, Scraper.random.
  destruct (isoDate_cases (Scraper.today_plus env (- i))) as [(iso & ->)| ->];
    [discriminate|]. congruence.
Qed.

Lemma fetchPriceHistory_error category days s e s' :
  Scraper.fetchPriceHistory env category days s = (Throw e, s') ->
  e = RangeError /\ 0 <= days
  /\ ~ (representable env 0 /\ representable env (- days)).
Proof.
  intros H.
  assert (Hm : e = RangeError /\ 0 <= days).
  { revert H. unfold Scraper.fetchPriceHistory, try_catch.
    match goal with
    | |- context [match ?m s with _ => _ end] =>
        destruct (m s) as [[r|e0] s1]
    end; [discriminate|].
    apply generateMockHistory_error. }
  destruct Hm as [-> Hd]. repeat split; try assumption.
  intros Hr.
  destruct (fetchPriceHistory_total env category days s (fun _ => Hr))
    as (r & s2 & Hr2).
  congruence.
Qed.
End Errors.

(* ===================================================================== *)
(** * Failures of the upstream source                                     *)
(* ===================================================================== *)

(** C1 (as amended). For every category, every horizon [h >= 1] and every
    day count [days >= 1] such that today, the day [h] days ahead and the day
    [days] days back are dates a [Date] can hold, and whatever the upstream
    does, [forecastPrices] returns a forecast of [h] predictions and
    [fetchPriceHistory] a history whose [dates] and [prices] run parallel:
    no exception reaches the caller. A failing upstream (disabled, no API
    key, network error, non-ok response, body that is not JSON) makes
    [fetchAGMARKNETPrices] return the thirty synthetic prices, and an answer
    without observations makes [fetchPriceHistory] return the synthetic
    history. *)
Theorem upstream_failures_stay_inside env category h days s :
  1 <= h -> 1 <= days ->
  representable env 0 -> representable env h -> representable env (- days) ->
  (exists r s',
      forecastPrices env category h s = (Normal r, s')
      /\ length (predictions r) = Z.to_nat h)
  /\ (exists history s',
        Scraper.fetchPriceHistory env category days s = (Normal history, s')
        /\ length (dates history) = length (prices history))
  /\ (representable env (- 29) -> cold env category s ->
      unavailable env category ->
      exists l s',
        Scraper.fetchAGMARKNETPrices env category s = (Normal (l, None), s')
        /\ synthetic_prices env category s = (Normal (l, None), s')
        /\ length l = 30%nat)
  /\ (forall payload,
        cold env category s -> answers env category payload ->
        Scraper.parseAGMARKNETResponse env payload category = [] ->
        exists history s',
          Scraper.fetchPriceHistory env category days s = (Normal history, s')
          /\ Scraper.generateMockHistory env category days
               (cached env category [] s) = (Normal history, s')).
Proof.
  intros Hh Hdays H0 Hfar Hback. split; [|split; [|split]].
  - destruct (forecastPrices_total env category h s H0 Hfar) as (r & s' & Hr).
    exists r, s'. split; [exact Hr|].
    apply forecastPrices_dated in Hr. apply Hr.
  - destruct (fetchPriceHistory_total env category days s) as (ph & s' & Hp);
      [auto|].
    exists ph, s'. split; [exact Hp|].
    apply fetchPriceHistory_summarised in Hp. apply Hp.
  - intros H29 Hcold Hfail.
    destruct (synthetic_prices_total env category s H0 H29)
      as (l & s' & Hl & Hlen).
    exists l, s'. rewrite unavailable_fallback by assumption. auto.
  - intros payload Hcold Hans Hparse.
    destruct (generateMockHistory_total env category days
                (cached env category [] s)) as (m & s' & Hm); [auto|].
    exists m, s'. split; [|exact Hm].
    eapply empty_answer_mock; eauto.
Qed.

(** With the upstream not enabled, a week's forecast and a ninety-day
    history are returned. *)
Lemma upstream_failures_stay_inside_witness :
  (exists r s',
      forecastPrices (Host.offline Host.noon) "spices" 7 Host.fresh
        = (Normal r, s')
      /\ length (predictions r) = 7%nat)
  /\ (exists history s',
        Scraper.fetchPriceHistory (Host.offline Host.noon) "spices" 90
          Host.fresh = (Normal history, s')
        /\ length (dates history) = length (prices history)).
Proof.
  destruct (upstream_failures_stay_inside
              (Host.offline Host.noon) "spices" 7 90 Host.fresh)
    as (Hf & Hh & _); [lia | lia | in_range | in_range | in_range |].
  split; assumption.
Defined.

(** C1 fails as stated: a horizon of 10^8 days, or a history of 2 * 10^8
    days asked of an upstream that answers with no records, ends in a
    RangeError, thrown by [toISOString] in the synthetic path itself. *)
Lemma range_error_reaches_the_caller :
  (exists s',
      forecastPrices (Host.offline Host.noon) "spices" 100000000 Host.fresh
      = (Throw RangeError, s'))
  /\ (exists s',
        Scraper.fetchPriceHistory
          (Host.serving (Host.records []) Host.noon) "spices" 200000000
          Host.fresh
        = (Throw RangeError, s')).
Proof.
  split.
  - apply forecastPrices_throws. exists 100000000.
    split; [lia|]. vm_compute. reflexivity.
  - set (env := Host.serving (Host.records []) Host.noon).
    assert (Hf : Scraper.fetchAGMARKNETPrices env "spices" Host.fresh
                 = (Normal ([], Some (cache_key "spices")),
                    cached env "spices" [] Host.fresh)).
    { apply (answers_parsed env "spices" (Host.records [])).
      - reflexivity.
      - split; [reflexivity | split; [discriminate | reflexivity]]. }
    unfold Scraper.fetchPriceHistory, try_catch. unfold bind at 1.
    rewrite Hf. cbn [length Nat.eqb].
    rewrite generateMockHistory_throws; [|lia|vm_compute; reflexivity].
    rewrite generateMockHistory_throws; [|lia|vm_compute; reflexivity].
    eauto.
Qed.

(* ===================================================================== *)
(** * Length and dates of a forecast                                      *)
(* ===================================================================== *)




(* ===================================================================== *)
(** * Order and sign of the bounds                                        *)
(* ===================================================================== *)

(** C3 fails on the primary path. Seven observations falling from 100 to 40
    by ten a day have a least-squares trend of -10 a day, which crosses zero
    four days ahead. A week's forecast from them predicts -9, -14, -17 and
    -57 for the last four days: [predictedPrice] is negative, below its own
    [lowerBound], which alone is clamped at 0, and on the last day
    [upperBound] is negative too, below [lowerBound]. *)
Theorem falling_prices_are_forecast_negative :
  exists r s',
    forecastPrices
      (Host.serving (Host.observed [100; 90; 80; 70; 60; 50; 40]%float)
                    Host.noon)
      "spices" 7 Host.fresh
    = (Normal r, s')
    /\ map (fun p => (predictedPrice p, lowerBound p, upperBound p))
           (predictions r)
       = [ (26, 6, 46); (11, 0, 39); (0, 0, 35); (-9, 0, 31); (-14, 0, 31);
           (-17, 0, 32); (-57, 0, -4) ]%float
    /\ Exists (fun p => (predictedPrice p <? 0)%float = true
                        /\ (predictedPrice p <? lowerBound p)%float = true)
              (predictions r)
    /\ Exists (fun p => (upperBound p <? lowerBound p)%float = true)
              (predictions r).
Proof.
  eexists _, _. split; [vm_compute; reflexivity|].
  split; [vm_compute; reflexivity|].
  split.
  - do 3 apply Exists_cons_tl. apply Exists_cons_hd.
    split; vm_compute; reflexivity.
  - do 6 apply Exists_cons_tl. apply Exists_cons_hd.
    vm_compute; reflexivity.
Qed.

(* ===================================================================== *)
(** * Length of a price history                                           *)
(* ===================================================================== *)

(** C4. With observations at hand the history holds the last [days] of
    them, so at most [days]; but when the upstream answers with no
    observation the synthetic history has [days + 1] points, one for each
    day from [days] days ago up to and including today. *)
Theorem mock_history_has_one_day_more env category days s payload :
  1 <= days ->
  representable env 0 -> representable env (- days) ->
  cold env category s -> answers env category payload ->
  (Scraper.parseAGMARKNETResponse env payload category <> [] ->
   exists history s',
     Scraper.fetchPriceHistory env category days s = (Normal history, s')
     /\ (length (prices history) <= Z.to_nat days)%nat
     /\ (length (dates history) <= Z.to_nat days)%nat)
  /\ (Scraper.parseAGMARKNETResponse env payload category = [] ->
      exists history s',
        Scraper.fetchPriceHistory env category days s = (Normal history, s')
        /\ length (prices history) = S (Z.to_nat days)
        /\ length (dates history) = S (Z.to_nat days)
        /\ dates history
           = map (fun i => JStr (day_after_today env (- i))) (downto0 days)).
Proof.
  intros Hdays H0 Hback Hcold Hans. split.
  - intros Hne.
    destruct (observed_history env category days s _ _ _
                (answers_parsed env category payload s Hcold Hans) Hne)
      as (h & s' & Hh & Hd & Hp).
    exists h, s'. split; [exact Hh|].
    rewrite Hd, Hp, !length_map, window_length by exact Hdays. lia.
  - intros Hparse.
    destruct (generateMockHistory_total env category days
                (cached env category [] s)) as (m & s' & Hm); [auto|].
    exists m, s'. split; [eapply empty_answer_mock; eauto|].
    apply generateMockHistory_inv in Hm as ((Hlen & _) & Hp & Hd).
    rewrite Hlen, Hp. repeat split; try lia. exact Hd.
Qed.

(** A one-day history asked of an upstream without records has two points:
    yesterday and today. *)
Lemma mock_history_has_one_day_more_witness :
  exists history s',
    Scraper.fetchPriceHistory
      (Host.serving (Host.records []) Host.noon) "spices" 1 Host.fresh
      = (Normal history, s')
    /\ length (prices history) = 2%nat
    /\ dates history = [JStr "2026-11-01"; JStr "2026-11-02"].
Proof.
  destruct (mock_history_has_one_day_more
              (Host.serving (Host.records []) Host.noon) "spices" 1
              Host.fresh (Host.records []))
    as (_ & Hmock); [lia | in_range | in_range | reflexivity | |].
  - split; [reflexivity | split; [discriminate | reflexivity]].
  - destruct Hmock as (h & s' & Hh & Hp & _ & Hd); [reflexivity|].
    exists h, s'. split; [exact Hh|]. split; [exact Hp|].
    rewrite Hd. vm_compute. reflexivity.
Defined.

(* ===================================================================== *)
(** * An earliest-window average of zero                                  *)
(* ===================================================================== *)

(** C5 (as amended). The comparison of the two averages has no guard
    against a zero divisor. For every history that [fetchPriceHistory]
    returns and whose earliest-window average is 0, [changePercent] is no
    finite number: it is NaN with trend stable, +Infinity with trend up, or
    -Infinity with trend down. *)
Theorem zero_average_is_not_guarded env category days s history s' :
  Scraper.fetchPriceHistory env category days s = (Normal history, s') ->
  is_zero (Scraper.oldAvg (prices history)) = true ->
  (changePercent history = nan
   /\ GovernmentPriceScraper.trend history = stable)
  \/ (changePercent history = infinity
      /\ GovernmentPriceScraper.trend history = up)
  \/ (changePercent history = neg_infinity
      /\ GovernmentPriceScraper.trend history = down).
Proof.
  intros H Hzero. apply fetchPriceHistory_summarised in H as (_ & -> & ->).
  apply zero_average_summary, Hzero.
Qed.

(** A week that reports no price has a zero average; its change is NaN. *)
Lemma zero_average_is_not_guarded_witness :
  exists history s',
    Scraper.fetchPriceHistory (Host.serving Host.unreported Host.noon)
      "spices" 90 Host.fresh = (Normal history, s')
    /\ ((changePercent history = nan
         /\ GovernmentPriceScraper.trend history = stable)
        \/ (changePercent history = infinity
            /\ GovernmentPriceScraper.trend history = up)
        \/ (changePercent history = neg_infinity
            /\ GovernmentPriceScraper.trend history = down)).
Proof.
  eexists _, _. split; [vm_compute; reflexivity|].
  eapply (zero_average_is_not_guarded
            (Host.serving Host.unreported Host.noon) "spices" 90 Host.fresh);
    vm_compute; reflexivity.
Defined.

(** C5 fails as stated. Records that report no price read as 0
    ([parseFloat(undefined) || 0]); after a week of them and one day at 70,
    the earliest seven prices average 0 and the history carries
    [changePercent] = +Infinity with trend up, not 0 with trend stable. *)
Lemma zero_average_gives_infinite_change :
  exists history s',
    Scraper.fetchPriceHistory (Host.serving Host.stalled Host.noon)
      "spices" 90 Host.fresh = (Normal history, s')
    /\ prices history = [0; 0; 0; 0; 0; 0; 0; 70]%float
    /\ Scraper.oldAvg (prices history) = 0%float
    /\ changePercent history = infinity
    /\ GovernmentPriceScraper.trend history = up.
Proof.
  eexists _, _. split; [vm_compute; reflexivity|].
  repeat split; vm_compute; reflexivity.
Qed.

(* ===================================================================== *)
(** * The windows of the trend                                            *)
(* ===================================================================== *)

(** C6 (as amended). For every history that [fetchPriceHistory] returns,
    [trend] and [changePercent] compare the sum of the most recent 7 prices
    divided by 7 with the sum of the earliest 7 prices divided by 7. On a
    series of 7 prices or more these are the means of the two windows. On a
    shorter series both windows are the whole series and its sum is still
    divided by 7, not by the number of prices; the two averages are then
    the same number, so that the change is zero and the trend stable
    whenever that number is finite and not zero. *)
Theorem window_sums_are_divided_by_seven env category days s history s' :
  Scraper.fetchPriceHistory env category days s = (Normal history, s') ->
  let series := prices history in
  let recent := Scraper.recentAvg series in
  let old := Scraper.oldAvg series in
  let change := ((recent - old) / old * 100)%float in
  GovernmentPriceScraper.trend history = Scraper.trend_of change
  /\ changePercent history = Scraper.round2 change
  /\ recent = (sum (slice_from (-7) series) / 7)%float
  /\ old = (sum (slice_to 7 series) / 7)%float
  /\ ((7 <= length series)%nat ->
      recent = mean_of_window (slice_from (-7) series)
      /\ old = mean_of_window (slice_to 7 series))
  /\ ((length series < 7)%nat ->
      recent = (sum series / 7)%float /\ old = (sum series / 7)%float
      /\ (is_finite (sum series / 7)%float = true ->
          is_zero (sum series / 7)%float = false ->
          is_zero (changePercent history) = true
          /\ GovernmentPriceScraper.trend history = stable)).
Proof.
  intros H. apply fetchPriceHistory_summarised in H as (_ & Ht & Hc).
  cbv zeta. split; [exact Ht|]. split; [exact Hc|].
  split; [reflexivity|]. split; [reflexivity|]. split.
  - apply averages_of_full_windows.
  - intros Hshort.
    destruct (averages_of_short_series (prices history) Hshort) as [Hr Ho].
    split; [exact Hr|]. split; [exact Ho|].
    intros Hfin Hnz. rewrite Ht, Hc.
    apply short_series_is_stable; assumption.
Qed.

(** Two observations, 100 and 200: both averages are 300 / 7. *)
Lemma window_sums_are_divided_by_seven_witness :
  exists history s',
    Scraper.fetchPriceHistory
      (Host.serving (Host.observed [100; 200]%float) Host.noon)
      "spices" 90 Host.fresh = (Normal history, s')
    /\ Scraper.recentAvg (prices history) = (300 / 7)%float
    /\ Scraper.oldAvg (prices history) = (300 / 7)%float
    /\ is_zero (changePercent history) = true
    /\ GovernmentPriceScraper.trend history = stable.
Proof.
  eexists _, _. split; [vm_compute; reflexivity|].
  destruct (window_sums_are_divided_by_seven
              (Host.serving (Host.observed [100; 200]%float) Host.noon)
              "spices" 90 Host.fresh _ _ ltac:(vm_compute; reflexivity))
    as (_ & _ & _ & _ & _ & Hshort).
  destruct Hshort as (Hr & Ho & Hstable); [vm_compute; lia|].
  split; [rewrite Hr; vm_compute; reflexivity|].
  split; [rewrite Ho; vm_compute; reflexivity|].
  apply Hstable; vm_compute; reflexivity.
Defined.

(** C6 fails as stated. From two observations, 100 and 200, both windows
    hold these two prices, whose mean is 150; the average that is compared
    is 300 / 7 = 42.857..., for the recent window and the earliest alike. *)
Lemma short_window_is_divided_by_seven :
  exists history s',
    Scraper.fetchPriceHistory
      (Host.serving (Host.observed [100; 200]%float) Host.noon)
      "spices" 90 Host.fresh = (Normal history, s')
    /\ slice_from (-7) (prices history) = [100; 200]%float
    /\ slice_to 7 (prices history) = [100; 200]%float
    /\ mean_of_window (slice_from (-7) (prices history)) = 150%float
    /\ mean_of_window (slice_to 7 (prices history)) = 150%float
    /\ Scraper.recentAvg (prices history) = 42.857142857142854%float
    /\ Scraper.oldAvg (prices history) = 42.857142857142854%float.
Proof.
  eexists _, _. split; [vm_compute; reflexivity|].
  repeat split; vm_compute; reflexivity.
Qed.

(* ===================================================================== *)
(** * Arguments that are not positive                                     *)
(* ===================================================================== *)

(** C7 (as amended). No argument is rejected. For every horizon [n <= 0],
    [forecastPrices] returns a forecast with no predictions, and for every
    day count [n <= 0] [fetchPriceHistory] returns a history, provided only
    that today is a date a [Date] can hold. The one error either operation
    lets through to its caller, whatever the argument [k], is the RangeError
    of a date out of range: from [forecastPrices] only for a horizon
    [k >= 1], from [fetchPriceHistory] only for a day count [k >= 0]. *)
Theorem nonpositive_arguments_are_accepted env category n s :
  n <= 0 ->
  (exists r s',
      forecastPrices env category n s = (Normal r, s')
      /\ predictions r = [])
  /\ (representable env 0 ->
      exists history s',
        Scraper.fetchPriceHistory env category n s = (Normal history, s'))
  /\ (forall k e s',
        forecastPrices env category k s = (Throw e, s') ->
        e = RangeError /\ 1 <= k
        /\ ~ (representable env 0 /\ representable env k))
  /\ (forall k e s',
        Scraper.fetchPriceHistory env category k s = (Throw e, s') ->
        e = RangeError /\ 0 <= k
        /\ ~ (representable env 0 /\ representable env (- k))).
Proof.
  intros Hn. split; [|split; [|split]].
  - assert (Hr : exists r s', forecastPrices env category n s = (Normal r, s')).
    { unfold forecastPrices, try_catch.
      match goal with
      | |- context [match ?m s with _ => _ end] =>
          destruct (m s) as [[r|e] s1]
      end.
      - eexists _, _. reflexivity.
      - destruct (fallbackForecast_nonpositive env category n s1 Hn)
          as (r & Hr & _). eauto. }
    destruct Hr as (r & s' & Hr). exists r, s'. split; [exact Hr|].
    apply forecastPrices_inv in Hr
      as [(history & s1 & _ & _ & Hg & _)|(s1 & Hf)].
    + rewrite generateForecasts_nonpositive in Hg by exact Hn. congruence.
    + destruct (fallbackForecast_nonpositive env category n s1 Hn)
        as (r' & Hr' & Hnil). congruence.
  - intros H0. apply fetchPriceHistory_total. intros Hge.
    replace n with 0 by lia. auto.
  - intros k e s'. apply forecastPrices_error.
  - intros k e s'. apply fetchPriceHistory_error.
Qed.

(** A horizon of -3 days and a history of -3 days are both answered. *)
Lemma nonpositive_arguments_are_accepted_witness :
  (exists r s',
      forecastPrices (Host.offline Host.noon) "spices" (-3) Host.fresh
        = (Normal r, s')
      /\ predictions r = [])
  /\ (exists history s',
        Scraper.fetchPriceHistory (Host.offline Host.noon) "spices" (-3)
          Host.fresh = (Normal history, s')).
Proof.
  destruct (nonpositive_arguments_are_accepted
              (Host.offline Host.noon) "spices" (-3) Host.fresh)
    as (Hf & Hh & _); [lia|].
  split; [exact Hf|]. apply Hh. in_range.
Defined.

(** C7 fails as stated: a horizon of 0 days raises no error; the caller
    gets a forecast without predictions, and a history of 0 days is the
    whole series. *)
Lemma zero_horizon_is_answered :
  (exists r s',
      forecastPrices (Host.offline Host.noon) "spices" 0 Host.fresh
        = (Normal r, s')
      /\ predictions r = [])
  /\ (exists history s',
        Scraper.fetchPriceHistory (Host.offline Host.noon) "spices" 0
          Host.fresh = (Normal history, s')
        /\ length (prices history) = 30%nat).
Proof.
  split; eexists _, _; (split; [vm_compute; reflexivity|reflexivity]).
Qed.

(* ===================================================================== *)
(** * Two calls within the hour                                           *)
(* ===================================================================== *)




(* ===================================================================== *)
(** * Width of the confidence interval                                    *)
(* ===================================================================== *)




(* ===================================================================== *)
(** * The near-term insight                                               *)
(* ===================================================================== *)

(** C10. [generateInsights] takes as the average of the forecast the sum of
    its first [min(7, h)] predicted prices divided by the constant 7, and
    emits the price-decrease insight exactly when the change of that
    average against the current price is below -5 percent. A forecast of
    fewer than 7 predictions is therefore compared after scaling by [h/7]:
    a flat forecast of 1 to 6 predictions, each equal to the current price
    (any whole price from 1 to 2000), always yields the price-decrease
    insight; and the flat three-day forecast at 100 that [forecastPrices]
    derives from a week of observations at 100 shows a change of -57.14
    percent and carries that insight. *)
Theorem short_forecast_is_divided_by_seven env history preds category :
  avgForecast preds
  = (sum (map predictedPrice (take (Nat.min 7 (length preds)) preds)) / 7)%float
  /\ forecastChange history preds
     = ((avgForecast preds - last_price (prices history))
        / last_price (prices history) * 100)%float
  /\ (In ForecastDecrease (generateInsights env history preds category)
      <-> (5 <? forecastChange history preds)%float = false
          /\ (forecastChange history preds <? -5)%float = true)
  /\ (forall h p,
        1 <= h <= 6 -> 1 <= p <= 2000 ->
        last_price (prices history) = of_Z p ->
        map predictedPrice preds = flat_forecast h p ->
        In ForecastDecrease (generateInsights env history preds category))
  /\ (exists r s',
        forecastPrices
          (Host.serving
             (Host.observed [100; 100; 100; 100; 100; 100; 100]%float)
             Host.noon)
          "spices" 3 Host.fresh
        = (Normal r, s')
        /\ map predictedPrice (predictions r) = [100; 100; 100]%float
        /\ currentPrice r = 100%float
        /\ relative_change (map predictedPrice (predictions r)) (currentPrice r)
           = (-57.142857142857153)%float
        /\ In ForecastDecrease (insights r)).
Proof.
  split; [apply avgForecast_sum|].
  split; [reflexivity|].
  split; [apply decrease_insight_iff|].
  split.
  - intros h p Hh Hp Hlast Hflat. apply decrease_insight_iff.
    rewrite forecastChange_relative, Hlast, Hflat.
    apply (short_flat_forecasts_fall_spec 2000);
      [vm_compute; reflexivity| |]; assumption.
  - eexists _, _. split; [vm_compute; reflexivity|].
    repeat split; try (vm_compute; reflexivity).
    vm_compute. right. left. reflexivity.
Qed.
(* ===================================================================== *)
(** * What a call does to the store                                       *)
(* ===================================================================== *)

Section Effects.
Variable R : Store -> Store -> Prop.
Hypothesis R_refl : forall s, R s s.
Hypothesis R_trans : forall a b c, R a b -> R b c -> R a c.

Lemma within_ret {A} (a : A) : within R (ret a).
Proof. intros s. apply R_refl. Qed.

Lemma within_throw {A} e : within R (@throw A e).
Proof. intros s. apply R_refl. Qed.

Lemma within_lift {A} (c : Completion A) : within R (lift c).
Proof. intros s. apply R_refl. Qed.

Lemma within_bind {A B} (m : M A) (k : A -> M B) :
  within R m -> (forall a, within R (k a)) -> within R (bind m k).
Proof.
  intros Hm Hk s. unfold bind. specialize (Hm s).
  destruct (m s) as [[a|e] s1]; cbn [snd] in *.
  - eapply R_trans; [exact Hm|]. apply Hk.
  - exact Hm.
Qed.

(** The same, when what follows needs to know where its argument comes
    from. *)
Lemma within_bind_run {A B} (m : M A) (k : A -> M B) :
  within R m ->
  (forall s a s1, m s = (Normal a, s1) -> R s1 (snd (k a s1))) ->
  within R (bind m k).
Proof.
  intros Hm Hk s. unfold bind. specialize (Hm s).
  destruct (m s) as [[a|e] s1] eqn:Hrun; cbn [snd] in *.
  - eapply R_trans; [exact Hm|]. eapply Hk, Hrun.
  - exact Hm.
Qed.

Lemma within_try_catch {A} (m : M A) (h : JsError -> M A) :
  within R m -> (forall e, within R (h e)) -> within R (try_catch m h).
Proof.
  intros Hm Hh s. unfold try_catch. specialize (Hm s).
  destruct (m s) as [[a|e] s1]; cbn [snd] in *.
  - exact Hm.
  - eapply R_trans; [exact Hm|]. apply Hh.
Qed.

Lemma within_for_each {A B} (body : A -> M B) l :
  (forall i, within R (body i)) -> within R (for_each body l).
Proof.
  intros Hb. induction l as [|i l IH]; cbn [for_each].
  - apply within_ret.
  - apply within_bind; [apply Hb|]. intros y.
    apply within_bind; [exact IH|]. intros ys. apply within_ret.
Qed.
End Effects.

Lemma same_cache_refl s : same_cache s s.
Proof. reflexivity. Qed.

Lemma same_cache_trans a b c :
  same_cache a b -> same_cache b c -> same_cache a c.
Proof. unfold same_cache. congruence. Qed.

Lemma same_elsewhere_refl key s : same_elsewhere key s s.
Proof. intros k _. reflexivity. Qed.

Lemma same_elsewhere_trans key a b c :
  same_elsewhere key a b -> same_elsewhere key b c -> same_elsewhere key a c.
Proof. intros H1 H2 k Hk. rewrite H2, H1 by exact Hk. reflexivity. Qed.

Lemma same_cache_elsewhere key s s' :
  same_cache s s' -> same_elsewhere key s s'.
Proof. intros H k _. rewrite H. reflexivity. Qed.

Lemma within_weaken (R R' : Store -> Store -> Prop) {A} (m : M A) :
  (forall s s', R s s' -> R' s s') -> within R m -> within R' m.
Proof. intros H Hm s. apply H, Hm. Qed.

Create HintDb effects.
#[local] Hint Resolve same_cache_refl same_cache_trans same_elsewhere_refl
  same_elsewhere_trans : effects.

(** Takes a computation apart into the steps it is made of. *)
Ltac effects :=
  repeat match goal with
  | |- forall _, _ => intro
  | |- within _ (ret _) => apply within_ret
  | |- within _ (throw _) => apply within_throw
  | |- within _ (lift _) => apply within_lift
  | |- within _ (bind _ _) => apply within_bind
  | |- within _ (try_catch _ _) => apply within_try_catch
  | |- within _ (for_each _ _) => apply within_for_each
  | |- within _ (let '(_, _) := ?x in _) => destruct x
  | |- within _ (if ?b then _ else _) => destruct b
  | |- within _ (match ?x with _ => _ end) => destruct x
  end; eauto with effects.

(** Drawing a number, and every loop of the generators, leaves the cache
    alone. *)
Lemma random_keeps_cache env : within same_cache (Scraper.random env).
Proof. intros s. reflexivity. Qed.

#[local] Hint Resolve random_keeps_cache : effects.

Lemma getFallbackPrices_keeps_cache env category :
  within same_cache (Scraper.getFallbackPrices env category).
Proof. unfold Scraper.getFallbackPrices. effects. Qed.

Lemma generateMockHistory_keeps_cache env category days :
  within same_cache (Scraper.generateMockHistory env category days).
Proof. unfold Scraper.generateMockHistory. effects. Qed.

Lemma fallbackForecast_keeps_cache env category h :
  within same_cache (fallbackForecast env category h).
Proof. unfold fallbackForecast. effects. Qed.

Lemma generateForecasts_keeps_store env history h s :
  snd (generateForecasts env history h s) = s.
Proof.
  unfold generateForecasts.
  apply (within_for_each (fun a b => b = a)); [reflexivity|congruence|].
  intros i s0. unfold bind, lift, ret.
  destruct (isoDate (Scraper.today_plus env i)); reflexivity.
Qed.

#[local] Hint Resolve getFallbackPrices_keeps_cache
  generateMockHistory_keeps_cache fallbackForecast_keeps_cache : effects.

(* ===================================================================== *)
(** * The cache, call by call                                             *)
(* ===================================================================== *)

Lemma getFromCache_keeps_store env key s :
  snd (Scraper.getFromCache env key s) = s.
Proof.
  unfold Scraper.getFromCache.
  destruct (cache s !! key) as [entry|]; [|reflexivity].
  destruct (now env - timestamp entry <? Scraper.cacheExpiry); reflexivity.
Qed.

Lemma fetch_json_keeps_store env url s :
  snd (Scraper.fetch_json env url s) = s.
Proof.
  unfold Scraper.fetch_json.
  destruct (fetch env url) as [|[] []]; reflexivity.
Qed.

(** The synthetic prices come with no alias into the cache. *)
Lemma synthetic_prices_alias env category s l alias s' :
  synthetic_prices env category s = (Normal (l, alias), s') -> alias = None.
Proof.
  unfold synthetic_prices, bind, ret.
  destruct (Scraper.getFallbackPrices env category s) as [[l0|e] s0];
    [|discriminate].
  congruence.
Qed.

Lemma synthetic_prices_keeps_cache env category :
  within same_cache (synthetic_prices env category).
Proof. unfold synthetic_prices. effects. Qed.

#[local] Hint Resolve synthetic_prices_keeps_cache : effects.

(** The array [fetchAGMARKNETPrices] returns is a fresh one or the one
    cached under the key of its category. *)
Lemma fetchAGMARKNETPrices_alias env category s l alias s' :
  Scraper.fetchAGMARKNETPrices env category s = (Normal (l, alias), s') ->
  alias = None \/ alias = Some (cache_key category).
Proof.
  unfold Scraper.fetchAGMARKNETPrices. fold (cache_key category).
  fold (synthetic_prices env category). unfold bind at 1.
  destruct (Scraper.getFromCache env (cache_key category) s)
    as [[[d|]|e] s0]; [| |discriminate].
  - unfold ret. intros [= _ <- _]. right. reflexivity.
  - unfold try_catch.
    match goal with
    | |- context [match ?m s0 with _ => _ end] =>
        destruct (m s0) as [[[l1 a1]|e] s1] eqn:Hbody
    end.
    + intros [= <- <- <-]. revert Hbody.
      destruct (negb (agmarknet_enabled env)).
      { intros H. left. eapply synthetic_prices_alias, H. }
      destruct (agmarknet_apiKey env =? "")%string.
      { intros H. left. eapply synthetic_prices_alias, H. }
      unfold bind, Scraper.saveToCache, ret.
      destruct (Scraper.fetch_json env _ s0) as [[payload|e] s2];
        [|discriminate].
      intros [= _ <- _]. right. reflexivity.
    + intros H. left. eapply synthetic_prices_alias, H.
Qed.

Lemma saveToCache_elsewhere env key d :
  within (same_elsewhere key) (Scraper.saveToCache env key d).
Proof.
  intros s k Hk. unfold Scraper.saveToCache. cbn [snd cache].
  apply lookup_insert_ne. congruence.
Qed.

Lemma keeps_store_within (R : Store -> Store -> Prop) {A} (m : M A) :
  (forall s, R s s) -> (forall s, snd (m s) = s) -> within R m.
Proof. intros Hrefl Hm s. rewrite Hm. apply Hrefl. Qed.

Lemma fetchAGMARKNETPrices_elsewhere env category :
  within (same_elsewhere (cache_key category))
         (Scraper.fetchAGMARKNETPrices env category).
Proof.
  unfold Scraper.fetchAGMARKNETPrices. fold (cache_key category).
  fold (synthetic_prices env category).
  assert (Hsyn : within (same_elsewhere (cache_key category))
                        (synthetic_prices env category)).
  { eapply within_weaken; [apply same_cache_elsewhere|]. effects. }
  apply within_bind; eauto with effects.
  - apply keeps_store_within; eauto with effects.
    apply getFromCache_keeps_store.
  - intros [d|]; [effects|].
    apply within_try_catch; eauto with effects.
    destruct (negb (agmarknet_enabled env)); [exact Hsyn|].
    destruct (agmarknet_apiKey env =? "")%string; [exact Hsyn|].
    apply within_bind; eauto with effects.
    + apply keeps_store_within; eauto with effects.
      apply fetch_json_keeps_store.
    + intros payload. apply within_bind; eauto with effects.
      * apply saveToCache_elsewhere.
      * effects.
Qed.

Lemma sort_in_place_elsewhere env category prices alias :
  alias = None \/ alias = Some (cache_key category) ->
  within (same_elsewhere (cache_key category))
         (Scraper.sort_in_place env prices alias).
Proof.
  intros [->| ->] s k Hk; unfold Scraper.sort_in_place; cbn [snd cache].
  - reflexivity.
  - apply lookup_alter_ne. congruence.
Qed.

Lemma fetchPriceHistory_elsewhere env category days :
  within (same_elsewhere (cache_key category))
         (Scraper.fetchPriceHistory env category days).
Proof.
  assert (Hmock : within (same_elsewhere (cache_key category))
                         (Scraper.generateMockHistory env category days)).
  { eapply within_weaken; [apply same_cache_elsewhere|]. effects. }
  unfold Scraper.fetchPriceHistory.
  apply within_try_catch; eauto with effects.
  apply within_bind_run; eauto with effects.
  - apply fetchAGMARKNETPrices_elsewhere.
  - intros s [prices alias] s1 Hfetch.
    apply fetchAGMARKNETPrices_alias in Hfetch.
    destruct (length prices =? 0)%nat; [apply Hmock|].
    apply within_bind; eauto with effects.
    + apply sort_in_place_elsewhere, Hfetch.
    + effects.
Qed.

Lemma forecastPrices_elsewhere env category h :
  within (same_elsewhere (cache_key category))
         (forecastPrices env category h).
Proof.
  unfold forecastPrices.
  apply within_try_catch; eauto with effects.
  - apply within_bind; eauto with effects.
    + apply fetchPriceHistory_elsewhere.
    + intros history. destruct (length (prices history) <? 7)%nat.
      * effects.
      * apply within_bind; eauto with effects; [|effects].
        apply keeps_store_within; eauto with effects.
        apply generateForecasts_keeps_store.
  - intros e. eapply within_weaken; [apply same_cache_elsewhere|]. effects.
Qed.

(** With the upstream failing and nothing fresh in the cache, what
    [fetchAGMARKNETPrices] returns is synthetic: the cache is as it was and
    the array is a fresh one. *)
Lemma unavailable_run env category s o s1 :
  cold env category s -> unavailable env category ->
  Scraper.fetchAGMARKNETPrices env category s = (o, s1) ->
  cache s1 = cache s
  /\ forall l alias, o = Normal (l, alias) -> alias = None.
Proof.
  intros Hcold Hfail. unfold Scraper.fetchAGMARKNETPrices.
  fold (cache_key category). unfold bind at 1. rewrite Hcold.
  fold (synthetic_prices env category).
  assert (Hsyn : forall s0 o0 s2,
            synthetic_prices env category s0 = (o0, s2) ->
            cache s2 = cache s0
            /\ forall l alias, o0 = Normal (l, alias) -> alias = None).
  { intros s0 o0 s2 H. split.
    - pose proof (synthetic_prices_keeps_cache env category s0) as Hk.
      rewrite H in Hk. exact Hk.
    - intros l alias ->. eapply synthetic_prices_alias, H. }
  assert (Htwice : forall o0 s2,
            try_catch (synthetic_prices env category)
              (fun _ => synthetic_prices env category) s = (o0, s2) ->
            cache s2 = cache s
            /\ forall l alias, o0 = Normal (l, alias) -> alias = None).
  { unfold try_catch. intros o0 s2.
    destruct (synthetic_prices env category s) as [[[l a]|e] s0] eqn:H1.
    - intros [= <- <-]. eapply Hsyn, H1.
    - intros H2. destruct (Hsyn _ _ _ H1) as [Hc _].
      destruct (Hsyn _ _ _ H2) as [Hc2 Ha]. split; [congruence|exact Ha]. }
  unfold try_catch at 1.
  destruct (agmarknet_enabled env) eqn:Hen; cbn [negb]; [|apply Htwice].
  destruct (String.eqb_spec (agmarknet_apiKey env) "") as [Hkey|Hkey];
    [apply Htwice|].
  fold (request env category). unfold bind at 1. unfold Scraper.fetch_json.
  destruct Hfail as [H|H|H|body H|H]; try congruence;
    rewrite H; apply Hsyn.
Qed.

Lemma sort_in_place_fresh env prices s :
  Scraper.sort_in_place env prices None s
  = (Normal (sort (Scraper.date_before env) prices), s).
Proof. reflexivity. Qed.

Lemma fetchPriceHistory_unavailable env category days s :
  cold env category s -> unavailable env category ->
  cache (snd (Scraper.fetchPriceHistory env category days s)) = cache s.
Proof.
  intros Hcold Hfail. unfold Scraper.fetchPriceHistory, try_catch.
  unfold bind at 1.
  destruct (Scraper.fetchAGMARKNETPrices env category s)
    as [[[prices alias]|e] s1] eqn:Hfetch;
    destruct (unavailable_run env category s _ s1 Hcold Hfail Hfetch)
      as [Hc Ha].
  - rewrite (Ha prices alias eq_refl).
    pose proof (generateMockHistory_keeps_cache env category days) as Hmock.
    destruct (length prices =? 0)%nat.
    + pose proof (Hmock s1) as H1.
      destruct (Scraper.generateMockHistory env category days s1)
        as [[m|e] s2]; cbn [snd] in *.
      * congruence.
      * rewrite (Hmock s2). congruence.
    + unfold bind. rewrite sort_in_place_fresh. cbn [snd ret]. exact Hc.
  - rewrite (generateMockHistory_keeps_cache env category days s1).
    exact Hc.
Qed.

Lemma forecastPrices_unavailable env category h s :
  cold env category s -> unavailable env category ->
  cache (snd (forecastPrices env category h s)) = cache s.
Proof.
  intros Hcold Hfail. unfold forecastPrices, try_catch. unfold bind at 1.
  pose proof (fetchPriceHistory_unavailable env category 90 s Hcold Hfail)
    as Hh.
  pose proof (fallbackForecast_keeps_cache env category h) as Hfb.
  destruct (Scraper.fetchPriceHistory env category 90 s)
    as [[history|e] s1]; cbn [snd] in Hh.
  - destruct (length (prices history) <? 7)%nat.
    + unfold throw. rewrite (Hfb s1). exact Hh.
    + unfold bind.
      pose proof (generateForecasts_keeps_store env history h s1) as Hg.
      destruct (generateForecasts env history h s1) as [[ps|e] s2];
        cbn [snd] in Hg; subst s2.
      * exact Hh.
      * rewrite (Hfb s1). exact Hh.
  - rewrite (Hfb s1). exact Hh.
Qed.

(** A date that [new Date()] moved by [i] days can hold lies in the range
    of [Date], and so does today. *)
Lemma today_plus_range env i t :
  Scraper.today_plus env i = Some t ->
  representable env 0 /\ representable env i.
Proof.
  unfold Scraper.today_plus, addDays, TimeClip, representable.
  destruct (Z.leb_spec (- maxTime) (now env));
    destruct (Z.leb_spec (now env) maxTime); cbn; try discriminate.
  destruct (Z.leb_spec (- maxTime) (now env + i * msPerDay));
    destruct (Z.leb_spec (now env + i * msPerDay) maxTime); cbn;
    try discriminate.
  intros _. lia.
Qed.

(** When [generateMockHistory] throws it does so in its first round, before
    any draw: the store is as it was. *)
Lemma generateMockHistory_throw_state env category days s e s' :
  Scraper.generateMockHistory env category days s = (Throw e, s') -> s' = s.
Proof.
  intros H.
  destruct (generateMockHistory_error env category days s e s' H)
    as [-> Hdays].
  destruct (Scraper.today_plus env (- days)) as [t|] eqn:Ht.
  - apply today_plus_range in Ht as [H0 Hd].
    destruct (generateMockHistory_total env category days s
                (fun _ => conj H0 Hd)) as (h & s2 & Hh).
    congruence.
  - revert H. unfold Scraper.generateMockHistory. unfold bind at 1.
    destruct (downto0_head days Hdays) as (rest & ->).
    erewrite for_each_first_throws
      by (unfold bind, lift; rewrite Ht; reflexivity).
    congruence.
Qed.

(** Running [generateMockHistory] again after it has thrown changes
    nothing. *)
Lemma mock_retry env category days s :
  try_catch (Scraper.generateMockHistory env category days)
    (fun _ => Scraper.generateMockHistory env category days) s
  = Scraper.generateMockHistory env category days s.
Proof.
  unfold try_catch.
  destruct (Scraper.generateMockHistory env category days s)
    as [[h|e] s1] eqn:H; [reflexivity|].
  apply generateMockHistory_throw_state in H as Hs. subst s1. exact H.
Qed.

(* ===================================================================== *)
(** * Further properties of the cache                                     *)
(* ===================================================================== *)

(** X1. What [saveToCache] stores under a key, [getFromCache] returns for
    that key as long as less than 3600000 ms have passed on the clock; from
    the full hour on it returns [null]. Looking an entry up never removes
    it, and the entries under other keys are found as before. *)
Theorem cache_serves_an_entry_for_an_hour env1 env2 key d s :
  let s1 := snd (Scraper.saveToCache env1 key d s) in
  Scraper.getFromCache env2 key s1
  = (Normal (if now env2 - now env1 <? 3600000 then Some d else None), s1)
  /\ (forall other, other <> key ->
        fst (Scraper.getFromCache env2 other s1)
        = fst (Scraper.getFromCache env2 other s)).
Proof.
  cbv zeta. unfold Scraper.saveToCache, Scraper.getFromCache.
  cbn [snd cache]. split.
  - rewrite lookup_insert_eq. cbn [timestamp data].
    change Scraper.cacheExpiry with 3600000.
    destruct (now env2 - now env1 <? 3600000); reflexivity.
  - intros other Hother. rewrite lookup_insert_ne by congruence.
    destruct (cache s !! other) as [entry|]; [|reflexivity].
    destruct (now env2 - timestamp entry <? Scraper.cacheExpiry);
      reflexivity.
Qed.

(** X2. A call for one category reads and writes the cache under the key
    of that category only: whatever the upstream does and however the call
    ends, every entry cached for another category is left as it was, by
    [fetchAGMARKNETPrices], by [fetchPriceHistory] and by [forecastPrices]
    alike. *)
Theorem other_categories_keep_their_cache env category h days s key :
  key <> cache_key category ->
  cache (snd (Scraper.fetchAGMARKNETPrices env category s)) !! key
  = cache s !! key
  /\ cache (snd (Scraper.fetchPriceHistory env category days s)) !! key
     = cache s !! key
  /\ cache (snd (forecastPrices env category h s)) !! key = cache s !! key.
Proof.
  intros Hkey. split; [|split].
  - apply fetchAGMARKNETPrices_elsewhere, Hkey.
  - apply fetchPriceHistory_elsewhere, Hkey.
  - apply forecastPrices_elsewhere, Hkey.
Qed.

(** A week's forecast for spices leaves the textiles entry in place. *)
Lemma other_categories_keep_their_cache_witness :
  cache (snd (forecastPrices
                (Host.serving
                   (Host.observed [100; 90; 80; 70; 60; 50; 40]%float)
                   Host.noon)
                "spices" 7 Sample.stocked))
    !! "agmarknet:textiles"%string
  = cache Sample.stocked !! "agmarknet:textiles"%string.
Proof.
  refine (proj2 (proj2 (other_categories_keep_their_cache
                          (Host.serving
                             (Host.observed
                                [100; 90; 80; 70; 60; 50; 40]%float)
                             Host.noon)
                          "spices" 7 90 Sample.stocked
                          "agmarknet:textiles" _))).
  unfold cache_key. intros [=].
Defined.

(** X3. Synthetic data is never cached. When nothing fresh is cached for
    the category and the upstream fails (provider disabled, no API key,
    network error, non-ok response, body that is not JSON),
    [fetchPriceHistory] and [forecastPrices] leave the whole cache exactly
    as they found it, however they end. *)
Theorem failing_upstream_leaves_the_cache env category h days s :
  cold env category s -> unavailable env category ->
  cache (snd (Scraper.fetchPriceHistory env category days s)) = cache s
  /\ cache (snd (forecastPrices env category h s)) = cache s.
Proof.
  intros Hcold Hfail. split.
  - apply fetchPriceHistory_unavailable; assumption.
  - apply forecastPrices_unavailable; assumption.
Qed.

(** With the provider not enabled a forecast leaves the cache empty. *)
Lemma failing_upstream_leaves_the_cache_witness :
  cache (snd (Scraper.fetchPriceHistory (Host.offline Host.noon) "spices" 90
                Host.fresh)) = cache Host.fresh
  /\ cache (snd (forecastPrices (Host.offline Host.noon) "spices" 7
                   Host.fresh)) = cache Host.fresh.
Proof.
  apply (failing_upstream_leaves_the_cache (Host.offline Host.noon)
           "spices" 7 90 Host.fresh).
  - reflexivity.
  - apply provider_disabled. reflexivity.
Defined.

(** X4. An answer without observations is cached like any other. Once the
    upstream has answered a call with a payload that yields no record, the
    empty array sits in the cache, and since an empty array is truthy every
    call of the following hour is answered with it, without asking the
    upstream again, whatever the upstream would then say: throughout that
    hour [fetchPriceHistory] returns the synthetic history. *)
Theorem empty_answer_is_cached_for_an_hour
  env1 env2 category days s payload :
  cold env1 category s -> answers env1 category payload ->
  Scraper.parseAGMARKNETResponse env1 payload category = [] ->
  now env2 - now env1 < Scraper.cacheExpiry ->
  let s1 := cached env1 category [] s in
  Scraper.fetchAGMARKNETPrices env1 category s
  = (Normal ([], Some (cache_key category)), s1)
  /\ Scraper.fetchAGMARKNETPrices env2 category s1
     = (Normal ([], Some (cache_key category)), s1)
  /\ Scraper.fetchPriceHistory env2 category days s1
     = Scraper.generateMockHistory env2 category days s1.
Proof.
  intros Hcold Hans Hparse Hfresh s1.
  assert (Hfirst : Scraper.fetchAGMARKNETPrices env1 category s
                   = (Normal ([], Some (cache_key category)), s1)).
  { rewrite (answers_parsed env1 category payload s Hcold Hans), Hparse.
    reflexivity. }
  assert (Hsecond : Scraper.fetchAGMARKNETPrices env2 category s1
                    = (Normal ([], Some (cache_key category)), s1)).
  { apply (cache_hit env2 category s1 {| data := []; timestamp := now env1 |}).
    - unfold s1, cached. cbn [cache]. apply lookup_insert_eq.
    - exact Hfresh. }
  repeat split; try assumption.
  rewrite <- mock_retry. unfold Scraper.fetchPriceHistory, try_catch.
  unfold bind at 1. rewrite Hsecond. reflexivity.
Qed.

(** An upstream that has no records at noon and seven of them half an hour
    later: the second call still gets the empty array from the cache. *)
Lemma empty_answer_is_cached_for_an_hour_witness :
  let s1 := cached (Host.serving (Host.records []) Host.noon) "spices" []
              Host.fresh in
  Scraper.fetchAGMARKNETPrices
    (Host.serving (Host.observed [100; 90; 80; 70; 60; 50; 40]%float)
                  (Host.noon + 1800000))
    "spices" s1
  = (Normal ([], Some (cache_key "spices")), s1).
Proof.
  refine (proj1 (proj2 (empty_answer_is_cached_for_an_hour
                          (Host.serving (Host.records []) Host.noon)
                          (Host.serving
                             (Host.observed
                                [100; 90; 80; 70; 60; 50; 40]%float)
                             (Host.noon + 1800000))
                          "spices" 90 Host.fresh (Host.records [])
                          _ _ _ _))).
  - reflexivity.
  - repeat split. discriminate.
  - reflexivity.
  - vm_compute. reflexivity.
Defined.

(* ===================================================================== *)
(** * The records of an answer                                            *)
(* ===================================================================== *)

Lemma cmap_Forall2 {A B} (f : A -> Completion B) l ys :
  cmap f l = Normal ys -> Forall2 (fun x y => f x = Normal y) l ys.
Proof.
  revert ys. induction l as [|x l IH]; intros ys; cbn.
  - intros [= <-]. constructor.
  - destruct (f x) as [y|e] eqn:Hx; cbn; [|discriminate].
    destruct (cmap f l) as [r|e]; cbn; [|discriminate].
    intros [= <-]. constructor; auto.
Qed.

Lemma cmap_total {A B} (f : A -> Completion B) l :
  Forall (fun x => exists y, f x = Normal y) l ->
  exists ys, cmap f l = Normal ys.
Proof.
  induction 1 as [|x l (y & Hy) _ (ys & Hys)]; cbn.
  - eauto.
  - rewrite Hy. cbn. rewrite Hys. cbn. eauto.
Qed.

(** One element on which the callback throws makes the whole [map]
    throw. *)
Lemma cmap_throws {A B} (f : A -> Completion B) l :
  Exists (fun x => exists e, f x = Throw e) l ->
  exists e, cmap f l = Throw e.
Proof.
  induction 1 as [x l (e & He)|x l _ (e & He)]; cbn.
  - rewrite He. cbn. eauto.
  - destruct (f x) as [y|e0]; cbn; [|eauto]. rewrite He. cbn. eauto.
Qed.

(** [x || 0] is never NaN. *)
Lemma number_or_zero_not_nan (x : number) :
  is_nan (number_or x 0%float) = false.
Proof.
  unfold number_or, truthy_number.
  destruct (is_nan x) eqn:Hx; cbn [orb negb]; [reflexivity|].
  destruct (is_zero x); cbn [negb]; [reflexivity|exact Hx].
Qed.

Lemma or_else_truthy v d : truthy d = true -> truthy (or_else v d) = true.
Proof. intros Hd. unfold or_else. destruct (truthy v) eqn:Hv; auto. Qed.

Lemma iso_text_not_empty t :
  truthy (JStr (date_string t ++ "T" ++ time_string t)) = true.
Proof.
  cbn [truthy]. destruct (date_string t); reflexivity.
Qed.

Section Records.
Variable env : Env.

(** What a record is parsed to. *)
Lemma parse_record_inv category record p :
  Scraper.parse_record env category record = Normal p ->
  GovernmentPriceScraper.category p = category
  /\ source p = "AGMARKNET"%string
  /\ is_nan (minPrice p) = false
  /\ is_nan (maxPrice p) = false
  /\ is_nan (modalPrice p) = false
  /\ truthy (commodity p) = true
  /\ truthy (GovernmentPriceScraper.date p) = true
  /\ truthy (market p) = true.
Proof.
  unfold Scraper.parse_record.
  destruct (get record "Commodity") as [c|e]; cbn [cbind]; [|discriminate].
  destruct (get record "Min_Price") as [lo|e]; cbn [cbind]; [|discriminate].
  destruct (get record "Max_Price") as [hi|e]; cbn [cbind]; [|discriminate].
  destruct (get record "Modal_Price") as [modal|e]; cbn [cbind];
    [|discriminate].
  destruct (get record "Price_Date") as [d|e]; cbn [cbind]; [|discriminate].
  assert (Hdate : forall d',
            (if truthy d then Normal d
             else cbind (toISOString (TimeClip (now env)))
                        (fun iso => Normal (JStr iso))) = Normal d' ->
            truthy d' = true).
  { intros d'. destruct (truthy d) eqn:Hd; [congruence|].
    destruct (TimeClip (now env)) as [t|]; cbn [toISOString cbind];
      [|discriminate].
    intros [= <-]. apply iso_text_not_empty. }
  destruct (if truthy d then _ else _) as [d'|e]; cbn [cbind];
    [|discriminate].
  destruct (get record "Market_Name") as [m|e]; cbn [cbind]; [|discriminate].
  intros [= <-].
  cbn [GovernmentPriceScraper.category source minPrice maxPrice modalPrice
       commodity GovernmentPriceScraper.date market].
  repeat split; try apply number_or_zero_not_nan;
    try (apply or_else_truthy; reflexivity).
  apply Hdate. reflexivity.
Qed.

(** A record that is [null] or [undefined] cannot be read. *)
Lemma parse_record_null category record :
  record = JNull \/ record = JUndefined ->
  Scraper.parse_record env category record = Throw TypeError.
Proof. intros [->| ->]; reflexivity. Qed.

(** Any other record is parsed, as long as the clock shows a date. *)
Lemma parse_record_total category record :
  record <> JNull -> record <> JUndefined ->
  TimeClip (now env) <> None ->
  exists p, Scraper.parse_record env category record = Normal p.
Proof.
  intros Hnull Hundef Hclock. unfold Scraper.parse_record.
  assert (Hget : forall k, exists v, get record k = Normal v).
  { intros k. destruct record; cbn; eauto; contradiction. }
  destruct (Hget "Commodity"%string) as (c & ->).
  destruct (Hget "Min_Price"%string) as (lo & ->).
  destruct (Hget "Max_Price"%string) as (hi & ->).
  destruct (Hget "Modal_Price"%string) as (modal & ->).
  destruct (Hget "Price_Date"%string) as (d & ->).
  destruct (Hget "Market_Name"%string) as (m & ->).
  cbn [cbind].
  destruct (truthy d); cbn [cbind]; [eauto|].
  destruct (TimeClip (now env)) as [t|]; [|contradiction].
  cbn [toISOString cbind]. eauto.
Qed.

(** The records of an answer are those [map] obtains from its [records]. *)
Lemma parse_array category props items :
  own_property props "records" = Some (JArr items) ->
  Scraper.parseAGMARKNETResponse env (JObj props) category
  = match cmap (Scraper.parse_record env category) items with
    | Normal l => l
    | Throw _ => []
    end.
Proof.
  intros H. unfold Scraper.parseAGMARKNETResponse. cbn [get cbind].
  rewrite H. reflexivity.
Qed.

Lemma parse_inv category payload p :
  In p (Scraper.parseAGMARKNETResponse env payload category) ->
  exists record, Scraper.parse_record env category record = Normal p.
Proof.
  unfold Scraper.parseAGMARKNETResponse.
  destruct (get payload "records") as [r|e]; cbn [cbind]; [|intros []].
  destruct (or_else r (JArr [])) as [| | | | |records|]; try (intros []).
  destruct (cmap (Scraper.parse_record env category) records) as [l|e] eqn:Hl;
    [|intros []].
  intros Hin. apply cmap_Forall2 in Hl.
  clear - Hl Hin. induction Hl as [|x y xs ys Hxy _ IH]; [destruct Hin|].
  destruct Hin as [<-|Hin]; eauto.
Qed.
End Records.

(** X5. Whatever the upstream sends, every record that
    [parseAGMARKNETResponse] returns is complete: its three prices are
    numbers, never NaN (a price that does not parse, or is missing, reads
    as 0), its commodity, date and market are present (the defaults
    'Unknown', the present instant and 'Various Markets' stand in for what
    is missing or empty), its category is the one asked for and its source
    is 'AGMARKNET'. *)
Theorem parsed_records_are_complete env payload category p :
  In p (Scraper.parseAGMARKNETResponse env payload category) ->
  GovernmentPriceScraper.category p = category
  /\ source p = "AGMARKNET"%string
  /\ is_nan (minPrice p) = false
  /\ is_nan (maxPrice p) = false
  /\ is_nan (modalPrice p) = false
  /\ truthy (commodity p) = true
  /\ truthy (GovernmentPriceScraper.date p) = true
  /\ truthy (market p) = true.
Proof.
  intros Hin. apply parse_inv in Hin as (record & Hrecord).
  eapply parse_record_inv, Hrecord.
Qed.

(** A record that reports no price is parsed with the prices 0. *)
Lemma parsed_records_are_complete_witness :
  exists p,
    In p (Scraper.parseAGMARKNETResponse
            (Host.serving Host.unreported Host.noon) Host.unreported "spices")
    /\ modalPrice p = 0%float
    /\ is_nan (modalPrice p) = false
    /\ truthy (commodity p) = true.
Proof.
  eexists. split; [vm_compute; left; reflexivity|].
  split; [reflexivity|].
  refine ((fun H => conj (proj1 (proj2 (proj2 (proj2 (proj2 H)))))
                         (proj1 (proj2 (proj2 (proj2 (proj2 (proj2 H)))))))
            (parsed_records_are_complete
               (Host.serving Host.unreported Host.noon) Host.unreported
               "spices" _ _)).
  vm_compute. left. reflexivity.
Defined.

(** X6. [parseAGMARKNETResponse] keeps all the records of an answer or
    none. When the [records] of the payload are an array, one element that
    is [null] (or [undefined]) makes [map] throw, the error is caught and
    the answer is read as empty, the readable records included; when no
    element is, there is one parsed record for each element, in particular
    for elements that are no objects at all. *)
Theorem one_unreadable_record_discards_the_answer
  env props items category :
  own_property props "records" = Some (JArr items) ->
  (Exists (fun r => r = JNull \/ r = JUndefined) items ->
   Scraper.parseAGMARKNETResponse env (JObj props) category = [])
  /\ (Forall (fun r => r <> JNull /\ r <> JUndefined) items ->
      TimeClip (now env) <> None ->
      length (Scraper.parseAGMARKNETResponse env (JObj props) category)
      = length items).
Proof.
  intros Hrecords. rewrite (parse_array env category props items Hrecords).
  split.
  - intros Hbad.
    destruct (cmap_throws (Scraper.parse_record env category) items)
      as (e & ->); [|reflexivity].
    eapply Exists_impl; [exact Hbad|].
    intros r Hr. exists TypeError. apply parse_record_null, Hr.
  - intros Hgood Hclock.
    destruct (cmap_total (Scraper.parse_record env category) items)
      as (l & Hl).
    + eapply Forall_impl; [exact Hgood|].
      intros r [Hnull Hundef]. apply parse_record_total; assumption.
    + rewrite Hl. apply cmap_Forall2 in Hl.
      symmetry. eapply Forall2_length, Hl.
Qed.

(** Seven good records followed by one [null]: nothing is left. *)
Lemma one_unreadable_record_discards_the_answer_witness :
  Scraper.parseAGMARKNETResponse (Host.serving Host.unreported Host.noon)
    (Host.records
       (zip_with Host.record Host.week [100; 90; 80; 70; 60; 50; 40]%float
        ++ [JNull]))
    "spices" = [].
Proof.
  refine (proj1 (one_unreadable_record_discards_the_answer
                   (Host.serving Host.unreported Host.noon)
                   [("records"%string,
                     JArr (zip_with Host.record Host.week
                             [100; 90; 80; 70; 60; 50; 40]%float
                           ++ [JNull]))]
                   (zip_with Host.record Host.week
                      [100; 90; 80; 70; 60; 50; 40]%float ++ [JNull])
                   "spices" _) _).
  - reflexivity.
  - apply Exists_app. right. constructor. left. reflexivity.
Defined.

(* ===================================================================== *)
(** * The synthetic prices                                                *)
(* ===================================================================== *)

(** A loop each of whose rounds draws once has drawn once for each value of
    its counter when it completes. *)
Lemma for_each_draws {A B} (body : A -> M B) l :
  (forall i s y s', body i s = (Normal y, s') -> draws s' = S (draws s)) ->
  forall s ys s',
    for_each body l s = (Normal ys, s') ->
    draws s' = (draws s + length l)%nat.
Proof.
  intros Hbody. induction l as [|i l IH]; intros s ys s' H; cbn in H.
  - inversion H; subst. cbn. lia.
  - unfold bind in H. destruct (body i s) as [[y|e] s1] eqn:Hb; [|discriminate].
    destruct (for_each body l s1) as [[r|e] s2] eqn:Hr; [|discriminate].
    inversion H; subst. apply Hbody in Hb. apply IH in Hr. cbn [length]. lia.
Qed.

Lemma Forall2_Forall_r {A B} (P : B -> Prop) (l : list A) (ys : list B) :
  Forall2 (fun _ y => P y) l ys -> Forall P ys.
Proof. induction 1; constructor; auto. Qed.


(* ===================================================================== *)
(** * Sorting what comes newest first                                     *)
(* ===================================================================== *)

Section Reversal.
Context {A : Type} (before : A -> A -> bool).

(** An element that comes after all the others is put last. *)
Lemma insert_sorted_last x l :
  Forall (fun y => before y x = true) l ->
  insert_sorted before x l = l ++ [x].
Proof.
  induction 1 as [|y l Hy _ IH]; cbn; [reflexivity|].
  rewrite Hy, IH. reflexivity.
Qed.

(** Sorting a list that runs from the newest to the oldest reverses it. *)
Lemma sort_newest_first l :
  newest_first before l -> sort before l = rev l.
Proof.
  induction l as [|x l IH]; cbn; [reflexivity|].
  intros [Hx Hl]. rewrite (IH Hl). apply insert_sorted_last.
  apply List.Forall_rev, Hx.
Qed.
End Reversal.

Lemma reads_dates_from_spec env lo n :
  reads_dates_from env lo n = true ->
  reads_dates env lo (lo + Z.of_nat n - 1).
Proof.
  unfold reads_dates_from. intros H i Hi. rewrite forallb_forall in H.
  specialize (H (Z.to_nat (i - lo))).
  replace (lo + Z.of_nat (Z.to_nat (i - lo))) with i in H by lia.
  cbv zeta in H.
  destruct (Date_getTime env (JStr (day_after_today env i))) as [t|].
  - f_equal. apply Z.eqb_eq, H, in_seq. lia.
  - discriminate H. apply in_seq. lia.
Qed.

(** Records dated the days [a], [a + 1], ... before today, in that order,
    run from the newest to the oldest. *)
Lemma dated_back_newest_first env n : forall a l,
  Forall2 (fun i p => GovernmentPriceScraper.date p
                      = JStr (day_after_today env (- i)))
          (map Z.of_nat (seq a n)) l ->
  reads_dates env (1 - Z.of_nat (a + n)) 0 ->
  newest_first (Scraper.date_before env) l
  /\ Forall (fun p => exists k, (a <= k < a + n)%nat
                      /\ GovernmentPriceScraper.date p
                         = JStr (day_after_today env (- Z.of_nat k))) l.
Proof.
  induction n as [|n IH]; intros a l H Hread; cbn [seq map] in H.
  - inversion H; subst. split; [exact I|constructor].
  - inversion H as [|i p counters ps Hp Hrest]; subst.
    destruct (IH (S a) ps Hrest) as [Hnf Hall].
    { intros i Hi. apply Hread. lia. }
    split; [split; [|exact Hnf]|].
    + eapply Forall_impl; [exact Hall|].
      intros q (k & Hk & Hq). unfold Scraper.date_before.
      rewrite Hq, Hp, !Hread by lia.
      apply Z.ltb_lt. unfold msPerDay. lia.
    + constructor.
      * exists a. split; [lia|exact Hp].
      * eapply Forall_impl; [exact Hall|].
        intros q (k & Hk & Hq). exists k. split; [lia|exact Hq].
Qed.

Lemma slice_from_all {A} (n : Z) (l : list A) :
  Z.of_nat (length l) <= n -> 1 <= n -> slice_from (- n) l = l.
Proof.
  intros Hlen Hn. unfold slice_from.
  destruct (Z.ltb_spec (- n) 0) as [_|H]; [|lia].
  replace (Z.to_nat (Z.max (Z.of_nat (length l) + - n) 0)) with O by lia.
  reflexivity.
Qed.



(* ===================================================================== *)
(** * The two paths of a forecast                                         *)
(* ===================================================================== *)

(** A loop whose rounds complete without touching the store returns what
    they push. *)
Lemma for_each_pure {A B} (body : A -> M B) (f : A -> B) l s :
  (forall i, In i l -> body i s = (Normal (f i), s)) ->
  for_each body l s = (Normal (map f l), s).
Proof.
  induction l as [|i l IH]; intros Hbody; cbn [for_each map]; [reflexivity|].
  unfold bind. rewrite (Hbody i (or_introl eq_refl)).
  rewrite IH by (intros j Hj; apply Hbody; right; exact Hj).
  reflexivity.
Qed.

Section Paths.
Variable env : Env.

(** Within the range of [Date], [generateForecasts] returns a prediction
    for each day of the horizon and leaves the store alone. *)
Lemma generateForecasts_run history h s :
  representable env 0 -> representable env h ->
  generateForecasts env history h s
  = (Normal (map (fun i => forecast_point (prices history) i
                             (day_after_today env i)) (upto h)), s).
Proof.
  intros H0 Hh. unfold generateForecasts. apply for_each_pure.
  intros i Hi. apply in_upto in Hi. unfold bind, lift, ret.
  rewrite today_plus_Some.
  - unfold isoDate, date_string, utc_day, day_after_today, utc_day.
    rewrite Z.div_add by (unfold msPerDay; lia). reflexivity.
  - apply representable_today, H0.
  - apply (representable_between env 0 h); auto; lia.
Qed.

(** From a history of seven prices or more the forecast is derived by the
    primary path. *)
Lemma primary_path category h s history s1 :
  Scraper.fetchPriceHistory env category 90 s = (Normal history, s1) ->
  (7 <= length (prices history))%nat ->
  representable env 0 -> representable env h ->
  forecastPrices env category h s
  = (Normal (forecast_of env history category h), s1).
Proof.
  intros Hh Hlen H0 Hr. unfold forecastPrices, try_catch. unfold bind at 1.
  rewrite Hh.
  destruct (Nat.ltb_spec (length (prices history)) 7) as [Hlt|_]; [lia|].
  unfold bind. rewrite (generateForecasts_run history h s1 H0 Hr).
  reflexivity.
Qed.

(** From a shorter history the forecast is the fallback forecast. *)
Lemma fallback_path category h s history s1 :
  Scraper.fetchPriceHistory env category 90 s = (Normal history, s1) ->
  (length (prices history) < 7)%nat ->
  forecastPrices env category h s = fallbackForecast env category h s1.
Proof.
  intros Hh Hlen. unfold forecastPrices, try_catch. unfold bind at 1.
  rewrite Hh.
  destruct (Nat.ltb_spec (length (prices history)) 7) as [_|Hge]; [|lia].
  reflexivity.
Qed.

(** The insights end with the number of days the history holds. *)
Lemma insights_last history preds category :
  last (generateInsights env history preds category)
  = Some (DaysOfData (length (dates history))).
Proof.
  unfold generateInsights. cbv zeta. rewrite !app_assoc. apply last_snoc.
Qed.
End Paths.

(** A series of thirty prices or more gets one of the three labels. *)
Lemma detectSeasonality_labels (prices : list number) :
  (30 <= length prices)%nat ->
  In (detectSeasonality prices) seasonality_labels.
Proof.
  intros Hlen. unfold detectSeasonality, seasonality_labels.
  destruct (Nat.ltb_spec (length prices) 30) as [Hlt|_]; [lia|].
  cbv zeta.
  destruct (_ <? 0.1)%float; [left; reflexivity|].
  destruct (_ <? 0.2)%float; [right; left; reflexivity|].
  right; right; left; reflexivity.
Qed.

(** X9. With the upstream failing and nothing fresh cached,
    [forecastPrices] does not fall back on [fallbackForecast]: the thirty
    synthetic prices make a history of thirty points, which is enough for
    the primary path. The forecast is derived from that history by trend,
    weekly pattern and volatility, its seasonality is one of the three
    labels of a judged series, and its insights end with 'Based on 30 days
    of market data ...'. *)
Theorem failing_upstream_forecasts_from_thirty_days env category h s :
  cold env category s -> unavailable env category ->
  representable env (- 29) -> representable env 0 -> representable env h ->
  exists history s1,
    Scraper.fetchPriceHistory env category 90 s = (Normal history, s1)
    /\ length (prices history) = 30%nat
    /\ forecastPrices env category h s
       = (Normal (forecast_of env history category h), s1)
    /\ In (seasonality (forecast_of env history category h))
          seasonality_labels
    /\ last (insights (forecast_of env history category h))
       = Some (DaysOfData 30).
Proof.
  intros Hcold Hfail H29 H0 Hh.
  destruct (synthetic_prices_total env category s H0 H29)
    as (l & s1 & Hl & Hlen).
  rewrite <- (unavailable_fallback env category s H0 H29 Hcold Hfail) in Hl.
  destruct (observed_history env category 90 s l None s1 Hl)
    as (history & s' & Hhist & Hdates & Hprices).
  { intros ->. discriminate Hlen. }
  assert (Hs : s' = s1).
  { revert Hhist. unfold Scraper.fetchPriceHistory, try_catch.
    unfold bind at 1. rewrite Hl. destruct l as [|o l']; [discriminate Hlen|].
    cbn [length Nat.eqb]. unfold bind. rewrite sort_in_place_fresh.
    unfold ret. congruence. }
  subst s'.
  assert (Hwindow : length (window env 90 l) = 30%nat).
  { rewrite window_length by lia. rewrite Hlen. reflexivity. }
  assert (Hp : length (prices history) = 30%nat).
  { rewrite Hprices, length_map. exact Hwindow. }
  exists history, s1. split; [exact Hhist|]. split; [exact Hp|].
  split; [|split].
  - apply primary_path; auto. lia.
  - cbn [seasonality forecast_of]. apply detectSeasonality_labels. lia.
  - cbn [insights forecast_of]. rewrite insights_last.
    rewrite Hdates, length_map, Hwindow. reflexivity.
Qed.

(** The deployment as configured out of the box, on 2 November 2026. *)
Lemma failing_upstream_forecasts_from_thirty_days_witness :
  exists history s1,
    Scraper.fetchPriceHistory (Host.offline Host.noon) "spices" 90 Host.fresh
    = (Normal history, s1)
    /\ length (prices history) = 30%nat
    /\ forecastPrices (Host.offline Host.noon) "spices" 7 Host.fresh
       = (Normal (forecast_of (Host.offline Host.noon) history "spices" 7),
          s1)
    /\ In (seasonality (forecast_of (Host.offline Host.noon) history
                          "spices" 7))
          seasonality_labels
    /\ last (insights (forecast_of (Host.offline Host.noon) history
                         "spices" 7))
       = Some (DaysOfData 30).
Proof.
  apply (failing_upstream_forecasts_from_thirty_days
           (Host.offline Host.noon) "spices" 7 Host.fresh).
  - reflexivity.
  - apply provider_disabled. reflexivity.
  - in_range.
  - in_range.
  - in_range.
Defined.

(** The history built from the observations an answer holds, and the store
    it leaves: the observations are cached, sorted in place. *)
Lemma answered_history env category days s payload :
  cold env category s -> answers env category payload ->
  Scraper.parseAGMARKNETResponse env payload category <> [] ->
  Scraper.fetchPriceHistory env category days s
  = (Normal (history_of env days
               (Scraper.parseAGMARKNETResponse env payload category)),
     sorted_in_place env (cache_key category)
       (cached env category
          (Scraper.parseAGMARKNETResponse env payload category) s)).
Proof.
  intros Hcold Hans Hne.
  apply (fetchPriceHistory_cached env category days s _ _
           {| data := Scraper.parseAGMARKNETResponse env payload category;
              timestamp := now env |}).
  - apply answers_parsed; assumption.
  - unfold cached. cbn [cache]. apply lookup_insert_eq.
  - reflexivity.
  - exact Hne.
Qed.

Lemma history_of_length env days observations :
  1 <= days ->
  length (prices (history_of env days observations))
  = Nat.min (length observations) (Z.to_nat days).
Proof.
  intros Hdays. unfold history_of. cbn [prices].
  rewrite length_map. apply window_length, Hdays.
Qed.



(* ===================================================================== *)
(** * A forecast from cached observations                                 *)
(* ===================================================================== *)

(** Sorting the cached array in place a second time changes nothing. *)
Lemma sorted_in_place_again env key s :
  sorted_in_place env key (sorted_in_place env key s)
  = sorted_in_place env key s.
Proof.
  unfold sorted_in_place. cbn [cache draws]. f_equal.
  rewrite alter_alter_eq. apply alter_ext. intros entry _.
  unfold compose. cbn [data timestamp]. f_equal.
  apply sort_idempotent, date_before_asym.
Qed.

Lemma sorted_in_place_ext env1 env2 key s :
  Date_getTime env2 = Date_getTime env1 ->
  sorted_in_place env2 key s = sorted_in_place env1 key s.
Proof.
  intros H. unfold sorted_in_place. rewrite (date_before_ext env1 env2 H).
  reflexivity.
Qed.

(** The forecast depends on the clock through the UTC day and the local
    month only. *)
Lemma forecast_of_same_day env1 env2 history category h :
  utc_day (now env2) = utc_day (now env1) ->
  getMonth (tz env2) (now env2) = getMonth (tz env1) (now env1) ->
  forecast_of env2 history category h = forecast_of env1 history category h.
Proof.
  intros Hday Hmonth. unfold forecast_of, generateInsights, day_after_today.
  rewrite Hday, Hmonth. reflexivity.
Qed.

(** Once observations are cached and sorted, every call of the following
    hour builds its history from them and leaves the store alone. *)
Lemma cached_history env1 env2 category days s observations :
  observations <> [] ->
  now env2 - now env1 < Scraper.cacheExpiry ->
  Date_getTime env2 = Date_getTime env1 ->
  let s1 := sorted_in_place env1 (cache_key category)
              (cached env1 category observations s) in
  cache s1 !! cache_key category
  = Some {| data := sort (Scraper.date_before env1) observations;
            timestamp := now env1 |}
  /\ Scraper.fetchPriceHistory env2 category days s1
     = (Normal (history_of env1 days observations), s1).
Proof.
  intros Hne Hfresh Hdate s1.
  set (sorted := sort (Scraper.date_before env1) observations).
  assert (Hsorted : sorted <> []).
  { intros Hnil. apply Hne. apply length_zero_iff_nil.
    rewrite <- (sort_length (Scraper.date_before env1)).
    fold sorted. rewrite Hnil. reflexivity. }
  assert (Hlook : cache s1 !! cache_key category
                  = Some {| data := sorted; timestamp := now env1 |}).
  { unfold s1, sorted_in_place, cached. cbn [cache].
    rewrite lookup_alter_eq, lookup_insert_eq. reflexivity. }
  assert (Hsame : history_of env2 days sorted
                  = history_of env1 days observations).
  { unfold history_of, window. rewrite (date_before_ext env1 env2 Hdate).
    unfold sorted. rewrite sort_idempotent by apply date_before_asym.
    reflexivity. }
  split; [exact Hlook|].
  rewrite (fetchPriceHistory_cached env2 category days s1 sorted s1
             {| data := sorted; timestamp := now env1 |});
    [| |exact Hlook|reflexivity|exact Hsorted].
  - rewrite Hsame, (sorted_in_place_ext env1 env2) by exact Hdate.
    unfold s1. rewrite sorted_in_place_again. reflexivity.
  - apply (cache_hit env2 category s1 _ Hlook Hfresh).
Qed.





(* ===================================================================== *)
(** * The order of a history                                              *)
(* ===================================================================== *)

Section Members.
Context {A : Type} (before : A -> A -> bool).

Lemma insert_sorted_In x l z :
  In z (insert_sorted before x l) <-> z = x \/ In z l.
Proof.
  induction l as [|y l IH]; cbn.
  - intuition congruence.
  - destruct (before y x); cbn; rewrite ?IH; intuition congruence.
Qed.

Lemma sort_In l z : In z (sort before l) <-> In z l.
Proof.
  induction l as [|x l IH]; cbn; [reflexivity|].
  rewrite insert_sorted_In, IH. intuition congruence.
Qed.

End Members.

Section Keys.
Context {A : Type} (before : A -> A -> bool) (key : A -> Z).

(** Where [before] compares the keys, inserting keeps the keys in order. *)
Lemma insert_sorted_keys x l :
  (forall y, In y l -> before y x = (key y <? key x)) ->
  non_decreasing (map key l) ->
  non_decreasing (map key (insert_sorted before x l)).
Proof.
  induction l as [|y l IH]; intros Hcmp Hl; cbn.
  - split; [constructor|exact I].
  - destruct Hl as [Hy Hl]. rewrite (Hcmp y (or_introl eq_refl)).
    destruct (Z.ltb_spec (key y) (key x)) as [Hlt|Hge]; cbn.
    + split.
      * apply List.Forall_forall. intros u Hu.
        apply in_map_iff in Hu as (z & <- & Hz).
        apply (proj1 (insert_sorted_In before x l z)) in Hz as [->|Hz];
          [lia|].
        rewrite List.Forall_forall in Hy. apply Hy, in_map, Hz.
      * apply IH; [|exact Hl]. intros z Hz. apply Hcmp. right. exact Hz.
    + split; [|split; [exact Hy|exact Hl]].
      constructor; [exact Hge|].
      eapply Forall_impl; [exact Hy|]. intros u Hu. cbn in Hu. lia.
Qed.

Lemma sort_keys l :
  (forall x y, In x l -> In y l -> before x y = (key x <? key y)) ->
  non_decreasing (map key (sort before l)).
Proof.
  induction l as [|x l IH]; intros Hcmp; cbn; [exact I|].
  apply insert_sorted_keys.
  - intros y Hy. apply (proj1 (sort_In before l y)) in Hy.
    apply Hcmp; [right; exact Hy|left]. reflexivity.
  - apply IH. intros y z Hy Hz. apply Hcmp; right; assumption.
Qed.
End Keys.

Lemma in_drop {A} k (l : list A) x : In x (drop k l) -> In x l.
Proof.
  revert l. induction k as [|k IH]; intros [|y l]; cbn; auto.
Qed.

Lemma non_decreasing_drop k ts :
  non_decreasing ts -> non_decreasing (drop k ts).
Proof.
  revert ts. induction k as [|k IH]; intros [|t ts]; cbn; auto.
  intros [_ H]. apply IH, H.
Qed.

(** The last of the time values in order is the latest. *)
Lemma non_decreasing_last ts t :
  non_decreasing ts -> last ts = Some t -> Forall (fun u => u <= t) ts.
Proof.
  induction ts as [|u ts IH]; intros Hts Hlast; [constructor|].
  destruct Hts as [Hu Hts]. destruct ts as [|v ts].
  - cbn in Hlast. injection Hlast as ->. constructor; [lia|constructor].
  - change (last (u :: v :: ts)) with (last (v :: ts)) in Hlast.
    specialize (IH Hts Hlast). constructor; [|exact IH].
    assert (Hin : In t (v :: ts)).
    { clear - Hlast. revert v Hlast.
      induction ts as [|w ts IH]; intros v Hlast.
      - cbn in Hlast. injection Hlast as ->. left. reflexivity.
      - right. apply (IH w). exact Hlast. }
    rewrite List.Forall_forall in Hu. apply Hu, Hin.
Qed.

Lemma last_drop_lt {A} k (l : list A) :
  (k < length l)%nat -> last (drop k l) = last l.
Proof.
  intros Hk. rewrite <- (take_drop k l) at 2.
  destruct (drop k l) as [|x rest] eqn:Hd.
  - apply (f_equal length) in Hd. rewrite length_drop in Hd. cbn in Hd. lia.
  - rewrite last_app. cbn. destruct (last (x :: rest)) eqn:Hl; [reflexivity|].
    apply last_None in Hl. discriminate.
Qed.

Section Chronology.
Variable env : Env.

Lemma date_before_times x y :
  Date_getTime env (GovernmentPriceScraper.date x) <> None ->
  Date_getTime env (GovernmentPriceScraper.date y) <> None ->
  Scraper.date_before env x y = (time_of env x <? time_of env y).
Proof.
  unfold Scraper.date_before, time_of.
  destruct (Date_getTime env (GovernmentPriceScraper.date x)) as [tx|];
    [|contradiction].
  destruct (Date_getTime env (GovernmentPriceScraper.date y)) as [ty|];
    [|contradiction].
  intros _ _. change (default 0 (Some tx)) with tx.
  change (default 0 (Some ty)) with ty.
  destruct (Z.ltb_spec (tx - ty) 0), (Z.ltb_spec tx ty); auto; lia.
Qed.

Lemma time_of_Some p :
  Date_getTime env (GovernmentPriceScraper.date p) <> None ->
  Date_getTime env (GovernmentPriceScraper.date p) = Some (time_of env p).
Proof.
  unfold time_of.
  destruct (Date_getTime env (GovernmentPriceScraper.date p));
    [reflexivity|contradiction].
Qed.

(** Observations that are all dated are sorted into the order of their
    dates. *)
Lemma sorted_by_time observations :
  all_dated env observations ->
  non_decreasing (map (time_of env)
                      (sort (Scraper.date_before env) observations)).
Proof.
  intros Hall. apply sort_keys. intros x y Hx Hy.
  unfold all_dated in Hall. rewrite List.Forall_forall in Hall.
  apply date_before_times; auto.
Qed.

Lemma window_In days observations p :
  In p (window env days observations) -> In p observations.
Proof.
  unfold window, slice_from. intros Hp.
  apply (proj1 (sort_In (Scraper.date_before env) observations p)).
  eapply in_drop. exact Hp.
Qed.
End Chronology.

Lemma last_map {A B} (f : A -> B) (l : list A) :
  last (map f l) = option_map f (last l).
Proof.
  induction l as [|x l IH]; [reflexivity|].
  destruct l as [|y l]; [reflexivity|]. exact IH.
Qed.

Lemma last_In {A} (l : list A) x : last l = Some x -> In x l.
Proof.
  induction l as [|y l IH]; [discriminate|].
  destruct l as [|z l]; [intros [= ->]; left; reflexivity|].
  intros H. right. apply IH, H.
Qed.

Lemma map_drop {A B} (f : A -> B) k (l : list A) :
  map f (drop k l) = drop k (map f l).
Proof.
  revert l. induction k as [|k IH]; intros [|x l]; cbn; auto.
Qed.

Lemma last_default {A} (l : list A) (x d : A) :
  last l = Some x -> List.last l d = x.
Proof.
  induction l as [|y l IH]; [discriminate|].
  destruct l as [|z l]; [intros [= ->]; reflexivity|].
  intros H. apply IH, H.
Qed.

(** The last price of a history built from dated observations is the price
    of one than which none is dated later. *)
Lemma latest_observation env days observations :
  1 <= days -> observations <> [] -> all_dated env observations ->
  exists latest,
    In latest observations
    /\ last (prices (history_of env days observations))
       = Some (modalPrice latest)
    /\ Forall (fun o => time_of env o <= time_of env latest) observations.
Proof.
  intros Hdays Hne Hall.
  set (sorted := sort (Scraper.date_before env) observations).
  assert (Hlen : (0 < length sorted)%nat).
  { unfold sorted. rewrite sort_length.
    destruct observations; [contradiction|cbn; lia]. }
  assert (Hwindow : exists k, (k < length sorted)%nat
                              /\ window env days observations = drop k sorted).
  { unfold window, slice_from. fold sorted.
    destruct (Z.ltb_spec (- days) 0) as [_|H]; [|lia].
    eexists. split; [|reflexivity]. lia. }
  destruct Hwindow as (k & Hk & Hw).
  destruct (last sorted) as [latest|] eqn:Hlast;
    [|apply last_None in Hlast; rewrite Hlast in Hlen; cbn in Hlen; lia].
  exists latest. split; [|split].
  - apply (proj1 (sort_In (Scraper.date_before env) observations latest)).
    apply last_In, Hlast.
  - unfold history_of. cbn [prices].
    rewrite last_map, Hw, last_drop_lt by exact Hk.
    fold sorted. rewrite Hlast. reflexivity.
  - pose proof (sorted_by_time env observations Hall) as Hsorted.
    fold sorted in Hsorted.
    apply (non_decreasing_last _ (time_of env latest)) in Hsorted.
    + apply List.Forall_forall. intros o Ho.
      rewrite List.Forall_forall in Hsorted. apply Hsorted.
      apply in_map. apply (sort_In (Scraper.date_before env)). exact Ho.
    + rewrite last_map, Hlast. reflexivity.
Qed.

(** X12. A history built from observations that are all dated runs in the
    order of their dates, whatever order the upstream sent them in: the
    time values of its dates never decrease. Its last price is the price of
    an observation than which none is dated later. *)
Theorem dated_history_is_in_date_order env category days s payload :
  1 <= days ->
  cold env category s -> answers env category payload ->
  Scraper.parseAGMARKNETResponse env payload category <> [] ->
  all_dated env (Scraper.parseAGMARKNETResponse env payload category) ->
  exists history s' ts latest,
    Scraper.fetchPriceHistory env category days s = (Normal history, s')
    /\ map (Date_getTime env) (dates history) = map Some ts
    /\ non_decreasing ts
    /\ In latest (Scraper.parseAGMARKNETResponse env payload category)
    /\ last (prices history) = Some (modalPrice latest)
    /\ Forall (fun o => time_of env o <= time_of env latest)
              (Scraper.parseAGMARKNETResponse env payload category).
Proof.
  intros Hdays Hcold Hans Hne Hall.
  set (observations := Scraper.parseAGMARKNETResponse env payload category)
    in *.
  destruct (latest_observation env days observations Hdays Hne Hall)
    as (latest & Hin & Hlast & Hlatest).
  assert (Hdated : forall p, In p observations ->
            Date_getTime env (GovernmentPriceScraper.date p)
            = Some (time_of env p)).
  { intros p Hp. apply time_of_Some.
    unfold all_dated in Hall. rewrite List.Forall_forall in Hall.
    apply Hall, Hp. }
  exists (history_of env days observations),
    (sorted_in_place env (cache_key category)
       (cached env category observations s)),
    (map (time_of env) (window env days observations)), latest.
  split; [apply answered_history; assumption|].
  split; [|split; [|split; [exact Hin|split; [exact Hlast|exact Hlatest]]]].
  - unfold history_of. cbn [dates]. rewrite !map_map. apply map_ext_in.
    intros p Hp. apply Hdated. eapply window_In, Hp.
  - unfold window, slice_from. rewrite map_drop.
    apply non_decreasing_drop. apply sorted_by_time, Hall.
Qed.

(** A week of observations sent newest first comes back oldest first, and
    the last price is that of the newest. *)
Lemma dated_history_is_in_date_order_witness :
  exists history s' ts latest,
    Scraper.fetchPriceHistory (Host.serving backwards Host.noon) "spices" 90
      Host.fresh = (Normal history, s')
    /\ map (Date_getTime (Host.serving backwards Host.noon)) (dates history)
       = map Some ts
    /\ non_decreasing ts
    /\ In latest (Scraper.parseAGMARKNETResponse
                    (Host.serving backwards Host.noon) backwards "spices")
    /\ last (prices history) = Some (modalPrice latest)
    /\ Forall (fun o => time_of (Host.serving backwards Host.noon) o
                        <= time_of (Host.serving backwards Host.noon) latest)
              (Scraper.parseAGMARKNETResponse
                 (Host.serving backwards Host.noon) backwards "spices").
Proof.
  apply (dated_history_is_in_date_order (Host.serving backwards Host.noon)
           "spices" 90 Host.fresh backwards).
  - lia.
  - reflexivity.
  - repeat split. discriminate.
  - vm_compute. discriminate.
  - dated_records.
Defined.

(** X23. The current price of a forecast from live observations is the
    modal price of the newest observation. When the upstream answers with
    seven observations or more, all dated, the forecast that
    [forecastPrices] returns carries as its current price the modal price
    of an observation than which none is dated later, wherever in the
    answer that observation stood. *)
Theorem current_price_is_the_newest_observation
  env category h s payload :
  cold env category s -> answers env category payload ->
  (7 <= length (Scraper.parseAGMARKNETResponse env payload category))%nat ->
  all_dated env (Scraper.parseAGMARKNETResponse env payload category) ->
  representable env 0 -> representable env h ->
  exists r s' latest,
    forecastPrices env category h s = (Normal r, s')
    /\ In latest (Scraper.parseAGMARKNETResponse env payload category)
    /\ currentPrice r = modalPrice latest
    /\ Forall (fun o => time_of env o <= time_of env latest)
              (Scraper.parseAGMARKNETResponse env payload category).
Proof.
  intros Hcold Hans Hlen Hall H0 Hh.
  set (observations := Scraper.parseAGMARKNETResponse env payload category)
    in *.
  assert (Hne : observations <> []).
  { intros Hnil. rewrite Hnil in Hlen. cbn in Hlen. lia. }
  destruct (latest_observation env 90 observations ltac:(lia) Hne Hall)
    as (latest & Hin & Hlast & Hlatest).
  exists (forecast_of env (history_of env 90 observations) category h),
    (sorted_in_place env (cache_key category)
       (cached env category observations s)), latest.
  split; [|split; [exact Hin|split; [|exact Hlatest]]].
  - apply primary_path; auto.
    + apply answered_history; assumption.
    + rewrite history_of_length by lia. lia.
  - cbn [currentPrice forecast_of]. unfold last_price.
    apply last_default, Hlast.
Qed.

(** A week of observations sent newest first: the current price is 40, the
    price of 2 November, which the answer gives first. *)
Lemma current_price_is_the_newest_observation_witness :
  exists r s' latest,
    forecastPrices (Host.serving backwards Host.noon) "spices" 7 Host.fresh
    = (Normal r, s')
    /\ In latest (Scraper.parseAGMARKNETResponse
                    (Host.serving backwards Host.noon) backwards "spices")
    /\ currentPrice r = modalPrice latest
    /\ Forall (fun o => time_of (Host.serving backwards Host.noon) o
                        <= time_of (Host.serving backwards Host.noon) latest)
              (Scraper.parseAGMARKNETResponse
                 (Host.serving backwards Host.noon) backwards "spices").
Proof.
  apply (current_price_is_the_newest_observation
           (Host.serving backwards Host.noon) "spices" 7 Host.fresh
           backwards).
  - reflexivity.
  - repeat split. discriminate.
  - vm_compute. lia.
  - dated_records.
  - in_range.
  - in_range.
Defined.

(* ===================================================================== *)
(** * The weekly pattern                                                  *)
(* ===================================================================== *)

Lemma sum_snoc (l : list number) (x : number) :
  sum (l ++ [x]) = (sum l + x)%float.
Proof. unfold sum. rewrite fold_left_app. reflexivity. Qed.

(** The prices of a day of the cycle, one price later. *)
Lemma day_prices_snoc prices x d :
  day_prices (prices ++ [x]) d
  = if (length prices mod 7 =? d)%nat
    then day_prices prices d ++ [x] else day_prices prices d.
Proof.
  unfold day_prices. rewrite imap_app, List.filter_app, map_app.
  cbn [imap List.filter fst snd]. rewrite Nat.add_0_r.
  destruct (length prices mod 7 =? d)%nat; cbn [map snd].
  - reflexivity.
  - apply app_nil_r.
Qed.

(** What the loop of [calculateSeasonality] has accumulated: for each day
    of the cycle the sum of its prices and their number. *)
Lemma seasonal_sums prices :
  fold_left
    (fun (acc : list number * list nat) (ip : nat * number) =>
       (alter (fun x => x + snd ip)%float (fst ip mod cycleLength)%nat
              (fst acc),
        alter S (fst ip mod cycleLength)%nat (snd acc)))
    (imap pair prices)
    (replicate cycleLength 0%float, replicate cycleLength 0%nat)
  = (map (fun d => sum (day_prices prices d)) (seq 0 7),
     map (fun d => length (day_prices prices d)) (seq 0 7)).
Proof.
  induction prices as [|x prices IH] using rev_ind; [reflexivity|].
  rewrite imap_app, fold_left_app, IH.
  cbn [imap fold_left fst snd]. rewrite Nat.add_0_r.
  change cycleLength with 7%nat.
  assert (Hk : (length prices mod 7 < 7)%nat)
    by (apply Nat.mod_upper_bound; lia).
  cbn [map seq]. rewrite !day_prices_snoc.
  destruct (length prices mod 7)%nat as [|[|[|[|[|[|[|k]]]]]]];
    [..|lia]; cbn [Nat.eqb alter list_alter];
    rewrite ?sum_snoc, ?length_app; cbn [length];
    rewrite ?Nat.add_1_r; reflexivity.
Qed.

(** A series of seven prices or more has a price for every day of the
    cycle. *)
Lemma day_prices_nonempty prices d :
  (7 <= length prices)%nat -> (d < 7)%nat -> day_prices prices d <> [].
Proof.
  intros Hlen Hd Hnil.
  destruct (lookup_lt_is_Some_2 prices d) as (p & Hp); [lia|].
  assert (Hin : In (d, p) (List.filter (fun ip => (fst ip mod 7 =? d)%nat)
                             (imap pair prices))).
  { apply filter_In. split.
    - apply list_elem_of_In. apply (elem_of_lookup_imap_2 pair). exact Hp.
    - cbn [fst]. rewrite Nat.mod_small by exact Hd. apply Nat.eqb_refl. }
  apply (in_map snd) in Hin. unfold day_prices in Hnil.
  rewrite Hnil in Hin. destruct Hin.
Qed.

(** X14. The weekly pattern that [calculateSeasonality] returns always has
    seven factors, one for each day of the cycle: the factor of day [d] is
    the mean of the prices at the positions [d], [d + 7], [d + 14], ... of
    the series (summed in that order), divided by the mean of all prices. A
    day without prices would take the mean of all prices in their place;
    this does not happen for a series of seven prices or more, the only
    ones [forecastPrices] forecasts from. *)
Theorem seasonal_factors_are_means_by_cycle_day prices :
  calculateSeasonality prices = map (seasonal_factor prices) (seq 0 7)
  /\ length (calculateSeasonality prices) = 7%nat
  /\ ((7 <= length prices)%nat ->
      forall d, (d < 7)%nat -> day_prices prices d <> []).
Proof.
  assert (Heq : calculateSeasonality prices
                = map (seasonal_factor prices) (seq 0 7)).
  { unfold calculateSeasonality. cbv zeta. rewrite seasonal_sums.
    reflexivity. }
  split; [exact Heq|]. split.
  - rewrite Heq, length_map, length_seq. reflexivity.
  - intros Hlen d Hd. apply day_prices_nonempty; assumption.
Qed.

(* ===================================================================== *)
(** * Confidence along the horizon                                        *)
(* ===================================================================== *)

Lemma upto_lookup n j i : upto n !! j = Some i -> i = 1 + Z.of_nat j.
Proof.
  unfold upto. change (map ?f ?l) with (f <$> l).
  rewrite list_lookup_fmap. intros H.
  destruct (seq 0 (Z.to_nat n) !! j) as [k|] eqn:Hk; [|discriminate].
  apply lookup_seq in Hk as [-> _]. cbn in H. congruence.
Qed.

(** The confidence of the predictions of the fallback forecast. *)
Lemma fallbackForecast_confidence env category h s r s' :
  fallbackForecast env category h s = (Normal r, s') ->
  Forall2 (fun i p => confidence p = if i <=? 7 then medium else low)
          (upto h) (predictions r).
Proof.
  unfold fallbackForecast. unfold bind at 1.
  match goal with
  | |- context [for_each ?b (upto h) s] =>
      destruct (for_each b (upto h) s) as [[ps|e] s1] eqn:Hloop;
        [|discriminate]
  end.
  unfold ret. intros [= <- <-]. cbn [predictions].
  revert Hloop. apply for_each_Forall2.
  intros i s0 y s0'. unfold bind, lift, ret, Scraper.random.
  destruct (isoDate (Scraper.today_plus env i)) as [iso|e]; [|discriminate].
  intros [= <- <-]. reflexivity.
Qed.

(** The confidence of every prediction follows one of two schedules. *)
Lemma forecastPrices_confidence env category h s r s' :
  forecastPrices env category h s = (Normal r, s') ->
  Forall2 (fun i p => confidence p = confidence_of i) (upto h) (predictions r)
  \/ Forall2 (fun i p => confidence p = if i <=? 7 then medium else low)
             (upto h) (predictions r).
Proof.
  intros H. apply forecastPrices_inv in H
    as [(history & s1 & _ & _ & Hg & _)|(s1 & Hf)].
  - left. apply generateForecasts_inv in Hg.
    eapply Forall2_impl; [exact Hg|]. intros i p ->. reflexivity.
  - right. eapply fallbackForecast_confidence, Hf.
Qed.

(** X15. Along the horizon of a forecast the confidence never rises. Of any
    two predictions that [forecastPrices] returns the later one is at most
    as sure as the earlier one; every prediction more than 30 days ahead is
    of low confidence, and none of the first seven is. This holds of the
    forecasts of the primary path (high, then medium, then low) and of the
    fallback forecasts (medium, then low) alike. *)
Theorem confidence_never_rises env category h s r s' j k pj pk :
  forecastPrices env category h s = (Normal r, s') ->
  (j <= k)%nat ->
  predictions r !! j = Some pj -> predictions r !! k = Some pk ->
  (rank (confidence pk) <= rank (confidence pj))%nat
  /\ ((30 <= k)%nat -> confidence pk = low)
  /\ ((k < 7)%nat -> confidence pk <> low).
Proof.
  intros Hrun Hjk Hj Hk.
  assert (Hat : forall n p schedule,
            Forall2 (fun i p => confidence p = schedule i) (upto h)
                    (predictions r) ->
            predictions r !! n = Some p ->
            confidence p = schedule (1 + Z.of_nat n)).
  { intros n p schedule Hall Hn.
    destruct (Forall2_lookup_r _ _ _ _ _ Hall Hn) as (i & Hi & Hp).
    apply upto_lookup in Hi. subst i. exact Hp. }
  destruct (forecastPrices_confidence env category h s r s' Hrun)
    as [Hall|Hall];
    rewrite (Hat j pj _ Hall Hj), (Hat k pk _ Hall Hk).
  - unfold confidence_of.
    destruct (Z.ltb_spec 30 (1 + Z.of_nat k)),
             (Z.ltb_spec 7 (1 + Z.of_nat k)),
             (Z.ltb_spec 30 (1 + Z.of_nat j)),
             (Z.ltb_spec 7 (1 + Z.of_nat j));
      cbn [rank]; repeat split; intros; try lia; try reflexivity;
      discriminate.
  - destruct (Z.leb_spec (1 + Z.of_nat k) 7),
             (Z.leb_spec (1 + Z.of_nat j) 7);
      cbn [rank]; repeat split; intros; try lia; try reflexivity;
      discriminate.
Qed.

(** A forecast for forty days with the provider not enabled: the first
    prediction is of high confidence and the thirty-sixth of low. *)
Lemma confidence_never_rises_witness :
  exists r s' p1 p36,
    forecastPrices (Host.offline Host.noon) "spices" 40 Host.fresh
    = (Normal r, s')
    /\ predictions r !! 0%nat = Some p1
    /\ predictions r !! 35%nat = Some p36
    /\ confidence p1 = high
    /\ confidence p36 = low
    /\ (rank (confidence p36) <= rank (confidence p1))%nat.
Proof.
  eexists _, _, _, _.
  split; [vm_compute; reflexivity|].
  split; [reflexivity|]. split; [reflexivity|].
  split; [reflexivity|]. split; [reflexivity|].
  refine (proj1 (confidence_never_rises (Host.offline Host.noon) "spices" 40
                   Host.fresh _ _ 0 35 _ _ _ _ _ _)).
  - vm_compute. reflexivity.
  - lia.
  - reflexivity.
  - reflexivity.
Defined.

(* ===================================================================== *)
(** * The case of a category                                              *)
(* ===================================================================== *)

Lemma lower_ascii_again c : lower_ascii (lower_ascii c) = lower_ascii c.
Proof. destruct c as [[] [] [] [] [] [] [] []]; reflexivity. Qed.

Lemma toLowerCase_again s : toLowerCase (toLowerCase s) = toLowerCase s.
Proof.
  induction s as [|c s IH]; cbn; [reflexivity|].
  rewrite lower_ascii_again, IH. reflexivity.
Qed.

(** X16. A category is matched against the price tables and the commodity
    map whatever its case, but cached under its own spelling. The synthetic
    history, the fallback forecast and the URL that is requested are the
    same for a category and for its lower-case form; the cache key is the
    same only when the category is in lower case already, so 'Spices' and
    'spices' are fetched and cached apart. *)
Theorem category_is_matched_whatever_its_case env category days h s :
  Scraper.generateMockHistory env (toLowerCase category) days s
  = Scraper.generateMockHistory env category days s
  /\ fallbackForecast env (toLowerCase category) h s
     = fallbackForecast env category h s
  /\ request env (toLowerCase category) = request env category
  /\ (cache_key (toLowerCase category) = cache_key category
      <-> toLowerCase category = category).
Proof.
  split; [|split; [|split]].
  - unfold Scraper.generateMockHistory. rewrite toLowerCase_again.
    reflexivity.
  - unfold fallbackForecast. rewrite toLowerCase_again. reflexivity.
  - unfold request. rewrite toLowerCase_again. reflexivity.
  - unfold cache_key. split; [|congruence].
    intros H. injection H as H. exact H.
Qed.

(* ===================================================================== *)
(** * The two kinds of forecast                                           *)
(* ===================================================================== *)

Section Kinds.
Variable env : Env.

(** What the fallback forecast says apart from its predictions. *)
Lemma fallbackForecast_fields category h s r s' :
  fallbackForecast env category h s = (Normal r, s') ->
  seasonality r = "Moderate"%string
  /\ ForecastingModel.trend r = stable
  /\ currentPrice r = table_or basePrices (toLowerCase category) 500%float
  /\ insights r = simulated_insights.
Proof.
  unfold fallbackForecast. unfold bind at 1.
  match goal with
  | |- context [for_each ?b (upto h) s] =>
      destruct (for_each b (upto h) s) as [[ps|e] s1]; [|discriminate]
  end.
  unfold ret. intros [= <- <-]. repeat split.
Qed.

(** A forecast is returned by the fallback or put together by the primary
    path. *)
Lemma forecastPrices_kinds category h s r s' :
  forecastPrices env category h s = (Normal r, s') ->
  (exists s1, fallbackForecast env category h s1 = (Normal r, s'))
  \/ (exists history s1,
        Scraper.fetchPriceHistory env category 90 s = (Normal history, s1)
        /\ (7 <= length (prices history))%nat
        /\ ForecastingModel.trend r = GovernmentPriceScraper.trend history
        /\ currentPrice r = last_price (prices history)
        /\ seasonality r = detectSeasonality (prices history)
        /\ insights r
           = generateInsights env history (predictions r) category).
Proof.
  unfold forecastPrices, try_catch. unfold bind at 1.
  destruct (Scraper.fetchPriceHistory env category 90 s)
    as [[history|e] s1] eqn:Hh.
  - destruct (Nat.ltb_spec (length (prices history)) 7) as [Hlt|Hge].
    + unfold throw. intros H. left. eauto.
    + unfold bind.
      destruct (generateForecasts env history h s1) as [[ps|e] s2] eqn:Hg.
      * unfold ret. intros [= <- <-]. right. exists history, s1.
        cbn. repeat split; auto.
      * intros H. left. eauto.
  - intros H. left. eauto.
Qed.
End Kinds.

(** No label of [detectSeasonality] is the one of the fallback forecast. *)
Lemma detectSeasonality_not_moderate prices :
  detectSeasonality prices <> "Moderate"%string.
Proof.
  unfold detectSeasonality.
  destruct (length prices <? 30)%nat; [discriminate|]. cbv zeta.
  destruct (_ <? 0.1)%float; [discriminate|].
  destruct (_ <? 0.2)%float; discriminate.
Qed.

(** X17. Every forecast that [forecastPrices] returns is of one of two
    kinds, told apart by its seasonality. A fallback forecast says
    'Moderate', a stable trend, the base price of the category as the
    current price and the three insights about simulated data, and none of
    its predictions is of high confidence. Any other forecast comes from a
    history of seven prices or more: it carries the trend of that history,
    its last price as the current price, the label of [detectSeasonality],
    which is never 'Moderate', and insights that end with the number of
    days of the history. *)
Theorem forecasts_are_of_two_kinds env category h s r s' :
  forecastPrices env category h s = (Normal r, s') ->
  (seasonality r = "Moderate"%string
   /\ ForecastingModel.trend r = stable
   /\ currentPrice r = table_or basePrices (toLowerCase category) 500%float
   /\ insights r = simulated_insights
   /\ Forall (fun p => confidence p <> high) (predictions r))
  \/ (seasonality r <> "Moderate"%string
      /\ exists history s1,
           Scraper.fetchPriceHistory env category 90 s = (Normal history, s1)
           /\ (7 <= length (prices history))%nat
           /\ ForecastingModel.trend r = GovernmentPriceScraper.trend history
           /\ currentPrice r = last_price (prices history)
           /\ seasonality r = detectSeasonality (prices history)
           /\ last (insights r)
              = Some (DaysOfData (length (dates history)))).
Proof.
  intros Hrun.
  destruct (forecastPrices_kinds env category h s r s' Hrun)
    as [(s1 & Hf)|(history & s1 & Hh & Hlen & Ht & Hc & Hs & Hi)].
  - left.
    destruct (fallbackForecast_fields env category h s1 r s' Hf)
      as (Hs & Ht & Hc & Hi).
    repeat split; try assumption.
    apply fallbackForecast_confidence in Hf.
    apply Forall2_Forall_r with (l := upto h).
    eapply Forall2_impl; [exact Hf|].
    intros i p ->. destruct (i <=? 7); discriminate.
  - right. split.
    + rewrite Hs. apply detectSeasonality_not_moderate.
    + exists history, s1. repeat split; try assumption.
      rewrite Hi. apply insights_last.
Qed.

(** From two observations the forecast is of the fallback kind. *)
Lemma forecasts_are_of_two_kinds_witness :
  exists r s',
    forecastPrices
      (Host.serving (Host.observed [100; 200]%float) Host.noon) "spices" 7
      Host.fresh = (Normal r, s')
    /\ seasonality r = "Moderate"%string
    /\ currentPrice r = 150%float.
Proof.
  eexists _, _. split; [vm_compute; reflexivity|].
  eassert (Hrun : forecastPrices
                    (Host.serving (Host.observed [100; 200]%float) Host.noon)
                    "spices" 7 Host.fresh = _)
    by (vm_compute; reflexivity).
  destruct (forecasts_are_of_two_kinds _ _ _ _ _ _ Hrun)
    as [(Hs & _ & Hc & _)|(Hs & _)].
  - split; [exact Hs|exact Hc].
  - exfalso. apply Hs. reflexivity.
Defined.

(* ===================================================================== *)
(** * The lower bound                                                     *)
(* ===================================================================== *)

(** [Math.max(0, x)] is NaN or at least 0. *)
Lemma max0_not_negative (x : number) :
  (Math_max0 x <? 0)%float = false
  /\ (is_nan (Math_max0 x) = true \/ (0 <=? Math_max0 x)%float = true).
Proof.
  unfold Math_max0. destruct (is_nan x) eqn:Hnan.
  - split; [reflexivity|left; reflexivity].
  - destruct (0 <? x)%float eqn:Hpos.
    + rewrite ltb_spec in Hpos. rewrite ltb_spec, leb_spec, Hnan.
      change (Prim2SF 0) with (S754_zero false) in *.
      destruct (Prim2SF x) as [sx|sx| |sx m e]; cbn in *;
        try discriminate; destruct sx; try discriminate; auto.
    + split; [reflexivity|right; reflexivity].
Qed.

(** X18. On the primary path the lower bound of a prediction is never
    below zero: [Math.max(0, ...)] makes it a number that is at least 0, or
    NaN when the forecast itself is not a number. (The predicted price and
    the upper bound are not clamped.) *)
Theorem lower_bound_is_never_negative env history h s ps s' p :
  generateForecasts env history h s = (Normal ps, s') ->
  In p ps ->
  (lowerBound p <? 0)%float = false
  /\ (is_nan (lowerBound p) = true \/ (0 <=? lowerBound p)%float = true).
Proof.
  intros Hrun Hp. apply generateForecasts_inv in Hrun.
  assert (Hall : Forall (fun p => exists x, lowerBound p = Math_max0 x) ps).
  { apply Forall2_Forall_r with (l := upto h).
    eapply Forall2_impl; [exact Hrun|].
    intros i q ->. unfold forecast_point. cbn [lowerBound]. eauto. }
  rewrite List.Forall_forall in Hall.
  destruct (Hall p Hp) as (x & ->). apply max0_not_negative.
Qed.

(** The last day of the week forecast from prices falling from 100 to 40:
    the prediction is -57 and the lower bound 0. *)
Lemma lower_bound_is_never_negative_witness :
  exists ps s' p,
    generateForecasts (Host.offline Host.noon)
      {| dates := map JStr Host.week;
         prices := [100; 90; 80; 70; 60; 50; 40]%float;
         GovernmentPriceScraper.trend := down;
         changePercent := 0%float |}
      7 Host.fresh = (Normal ps, s')
    /\ last ps = Some p
    /\ predictedPrice p = (-57)%float
    /\ lowerBound p = 0%float
    /\ (lowerBound p <? 0)%float = false.
Proof.
  eexists _, _, _. split; [vm_compute; reflexivity|].
  split; [reflexivity|]. split; [reflexivity|]. split; [reflexivity|].
  eassert (Hrun : generateForecasts (Host.offline Host.noon)
                    {| dates := map JStr Host.week;
                       prices := [100; 90; 80; 70; 60; 50; 40]%float;
                       GovernmentPriceScraper.trend := down;
                       changePercent := 0%float |}
                    7 Host.fresh = _)
    by (vm_compute; reflexivity).
  match goal with
  | |- (lowerBound ?p <? _)%float = _ =>
      refine (proj1 (lower_bound_is_never_negative _ _ _ _ _ _ p Hrun _))
  end.
  do 6 right. left. reflexivity.
Defined.

(* ===================================================================== *)
(** * predictPrice                                                        *)
(* ===================================================================== *)

Section PredictPrice.
Import ProductController.
Variable env : Env.
Variable db : Db.

Lemma save_prediction_cases product x w :
  (exists e, save db product x = Throw e
             /\ save_prediction db product x w = (Throw e, w))
  \/ save_prediction db product x w
     = (Normal tt, {| store := store w; saved := (product, x) :: saved w |}).
Proof.
  unfold save_prediction. destruct (save db product x) as [u|e]; eauto.
Qed.

(** Within the range of [Date] and with the module at hand, the enhanced
    prediction is made from a forecast of seven days. *)
Lemma enhancedPrediction_run product w :
  import_forecastingModel db = Normal tt ->
  representable env 0 -> representable env 7 ->
  exists result s',
    forecastPrices env (category product) 7 (store w) = (Normal result, s')
    /\ enhancedPrediction env db product w
       = (Some (enhance result),
          snd (save_prediction db product (predictedPrice (enhance result))
                 {| store := s'; saved := saved w |})).
Proof.
  intros Himport H0 H7.
  destruct (forecastPrices_total env (category product) 7 (store w) H0 H7)
    as (result & s' & Hrun).
  exists result, s'. split; [exact Hrun|].
  unfold enhancedPrediction. rewrite Himport, Hrun. reflexivity.
Qed.
End PredictPrice.

(** X19. [predictPrice] answers every request with one of three statuses.
    An id that no product has gets 404 'Product not found', and a lookup
    that the database rejects gets 500 'Error predicting price'; in both
    cases no forecast is made, nothing is drawn and nothing saved. For a
    product that exists the answer is 200 with the prediction, except that
    it is 500 when no enhanced prediction could be made and the database
    refuses to save the basic one. *)
Theorem predictPrice_answers env db id w :
  (ProductController.findById db id = Normal None ->
   ProductController.predictPrice env db id w
   = (ProductController.failure 404 "Product not found", w))
  /\ (forall e,
        ProductController.findById db id = Throw e ->
        ProductController.predictPrice env db id w
        = (ProductController.failure 500 "Error predicting price", w))
  /\ (forall product,
        ProductController.findById db id = Normal (Some product) ->
        (exists data,
            fst (ProductController.predictPrice env db id w)
            = ProductController.success data)
        \/ (fst (ProductController.predictPrice env db id w)
            = ProductController.failure 500 "Error predicting price"
            /\ fst (ProductController.enhancedPrediction env db product w)
               = None
            /\ exists x e, ProductController.save db product x = Throw e)).
Proof.
  split; [|split].
  - intros H. unfold ProductController.predictPrice. rewrite H. reflexivity.
  - intros e H. unfold ProductController.predictPrice. rewrite H.
    reflexivity.
  - intros product H. unfold ProductController.predictPrice. rewrite H.
    destruct (ProductController.enhancedPrediction env db product w)
      as [[enhanced|] w1]; [left; eexists; reflexivity|].
    unfold Scraper.random. cbv zeta.
    match goal with
    | |- context [ProductController.save_prediction db product ?x ?w0] =>
        destruct (save_prediction_cases db product x w0)
          as [(e & Hsave & ->)| ->]
    end.
    + right. repeat split. eauto.
    + left. eexists. reflexivity.
Qed.

(** An id that no product of the catalogue has. *)
Lemma predictPrice_answers_witness :
  ProductController.predictPrice (Host.offline Host.noon)
    (Shop.catalogue true) "p9" Shop.opening
  = (ProductController.failure 404 "Product not found", Shop.opening).
Proof.
  refine (proj1 (predictPrice_answers (Host.offline Host.noon)
                   (Shop.catalogue true) "p9" Shop.opening) _).
  reflexivity.
Defined.

Lemma seven : of_nat 7 = 7%float.
Proof. reflexivity. Qed.

(** X20. For a product that exists, [predictPrice] answers from the
    forecast of the next seven days whenever that week lies in the range of
    [Date]: the answer is 200 with the seven predictions, the predicted
    price is their mean, rounded, and the confidence is that of the first
    of them, high or medium. The same price is saved with the product, but
    the answer does not wait on it: when the database refuses the save the
    error is swallowed with those of the forecast, and the answer is still
    200 with the prediction, which nothing holds then. *)
Theorem predictPrice_reports_the_week_ahead env db id w product :
  ProductController.findById db id = Normal (Some product) ->
  ProductController.import_forecastingModel db = Normal tt ->
  representable env 0 -> representable env 7 ->
  exists result s',
    forecastPrices env (ProductController.category product) 7
      (ProductController.store w) = (Normal result, s')
    /\ fst (ProductController.predictPrice env db id w)
       = ProductController.success
           (ProductController.EnhancedData
              (ProductController.price product)
              (ProductController.enhance result)
              (Math_round
                 ((ProductController.predictedPrice
                     (ProductController.enhance result)
                   - ProductController.price product)
                  / ProductController.price product * 100)%float))
    /\ ProductController.forecast (ProductController.enhance result)
       = predictions result
    /\ length (predictions result) = 7%nat
    /\ ProductController.predictedPrice (ProductController.enhance result)
       = Math_round (mean_of_window (map predictedPrice (predictions result)))
    /\ ProductController.confidence (ProductController.enhance result) <> low
    /\ snd (ProductController.predictPrice env db id w)
       = {| ProductController.store := s';
            ProductController.saved :=
              match ProductController.save db product
                      (ProductController.predictedPrice
                         (ProductController.enhance result)) with
              | Normal _ =>
                  (product,
                   ProductController.predictedPrice
                     (ProductController.enhance result))
                  :: ProductController.saved w
              | Throw _ => ProductController.saved w
              end |}.
Proof.
  intros Hfound Himport H0 H7.
  destruct (enhancedPrediction_run env db product w Himport H0 H7)
    as (result & s' & Hrun & Henhanced).
  pose proof (forecastPrices_dated env _ _ _ _ _ Hrun) as [Hlen _].
  change (Z.to_nat 7) with 7%nat in Hlen.
  assert (Hall : slice_to 7 (predictions result) = predictions result).
  { unfold slice_to. apply take_ge. lia. }
  exists result, s'. split; [exact Hrun|].
  unfold ProductController.predictPrice. rewrite Hfound, Henhanced.
  split; [reflexivity|]. split; [exact Hall|]. split; [exact Hlen|].
  split; [|split].
  - unfold ProductController.enhance, ProductController.avgPrediction.
    cbn [ProductController.predictedPrice]. rewrite Hall.
    unfold mean_of_window, sum.
    rewrite fold_left_add_map, length_map, Hlen, seven. reflexivity.
  - unfold ProductController.enhance. cbn [ProductController.confidence].
    destruct (predictions result) as [|p ps] eqn:Hps; [discriminate Hlen|].
    assert (Hfirst : predictions result !! 0%nat = Some p)
      by (rewrite Hps; reflexivity).
    rewrite <- Hps in *.
    destruct (forecastPrices_confidence env _ _ _ _ _ Hrun) as [Hc|Hc];
      destruct (Forall2_lookup_r _ _ _ _ _ Hc Hfirst) as (i & Hi & ->);
      apply upto_lookup in Hi; subst i; discriminate.
  - cbn [snd fst]. unfold ProductController.save_prediction.
    destruct (ProductController.save db product _); reflexivity.
Qed.

(** The shawl of the catalogue, on 2 November 2026, with a database that
    refuses to save: the answer is 200 all the same, and nothing is
    saved. *)
Lemma predictPrice_reports_the_week_ahead_witness :
  exists result s',
    forecastPrices (Host.offline Host.noon) "textiles" 7 Host.fresh
    = (Normal result, s')
    /\ ProductController.status
         (fst (ProductController.predictPrice (Host.offline Host.noon)
                 (Shop.catalogue false) "p1" Shop.opening)) = 200
    /\ ProductController.saved
         (snd (ProductController.predictPrice (Host.offline Host.noon)
                 (Shop.catalogue false) "p1" Shop.opening)) = [].
Proof.
  destruct (predictPrice_reports_the_week_ahead (Host.offline Host.noon)
              (Shop.catalogue false) "p1" Shop.opening Shop.shawl)
    as (result & s' & Hrun & Hresponse & _ & _ & _ & _ & Hworld);
    [reflexivity | reflexivity | in_range | in_range |].
  exists result, s'. split; [exact Hrun|]. split.
  - rewrite Hresponse. reflexivity.
  - rewrite Hworld. reflexivity.
Defined.

(** X21. For a product whose price is 0 the percentage that [predictPrice]
    reports with the enhanced prediction is no finite number: the change is
    divided by the price without a guard, so that the percentage is NaN,
    +Infinity or -Infinity. *)
Theorem free_product_has_no_percentage env db id w product :
  ProductController.findById db id = Normal (Some product) ->
  ProductController.import_forecastingModel db = Normal tt ->
  representable env 0 -> representable env 7 ->
  is_zero (ProductController.price product) = true ->
  exists enhanced percentage,
    fst (ProductController.predictPrice env db id w)
    = ProductController.success
        (ProductController.EnhancedData (ProductController.price product)
           enhanced percentage)
    /\ (percentage = nan \/ percentage = infinity
        \/ percentage = neg_infinity).
Proof.
  intros Hfound Himport H0 H7 Hzero.
  destruct (enhancedPrediction_run env db product w Himport H0 H7)
    as (result & s' & _ & Henhanced).
  eexists _, _. split.
  - unfold ProductController.predictPrice. rewrite Hfound, Henhanced.
    reflexivity.
  - destruct (div_by_zero
                (ProductController.predictedPrice
                   (ProductController.enhance result)
                 - ProductController.price product)%float
                (ProductController.price product) Hzero) as [H|[H|H]];
      rewrite H; [left|right; left|right; right]; reflexivity.
Qed.

(** The sample that is given away. *)
Lemma free_product_has_no_percentage_witness :
  exists enhanced percentage,
    fst (ProductController.predictPrice (Host.offline Host.noon)
           (Shop.catalogue true) "p2" Shop.opening)
    = ProductController.success
        (ProductController.EnhancedData 0%float enhanced percentage)
    /\ (percentage = nan \/ percentage = infinity
        \/ percentage = neg_infinity).
Proof.
  apply (free_product_has_no_percentage (Host.offline Host.noon)
           (Shop.catalogue true) "p2" Shop.opening Shop.sample).
  - reflexivity.
  - reflexivity.
  - in_range.
  - in_range.
  - reflexivity.
Defined.

(* ===================================================================== *)
(** * The insights                                                        *)
(* ===================================================================== *)

(** X22. The insights of a forecast are two to four, in a fixed order. The
    first tells the trend of the history and the last the number of days
    it holds. Between them comes at most one insight about next week, a
    price increase or a price decrease but never both, and then, exactly
    when the month on the host's clock is October or November, the one
    about the festival season. *)
Theorem insights_come_in_a_fixed_order env history preds category :
  exists about_trend about_next_week about_season,
    generateInsights env history preds category
    = [about_trend] ++ about_next_week ++ about_season
      ++ [DaysOfData (length (dates history))]
    /\ about_trend
       = match GovernmentPriceScraper.trend history with
         | up => TrendingUpward (changePercent history)
         | down => TrendingDownward (changePercent history)
         | stable => PricesStable
         end
    /\ (about_next_week = [] \/ about_next_week = [ForecastIncrease]
        \/ about_next_week = [ForecastDecrease])
    /\ (about_season
        = if bool_decide (getMonth (tz env) (now env) = 9
                          \/ getMonth (tz env) (now env) = 10)
          then [FestivalSeason category] else [])
    /\ (2 <= length (generateInsights env history preds category) <= 4)%nat.
Proof.
  unfold generateInsights. cbv zeta. unfold festivalMonths.
  set (month := getMonth (tz env) (now env)).
  assert (Hseason :
            (if bool_decide (month ∈ [9; 10])
             then [FestivalSeason category] else [])
            = if bool_decide (month = 9 \/ month = 10)
              then [FestivalSeason category] else []).
  { apply (f_equal (fun b : bool =>
                      if b then [FestivalSeason category] else [])).
    apply bool_decide_ext. rewrite !elem_of_cons, elem_of_nil. tauto. }
  eexists _, _, _. split; [reflexivity|]. split; [reflexivity|].
  split; [|split; [exact Hseason|]].
  - destruct (5 <? _)%float; [auto|]. destruct (_ <? -5)%float; auto.
  - rewrite !length_app.
    destruct (5 <? _)%float; [|destruct (_ <? -5)%float];
      destruct (bool_decide (month ∈ [9; 10])); cbn [length]; lia.
Qed.

(* ===================================================================== *)
(** * predictMarketPrice                                                  *)
(* ===================================================================== *)

(** X24. [predictMarketPrice] asks for a category before anything else. A
    body without a category, or with one that is empty, [null], [false], 0
    or NaN, is answered with 400 'Category is required'; a request without
    a body at all with 500 'Error predicting market price', for reading the
    category of [undefined] throws. Neither makes a forecast, draws a
    number or asks the database. The other answers are 200, or 500 when the
    forecast is not available and the database rejects the query. *)
Theorem predictMarketPrice_requires_a_category env db body s :
  (body = JNull \/ body = JUndefined ->
   HubController.predictMarketPrice env db body s
   = Some (HubController.failure 500 "Error predicting market price", s))
  /\ (forall category,
        get body "category" = Normal category -> truthy category = false ->
        HubController.predictMarketPrice env db body s
        = Some (HubController.failure 400 "Category is required", s))
  /\ (forall category response s',
        get body "category" = Normal (JStr category) ->
        category <> ""%string ->
        HubController.predictMarketPrice env db body s
        = Some (response, s') ->
        HubController.status response = 200
        \/ (response
            = HubController.failure 500 "Error predicting market price"
            /\ exists e, HubController.find db category = Throw e)).
Proof.
  split; [|split].
  - intros [->| ->]; reflexivity.
  - intros category Hget Hfalsy. unfold HubController.predictMarketPrice.
    rewrite Hget, Hfalsy. reflexivity.
  - intros category response s' Hget Hne.
    unfold HubController.predictMarketPrice. rewrite Hget.
    assert (Htruthy : truthy (JStr category) = true).
    { cbn [truthy]. destruct (String.eqb_spec category ""); [contradiction|].
      reflexivity. }
    rewrite Htruthy. cbn [negb].
    assert (Hbasic : forall s0,
              HubController.basicPrediction env db category s0
              = (response, s') ->
              HubController.status response = 200
              \/ (response
                  = HubController.failure 500 "Error predicting market price"
                  /\ exists e, HubController.find db category = Throw e)).
    { intros s0. unfold HubController.basicPrediction.
      destruct (HubController.find db category) as [prices|e].
      - cbv zeta. destruct (length prices =? 0)%nat;
          intros [= <- _]; left; reflexivity.
      - intros [= <- _]. right. eauto. }
    destruct (HubController.import_forecastingModel db).
    + destruct (forecastPrices env category 30 s) as [[result|e] s1].
      * intros [= <- _]. left. reflexivity.
      * intros [= H]. eapply Hbasic, H.
    + intros [= H]. eapply Hbasic, H.
Qed.

(** An empty category. *)
Lemma predictMarketPrice_requires_a_category_witness :
  HubController.predictMarketPrice (Host.offline Host.noon) Market.stalls
    Market.asking_for_nothing Host.fresh
  = Some (HubController.failure 400 "Category is required", Host.fresh).
Proof.
  refine (proj1 (proj2 (predictMarketPrice_requires_a_category
                          (Host.offline Host.noon) Market.stalls
                          Market.asking_for_nothing Host.fresh))
            (JStr "") _ _).
  - reflexivity.
  - reflexivity.
Defined.

(** X25. For a category that is a string, [predictMarketPrice] answers from
    the forecast of the next thirty days whenever these lie in the range of
    [Date]: the answer is 200 with the thirty predictions, the predicted
    price is that of the first of them, or the current price when that is 0
    or NaN, and the confidence is that of the first, high or medium. The
    products of the database are never asked for then: the prediction from
    the database is made only when the forecast throws. *)
Theorem predictMarketPrice_reports_the_month_ahead
  env db body s category :
  get body "category" = Normal (JStr category) ->
  category <> ""%string ->
  HubController.import_forecastingModel db = Normal tt ->
  representable env 0 -> representable env 30 ->
  exists result s',
    forecastPrices env category 30 s = (Normal result, s')
    /\ HubController.predictMarketPrice env db body s
       = Some (HubController.success
                 (HubController.Enhanced
                    (HubController.enhancedForecast category result)), s')
    /\ length (HubController.forecast30Days
                 (HubController.enhancedForecast category result)) = 30%nat
    /\ HubController.confidence
         (HubController.enhancedForecast category result) <> low
    /\ (exists first,
          head (predictions result) = Some first
          /\ HubController.predictedPrice
               (HubController.enhancedForecast category result)
             = number_or (predictedPrice first) (currentPrice result))
    /\ (forall db',
          HubController.import_forecastingModel db' = Normal tt ->
          HubController.predictMarketPrice env db' body s
          = HubController.predictMarketPrice env db body s).
Proof.
  intros Hget Hne Himport H0 H30.
  destruct (forecastPrices_total env category 30 s H0 H30)
    as (result & s' & Hrun).
  pose proof (forecastPrices_dated env _ _ _ _ _ Hrun) as [Hlen _].
  change (Z.to_nat 30) with 30%nat in Hlen.
  assert (Htruthy : truthy (JStr category) = true).
  { cbn [truthy]. destruct (String.eqb_spec category ""); [contradiction|].
    reflexivity. }
  assert (Hanswer : forall db0,
            HubController.import_forecastingModel db0 = Normal tt ->
            HubController.predictMarketPrice env db0 body s
            = Some (HubController.success
                      (HubController.Enhanced
                         (HubController.enhancedForecast category result)),
                    s')).
  { intros db0 H. unfold HubController.predictMarketPrice.
    rewrite Hget, Htruthy, H, Hrun. reflexivity. }
  exists result, s'. split; [exact Hrun|]. split; [apply Hanswer, Himport|].
  split; [exact Hlen|].
  destruct (predictions result) as [|p ps] eqn:Hps; [discriminate Hlen|].
  split; [|split].
  - unfold HubController.enhancedForecast. cbn [HubController.confidence].
    rewrite Hps.
    assert (Hfirst : predictions result !! 0%nat = Some p)
      by (rewrite Hps; reflexivity).
    destruct (forecastPrices_confidence env _ _ _ _ _ Hrun) as [Hc|Hc];
      destruct (Forall2_lookup_r _ _ _ _ _ Hc Hfirst) as (i & Hi & ->);
      apply upto_lookup in Hi; subst i; discriminate.
  - exists p. split; [reflexivity|].
    unfold HubController.enhancedForecast.
    cbn [HubController.predictedPrice]. rewrite Hps. reflexivity.
  - intros db' H. rewrite (Hanswer db' H), (Hanswer db Himport).
    reflexivity.
Qed.

(** Spices on 2 November 2026: thirty days are forecast, whether the
    database is up or down. *)
Lemma predictMarketPrice_reports_the_month_ahead_witness :
  exists result s',
    forecastPrices (Host.offline Host.noon) "spices" 30 Host.fresh
    = (Normal result, s')
    /\ length (predictions result) = 30%nat
    /\ HubController.predictMarketPrice (Host.offline Host.noon)
         Market.closed Market.asking_for_spices Host.fresh
       = HubController.predictMarketPrice (Host.offline Host.noon)
           Market.stalls Market.asking_for_spices Host.fresh.
Proof.
  destruct (predictMarketPrice_reports_the_month_ahead
              (Host.offline Host.noon) Market.stalls
              Market.asking_for_spices Host.fresh "spices")
    as (result & s' & Hrun & _ & Hlen & _ & _ & Hdb);
    [reflexivity | discriminate | reflexivity | in_range | in_range |].
  exists result, s'. split; [exact Hrun|]. split; [exact Hlen|].
  apply Hdb. reflexivity.
Defined.
